(** * Speech2Clip: a shallow embedding of the recording / recognition /
      delivery pipeline and of its persistence helpers.

    The development follows the Python sources module by module:

    - [Py]               list slicing and the values of the [json] module;
    - [AudioRecorder]    audio_recorder.py  (start / stop of a recording);
    - [Recording]        cli_demo.py and gui_main_qt.py (per-chunk loudness,
                         silence counter, automatic stop);
    - [SpeechRecognizer] speech_recognizer.py (engine dispatch, Whisper
                         confidence, exception handling);
    - [ClipboardManager] clipboard_manager.py (copy with history);
    - [Gui]              gui_main_qt.py (recognition worker, delivery,
                         history file);
    - [ConfigManager]    config_manager.py (dotted key paths).

    Python floats are IEEE binary64 numbers and are modelled by Rocq's
    primitive floats.  Calls into external libraries (PyAudio, OpenCC,
    Whisper, the Google API, the file system, the clock) are oracles:
    fields of an environment record or variables of a section. *)

From Stdlib Require Import String Ascii DecimalString.
From Stdlib Require Import ZArith List Bool Lia PeanoNat.
From Stdlib Require Import PrimFloat Uint63 FloatOps FloatAxioms SpecFloat.
Import ListNotations.

Set Implicit Arguments.
Set Warnings "-register-all,-inexact-float".

(* ================================================================== *)
(** * Python values and list slicing *)
(* ================================================================== *)

Module Py.

(** Values that [json.load] produces and [json.dump] accepts.  A Python
    [dict] keeps insertion order and has unique keys; it is represented
    by an association list that [dict_set] keeps duplicate free. *)
Inductive json : Type :=
| JNull
| JBool (b : bool)
| JInt (z : Z)
| JFloat (f : float)
| JStr (s : string)
| JArr (l : list json)
| JObj (d : list (string * json)).

(** [d.get(key)] / [d[key]] / [key in d]. *)
Fixpoint dict_get (d : list (string * json)) (key : string) : option json :=
  match d with
  | [] => None
  | (k, v) :: rest => if String.eqb k key then Some v else dict_get rest key
  end.

(** [d[key] = value]: an existing key keeps its position, a new key is
    appended. *)
Fixpoint dict_set (d : list (string * json)) (key : string) (value : json)
  : list (string * json) :=
  match d with
  | [] => [(key, value)]
  | (k, v) :: rest =>
      if String.eqb k key then (k, value) :: rest
      else (k, v) :: dict_set rest key value
  end.

Definition dict_mem (d : list (string * json)) (key : string) : bool :=
  match dict_get d key with Some _ => true | None => false end.

(** [l[i:]] for a Python integer [i]: a negative start counts from the
    end and is clamped at the beginning of the list. *)
Definition slice_from {A} (i : Z) (l : list A) : list A :=
  if (i <? 0)%Z then skipn (length l - Z.to_nat (- i)) l
  else skipn (Z.to_nat i) l.

(** [l[:j]] for a Python integer [j]. *)
Definition slice_to {A} (j : Z) (l : list A) : list A :=
  if (j <? 0)%Z then firstn (length l - Z.to_nat (- j)) l
  else firstn (Z.to_nat j) l.

(** [len(l)] as a Python integer. *)
Definition len {A} (l : list A) : Z := Z.of_nat (length l).

(** [s.split(sep)] for a one-character separator: never the empty
    list, empty fields are kept. *)
Fixpoint split (sep : ascii) (s : string) : list string :=
  match s with
  | EmptyString => [EmptyString]
  | String c rest =>
      if Ascii.eqb c sep then EmptyString :: split sep rest
      else match split sep rest with
           | [] => [String c EmptyString]
           | w :: ws => String c w :: ws
           end
  end.

(** [str(z)] for a Python integer. *)
Definition str_of_int (z : Z) : string := NilZero.string_of_int (Z.to_int z).

(** The last [n] elements of a list, in their order. *)
Definition lastn {A} (n : nat) (l : list A) : list A :=
  skipn (length l - n) l.

(** [s[:n]] on strings. *)
Fixpoint str_prefix (n : nat) (s : string) : string :=
  match n, s with
  | S n', String c rest => String c (str_prefix n' rest)
  | _, _ => EmptyString
  end.

End Py.

(* ================================================================== *)
(** * audio_recorder.py *)
(* ================================================================== *)

Module AudioRecorder.

(** A stream handle returned by [PyAudio.open]. *)
Definition handle := nat.

Section Recorder.

(** [PyAudio.open] for a device index ([None] is the default device):
    whether the device can be opened.  A failure is the exception the
    [try] of [start_recording] catches; the oracle gives its message,
    [None] when the stream opens.  The callbacks [on_recording_start]
    and [on_error] are optional; when set they return normally. *)
Variable device_open_error : option Z -> option string.

(** The fields of [AudioRecorder] together with the part of the
    world the methods act on: the streams opened on [self.audio] so
    far, the messages passed to [on_error], the calls of
    [on_recording_start]. *)
Record recorder : Type := mkRecorder {
  opened_streams : list handle;
  stream : option handle;
  frames : list (list Z);
  is_recording : bool;
  recording_thread : option handle;
  on_recording_start : bool;
  on_error : bool;
  start_calls : nat;
  error_log : list string
}.

Definition report_error (msg : string) (r : recorder) : recorder :=
  if on_error r then
    mkRecorder (opened_streams r) (stream r) (frames r) (is_recording r)
      (recording_thread r) (on_recording_start r) (on_error r)
      (start_calls r) (error_log r ++ [msg])
  else r.

(** [__init__]: no stream, no frames, not recording. *)
Definition init : recorder :=
  mkRecorder [] None [] false None false false 0 [].

(** [start_recording(device_index)] returns the new state and the
    boolean result. *)
Definition start_recording (r : recorder) (device_index : option Z)
  : recorder * bool :=
  if is_recording r then (r, false)
  else
    let r1 := mkRecorder (opened_streams r) (stream r) [] (is_recording r)
                (recording_thread r) (on_recording_start r) (on_error r)
                (start_calls r) (error_log r) in
    match device_open_error device_index with
    | None =>
      let h := length (opened_streams r1) in
      let r2 := mkRecorder (opened_streams r1 ++ [h]) (Some h) []
                  true (Some h) (on_recording_start r1) (on_error r1)
                  (if on_recording_start r1 then S (start_calls r1)
                   else start_calls r1)
                  (error_log r1) in
      (r2, true)
    | Some e =>
      (report_error ("开始录音失败: " ++ e)%string r1, false)
    end.

(** [stop_recording()]: the joined frames, or [None]. *)
Definition stop_recording (r : recorder) : recorder * option (list Z) :=
  if negb (is_recording r) then (r, None)
  else
    let r1 := mkRecorder (opened_streams r) None (frames r) false
                (recording_thread r) (on_recording_start r) (on_error r)
                (start_calls r) (error_log r) in
    match frames r with
    | [] => (r1, None)
    | _ => (r1, Some (concat (frames r)))
    end.

(** One iteration of [_record_audio], the loop of the recording thread:
    while the recorder is recording and has a stream, the chunk read is
    appended to the frames. *)
Definition _record_audio_step (r : recorder) (data : list Z) : recorder :=
  if is_recording r then
    match stream r with
    | Some _ =>
        mkRecorder (opened_streams r) (stream r) (frames r ++ [data])
          (is_recording r) (recording_thread r) (on_recording_start r)
          (on_error r) (start_calls r) (error_log r)
    | None => r
    end
  else r.

(** The recording thread reading the chunks [chunks] one after the
    other. *)
Definition _record_audio (r : recorder) (chunks : list (list Z)) : recorder :=
  fold_left _record_audio_step chunks r.

End Recorder.

End AudioRecorder.


(* ================================================================== *)
(** * cli_demo.py and gui_main_qt.py: the recording loops *)
(* ================================================================== *)

Module Recording.

(** One chunk as [np.frombuffer(data, dtype=np.int16)] decodes it: the
    signed 16-bit samples of one [stream.read]. *)
Definition chunk := list Z.

(** Arithmetic on an [int16] array wraps around. *)
Definition int16 (z : Z) : Z := ((z + 32768) mod 65536 - 32768)%Z.

(** Conversion of a Python integer to a float (exact below 2^53). *)
Definition float_of_Z (z : Z) : float :=
  if (z <? 0)%Z then PrimFloat.opp (PrimFloat.of_uint63 (Uint63.of_Z (- z)))
  else PrimFloat.of_uint63 (Uint63.of_Z z).

(** [np.mean] of an integer array: the sum is accumulated in a float
    (exactly, the partial sums being small integers) and divided by the
    number of elements; the empty array gives [nan]. *)
Definition np_mean (a : list Z) : float :=
  PrimFloat.div (float_of_Z (fold_right Z.add 0%Z a))
                (float_of_Z (Py.len a)).

(** cli_demo.py: [rms = np.sqrt(np.mean(audio_np ** 2))].  The square
    is taken in [int16]. *)
Definition rms (audio_np : chunk) : float :=
  PrimFloat.sqrt (np_mean (map (fun x => int16 (x * x)) audio_np)).

(** gui_main_qt.py: [level = np.abs(audio_np).mean() / 32768]. *)
Definition level (audio_np : chunk) : float :=
  PrimFloat.div (np_mean (map (fun x => int16 (Z.abs x)) audio_np))
                32768%float.

(** Python's [min(a, b)]: [b] when [b < a], else [a]. *)
Definition py_min (a b : float) : float :=
  if PrimFloat.ltb b a then b else a.

(** The loop of [custom_record_with_silence_detection], for any test
    of silence on chunks; [stream_read i] is the chunk that the
    [i]-th blocking [stream.read(CHUNK)] returns. *)
Section Loop.

Variable Chunk : Type.
Variable silent : Chunk -> bool.
Variable stream_read : nat -> Chunk.
Variable silence_chunk_limit : Z.

Record state : Type := mkState {
  frames : list Chunk;
  silent_chunks : Z
}.

(** Lines 52-59: one chunk read, appended and classified. *)
Definition read_chunk (st : state) (data : Chunk) : state :=
  mkState (frames st ++ [data])
          (if silent data then (silent_chunks st + 1)%Z else 0%Z).

(** [for i in range(max_chunks): ... if silent_chunks >=
    silence_chunk_limit: break], with [n] iterations left. *)
Fixpoint for_loop (n i : nat) (st : state) : state :=
  match n with
  | O => st
  | S n' =>
      let st' := read_chunk st (stream_read i) in
      if (silence_chunk_limit <=? silent_chunks st')%Z then st'
      else for_loop n' (S i) st'
  end.

Definition record_loop (max_chunks : Z) : state :=
  for_loop (Z.to_nat max_chunks) 0 (mkState [] 0%Z).

(** The two conditions in the words of the specification: the
    silence accumulated after [k] chunks (the current run of silent
    chunks), and whether a session that has read [k] chunks is due
    to finalize. *)
Fixpoint silence_after (k : nat) : Z :=
  match k with
  | O => 0%Z
  | S k' => if silent (stream_read k') then (silence_after k' + 1)%Z
            else 0%Z
  end.


(** The loop invariant: after [i] chunks the buffer holds the first
    [i] chunks of the stream and the counter is their silence run. *)
Definition tracks (i : nat) (st : state) : Prop :=
  frames st = map stream_read (seq 0 i) /\
  silent_chunks st = silence_after i.

End Loop.

(** [int(RATE / CHUNK * seconds)] for a whole number of seconds:
    16000 / 1024 = 15.625 = 125 / 8, truncated towards zero. *)
Definition chunks_of_seconds (seconds : Z) : Z := Z.quot (125 * seconds) 8.

(** [custom_record_with_silence_detection(device_index, silence_seconds,
    max_seconds, threshold)]: the recorded frames and the final counter. *)
Definition custom_record_with_silence_detection
    (stream_read : nat -> chunk)
    (silence_seconds max_seconds : Z) (threshold : float) : state chunk :=
  record_loop (fun data => PrimFloat.ltb (rms data) threshold)
              stream_read
              (chunks_of_seconds silence_seconds)
              (chunks_of_seconds max_seconds).

(** The body of the [while self.is_recording] loop of
    [Speech2ClipGUI.record_audio]. *)
Record gui_state : Type := mkGui {
  audio_frames : list chunk;
  audio_level : float;
  silence_count : Z
}.


Definition gui_read_chunk (st : gui_state) (data : chunk) : gui_state :=
  mkGui (audio_frames st ++ [data])
        (py_min (PrimFloat.mul (level data) 10%float) 1%float)
        (if PrimFloat.ltb (level data) 0.01%float
         then (silence_count st + 1)%Z else 0%Z).


(** The metric of the command-line loop as a plain root mean square:
    the square root of the mean of the squared samples, the squares
    taken as integers, on the raw sample scale. *)
Definition root_mean_square (audio_np : chunk) : float :=
  PrimFloat.sqrt (np_mean (map (fun x => (x * x)%Z) audio_np)).

(** The samples whose square fits a signed 16-bit integer:
    181 * 181 = 32761 and 182 * 182 = 33124. *)
Definition squares_fit (audio_np : chunk) : bool :=
  forallb (fun x => (-181 <=? x)%Z && (x <=? 181)%Z) audio_np.

(** The metric of the window as a plain mean magnitude: the mean of the
    absolute sample values, divided by full scale. *)
Definition mean_magnitude_normalized (audio_np : chunk) : float :=
  PrimFloat.div (np_mean (map Z.abs audio_np)) 32768%float.

(** The samples whose magnitude fits a signed 16-bit integer: all but
    -32768. *)
Definition magnitudes_fit (audio_np : chunk) : bool :=
  forallb (fun x => (-32767 <=? x)%Z && (x <=? 32767)%Z) audio_np.

(** The metric in the words of the specification: the root mean square
    of the sample magnitudes, normalised to [0,1] by full scale. *)
Definition rms_normalized (audio_np : chunk) : float :=
  PrimFloat.div
    (PrimFloat.sqrt (np_mean (map (fun x => (Z.abs x * Z.abs x)%Z) audio_np)))
    32768%float.

End Recording.

(* ================================================================== *)
(** * speech_recognizer.py *)
(* ================================================================== *)

Module SpeechRecognizer.

Inductive RecognitionEngine : Type :=
| GOOGLE | GOOGLE_CLOUD | WHISPER | BING | HOUNDIFY | IBM.

(** The exceptions that reach the handlers of this module; all are
    subclasses of [Exception]. *)
Inductive exn : Type :=
| UnknownValueError
| RequestError (msg : string)
| WaitTimeoutError
| ImportError (msg : string)
| RuntimeError (msg : string)
| TypeError (msg : string)
| OSError (msg : string)
| NameError (msg : string).

(** [str(e)]. *)
Definition str_of_exn (e : exn) : string :=
  match e with
  | UnknownValueError => ""
  | WaitTimeoutError => ""
  | RequestError msg | ImportError msg | RuntimeError msg
  | TypeError msg | OSError msg | NameError msg => msg
  end.

(** A Python call either returns or raises. *)
Inductive outcome (A : Type) : Type :=
| Return (a : A)
| Raise (e : exn).
Arguments Return {A} a.
Arguments Raise {A} e.

Definition bind {A B} (c : outcome A) (k : A -> outcome B) : outcome B :=
  match c with
  | Return a => k a
  | Raise e => Raise e
  end.

(** [try: body  except Exception: handler]. *)
Definition try_except {A} (body : outcome A) (handler : exn -> outcome A)
  : outcome A :=
  match body with
  | Return a => Return a
  | Raise e => handler e
  end.

(** [try: body  finally: cleanup]: an exception of the cleanup replaces
    the outcome of the body. *)
Definition try_finally {A} (body : outcome A) (cleanup : outcome unit)
  : outcome A :=
  match cleanup with
  | Return _ => body
  | Raise e => Raise e
  end.

Declare Scope py_scope.
Notation "x <- c ;; k" := (bind c (fun x => k))
  (at level 61, c at next level, right associativity) : py_scope.
Local Open Scope py_scope.

(** [sr.AudioData(frame_data, sample_rate, sample_width)]. *)
Record AudioData : Type := mkAudioData {
  frame_data : list Z;
  sample_rate : Z;
  sample_width : Z
}.

(** One element of [result['segments']]; [confidence] is [None] when
    the key is absent. *)
Record segment : Type := mkSegment {
  confidence : option float
}.

(** The dictionary returned by [model.transcribe]; a field is [None]
    when the key is absent. *)
Record transcription : Type := mkTranscription {
  text : option string;
  segments : option (list segment)
}.

(** The external calls of the module. *)
Record backend : Type := mkBackend {
  recognize_google : AudioData -> string -> outcome string;
  load_model : string -> outcome string;
  named_temporary_file : outcome string;
  write_wav : string -> AudioData -> outcome unit;
  transcribe : string -> string -> string -> outcome transcription;
  path_exists : string -> bool;
  unlink : string -> outcome unit;
  audio_file_record : string -> outcome AudioData;
  strip : string -> string
}.

(** The fields of [SpeechRecognizer] that the methods read or write;
    [whisper_model_name] is [engine_configs[WHISPER]['model']]. *)
Record recognizer : Type := mkRecognizer {
  current_engine : RecognitionEngine;
  default_language : string;
  whisper_model_name : string;
  _whisper_model : option string
}.

(** [__init__]. *)
Definition init : recognizer := mkRecognizer GOOGLE "zh-CN" "base" None.

Definition float_of_nat (n : nat) : float :=
  PrimFloat.of_uint63 (Uint63.of_Z (Z.of_nat n)).

(** [sum(confidences)]: left to right, starting from 0. *)
Definition py_sum (l : list float) : float :=
  fold_left PrimFloat.add l 0%float.

(** Lines 195-201. *)
Definition avg_confidence (result : transcription) : float :=
  match segments result with
  | Some (seg :: segs) =>
      let confidences :=
        flat_map (fun s => match confidence s with
                           | Some c => [c]
                           | None => []
                           end) (seg :: segs) in
      match confidences with
      | [] => 0.8%float
      | _ => PrimFloat.div (py_sum confidences)
                           (float_of_nat (length confidences))
      end
  | _ => 0.8%float
  end.

Definition no_result : option string * float := (None, 0%float).

(** [_recognize_whisper(audio, language)]: the result and the
    recognizer, whose model cache may have been filled. *)
Definition _recognize_whisper (b : backend) (self : recognizer)
    (audio : AudioData) (language : string)
  : outcome (option string * float) * recognizer :=
  let loaded :=
    match _whisper_model self with
    | Some m => (Return m, self)
    | None =>
        match load_model b (whisper_model_name self) with
        | Return m =>
            (Return m,
             mkRecognizer (current_engine self) (default_language self)
                          (whisper_model_name self) (Some m))
        | Raise e => (Raise e, self)
        end
    end in
  let body :=
    model <- fst loaded ;;
    temp_path <- named_temporary_file b ;;
    try_finally
      (_ <- write_wav b temp_path audio ;;
       result <- transcribe b model temp_path (Py.str_prefix 2 language) ;;
       Return (Some (strip b (match text result with
                              | Some t => t
                              | None => ""%string
                              end)),
               avg_confidence result))
      (if path_exists b temp_path then unlink b temp_path else Return tt) in
  (try_except body
     (fun e => match e with
               | ImportError _ => Return no_result
               | _ => Return no_result
               end),
   snd loaded).

(** [_recognize_google(audio, language)]: the handler re-raises. *)
Definition _recognize_google (b : backend) (audio : AudioData)
    (language : string) : outcome (option string * float) :=
  try_except
    (text <- recognize_google b audio language ;;
     Return (Some text, 0.85%float))
    (fun e => Raise e).

(** [_recognize_audio(audio, language)]. *)
Definition _recognize_audio (b : backend) (self : recognizer)
    (audio : AudioData) (language : option string)
  : outcome (option string * float) * recognizer :=
  let language := match language with
                  | None => default_language self
                  | Some l => l
                  end in
  let dispatched :=
    match current_engine self with
    | GOOGLE => (_recognize_google b audio language, self)
    | WHISPER => _recognize_whisper b self audio language
    | _ => (Return no_result, self)
    end in
  (try_except (fst dispatched)
     (fun e => match e with
               | UnknownValueError => Return no_result
               | RequestError _ => Return no_result
               | _ => Return no_result
               end),
   snd dispatched).

(** [recognize_from_audio_data(audio_data, language)]. *)
Definition recognize_from_audio_data (b : backend) (self : recognizer)
    (audio_data : list Z) (language : option string)
  : outcome (option string * float) * recognizer :=
  let r := _recognize_audio b self (mkAudioData audio_data 44100 2)
             language in
  (try_except (fst r) (fun _ => Return no_result), snd r).

(** [recognize_from_file(audio_file_path, language)]. *)
Definition recognize_from_file (b : backend) (self : recognizer)
    (audio_file_path : string) (language : option string)
  : outcome (option string * float) * recognizer :=
  match audio_file_record b audio_file_path with
  | Raise _ => (Return no_result, self)
  | Return audio =>
      let r := _recognize_audio b self audio language in
      (try_except (fst r) (fun _ => Return no_result), snd r)
  end.

(** The model that [_recognize_whisper] transcribes with: the cached
    one, or the one it loads. *)
Definition model_available (b : backend) (self : recognizer)
    (model : string) : Prop :=
  _whisper_model self = Some model \/
  (_whisper_model self = None /\
   load_model b (whisper_model_name self) = Return model).

(** The per-segment scores the engine reports, and their arithmetic
    mean, in the words of the specification. *)
Fixpoint reported_scores (segs : list segment) : list float :=
  match segs with
  | [] => []
  | s :: rest =>
      match confidence s with
      | Some c => c :: reported_scores rest
      | None => reported_scores rest
      end
  end.

Definition arithmetic_mean (scores : list float) : float :=
  PrimFloat.div (fold_left PrimFloat.add scores 0%float)
                (float_of_nat (length scores)).

(** The keys of [self.supported_languages]. *)
Definition supported_languages : list string :=
  ["zh-CN"; "zh-TW"; "en-US"; "en-GB"; "ja-JP"; "ko-KR"; "fr-FR"; "de-DE";
   "es-ES"; "ru-RU"]%string.

(** [set_language(language_code)]. *)
Definition set_language (self : recognizer) (language_code : string)
  : recognizer * bool :=
  if existsb (String.eqb language_code) supported_languages then
    (mkRecognizer (current_engine self) language_code
                  (whisper_model_name self) (_whisper_model self), true)
  else (self, false).

(** [set_engine(engine)]. *)
Definition set_engine (self : recognizer) (engine : RecognitionEngine)
  : recognizer * bool :=
  (mkRecognizer engine (default_language self) (whisper_model_name self)
                (_whisper_model self), true).

(** [batch_recognize(audio_files, language)]: one triple per file, in
    order; the recognizer is threaded through the calls. *)
Fixpoint batch_recognize (b : backend) (self : recognizer)
    (audio_files : list string) (language : option string)
  : outcome (list (string * option string * float)) * recognizer :=
  match audio_files with
  | [] => (Return [], self)
  | file_path :: rest =>
      let r := recognize_from_file b self file_path language in
      match fst r with
      | Raise e => (Raise e, snd r)
      | Return (text, confidence) =>
          let rs := batch_recognize b (snd r) rest language in
          (results <- fst rs ;;
           Return ((file_path, text, confidence) :: results),
           snd rs)
      end
  end.

(** Two backends to run the module on.  [quiet_backend]: Whisper is
    installed and finds no speech (empty text, no segments), as it does
    on a recording without samples; the Google service is unreachable.
    [scored_backend]: Whisper reports three segments, two of them with
    a confidence. *)
Definition quiet_backend : backend :=
  mkBackend
    (fun _ _ => Raise (RequestError "recognition connection failed"))
    (fun name => Return name)
    (Return "/tmp/tmp0.wav"%string)
    (fun _ _ => Return tt)
    (fun _ _ _ => Return (mkTranscription (Some ""%string) (Some [])))
    (fun _ => true)
    (fun _ => Return tt)
    (fun _ => Return (mkAudioData [] 16000 2))
    (fun s => s).

Definition scored_backend : backend :=
  mkBackend
    (fun _ _ => Raise UnknownValueError)
    (fun name => Return name)
    (Return "/tmp/tmp0.wav"%string)
    (fun _ _ => Return tt)
    (fun _ _ _ =>
       Return (mkTranscription (Some "ni hao"%string)
                 (Some [mkSegment (Some 0.9%float); mkSegment None;
                        mkSegment (Some 0.5%float)])))
    (fun _ => true)
    (fun _ => Return tt)
    (fun _ => Return (mkAudioData [1; 2; 3; 4]%Z 16000 2))
    (fun s => s).

(** [failing_backend]: the audio file is read, Whisper loads, and the
    transcription raises. *)
Definition failing_backend : backend :=
  mkBackend
    (fun _ _ => Raise UnknownValueError)
    (fun name => Return name)
    (Return "/tmp/tmp0.wav"%string)
    (fun _ _ => Return tt)
    (fun _ _ _ => Raise (RuntimeError "transcription failed"))
    (fun _ => true)
    (fun _ => Return tt)
    (fun _ => Return (mkAudioData [1; 2; 3; 4]%Z 16000 2))
    (fun s => s).

(** [spoken_backend]: the Google service recognises the speech; Whisper
    is not installed. *)
Definition spoken_backend : backend :=
  mkBackend
    (fun _ _ => Return "ni hao"%string)
    (fun _ => Raise (ImportError "No module named 'whisper'"))
    (Return "/tmp/tmp0.wav"%string)
    (fun _ _ => Return tt)
    (fun _ _ _ => Raise (RuntimeError "transcription failed"))
    (fun _ => true)
    (fun _ => Return tt)
    (fun _ => Return (mkAudioData [1; 2; 3; 4]%Z 16000 2))
    (fun s => s).

End SpeechRecognizer.

(* ================================================================== *)
(** * clipboard_manager.py *)
(* ================================================================== *)

Module ClipboardManager.

Section Manager.

(** [datetime.now()] values, and [ClipboardEntry._generate_id], which
    formats the time stamp and the (per-process) hash of the content. *)
Variable datetime : Type.
Variable _generate_id : datetime -> string -> string.

Record ClipboardEntry : Type := mkEntry {
  content : string;
  content_type : string;
  timestamp : datetime;
  metadata : list (string * Py.json);
  id : string
}.

(** [ClipboardEntry(content, content_type, metadata)] at time [now]. *)
Definition new_entry (now : datetime) (content content_type : string)
    (metadata : option (list (string * Py.json))) : ClipboardEntry :=
  mkEntry content content_type now
          (match metadata with Some m => m | None => [] end)
          (_generate_id now content).

(** The fields of [ClipboardManager]; [history_file] is the list last
    written to the history file, [copied] the texts passed to
    [on_copy_success], [errors] those passed to [on_copy_error].  The
    callbacks are optional and return normally when set. *)
Record manager : Type := mkManager {
  max_history : Z;
  auto_save : bool;
  history : list ClipboardEntry;
  history_file : option (list ClipboardEntry);
  on_copy_success : bool;
  on_copy_error : bool;
  copied : list string;
  errors : list string
}.

Definition with_history (m : manager) (h : list ClipboardEntry) : manager :=
  mkManager (max_history m) (auto_save m) h (history_file m)
            (on_copy_success m) (on_copy_error m) (copied m) (errors m).

(** [save_history()]: rewrites the file, or fails and returns
    [False]; [write_ok] is the outcome of the file operations. *)
Definition save_history (write_ok : bool) (m : manager) : manager * bool :=
  if write_ok then
    (mkManager (max_history m) (auto_save m) (history m)
               (Some (history m)) (on_copy_success m) (on_copy_error m)
               (copied m) (errors m), true)
  else (m, false).

(** [_add_to_history(entry)]. *)
Definition _add_to_history (write_ok : bool) (m : manager)
    (entry : ClipboardEntry) : manager :=
  let duplicate :=
    match history m with
    | e0 :: _ => String.eqb (content e0) (content entry)
    | [] => false
    end in
  if duplicate then m
  else
    let h1 := entry :: history m in
    let h2 := if (max_history m <? Py.len h1)%Z
              then Py.slice_to (max_history m) h1 else h1 in
    let m2 := with_history m h2 in
    if auto_save m2 then fst (save_history write_ok m2) else m2.

(** [copy_text(text, metadata)].  [pyperclip_error] is the exception
    message of [pyperclip.copy], [None] when it succeeds.  The result
    is the boolean, the manager and the system clipboard. *)
Definition copy_text (now : datetime) (pyperclip_error : option string)
    (write_ok : bool) (clipboard : string) (m : manager)
    (text : string) (metadata : option (list (string * Py.json)))
  : bool * manager * string :=
  match pyperclip_error with
  | Some e =>
      let error_msg := ("复制到剪贴板失败: " ++ e)%string in
      (false,
       mkManager (max_history m) (auto_save m) (history m)
                 (history_file m) (on_copy_success m) (on_copy_error m)
                 (copied m)
                 (if on_copy_error m then errors m ++ [error_msg]
                  else errors m),
       clipboard)
  | None =>
      let entry := new_entry now text "text" metadata in
      let m1 := _add_to_history write_ok m entry in
      (true,
       mkManager (max_history m1) (auto_save m1) (history m1)
                 (history_file m1) (on_copy_success m1) (on_copy_error m1)
                 (if on_copy_success m1 then copied m1 ++ [text]
                  else copied m1)
                 (errors m1),
       text)
  end.

(** [get_entry_by_id(entry_id)]: the first entry with this id. *)
Definition get_entry_by_id (m : manager) (entry_id : string)
  : option ClipboardEntry :=
  find (fun entry => String.eqb (id entry) entry_id) (history m).

(** [del self.history[i]] for the first entry with the id; [None] when
    the loop of [delete_entry] finds none. *)
Fixpoint delete_first (entry_id : string) (h : list ClipboardEntry)
  : option (list ClipboardEntry) :=
  match h with
  | [] => None
  | entry :: rest =>
      if String.eqb (id entry) entry_id then Some rest
      else match delete_first entry_id rest with
           | Some rest' => Some (entry :: rest')
           | None => None
           end
  end.

(** [delete_entry(entry_id)]. *)
Definition delete_entry (write_ok : bool) (m : manager) (entry_id : string)
  : manager * bool :=
  match delete_first entry_id (history m) with
  | Some h' =>
      let m' := with_history m h' in
      (if auto_save m' then fst (save_history write_ok m') else m', true)
  | None => (m, false)
  end.

(** [clear_history()]. *)
Definition clear_history (write_ok : bool) (m : manager) : manager * bool :=
  let m' := with_history m [] in
  (if auto_save m' then fst (save_history write_ok m') else m', true).

(** One round of the loop of [_monitor_clipboard]: [current_content] is
    what [pyperclip.paste()] returns, [None] when it raises; the result
    is the manager and [self.last_clipboard_content]. *)
Definition monitor_step (now : datetime) (write_ok : bool) (m : manager)
    (last_clipboard_content : string) (current_content : option string)
  : manager * string :=
  match current_content with
  | None => (m, last_clipboard_content)
  | Some current =>
      if String.eqb current last_clipboard_content
      then (m, last_clipboard_content)
      else
        (match current with
         | EmptyString => m
         | _ =>
             _add_to_history write_ok m
               (new_entry now current "text"
                  (Some [("source"%string, Py.JStr "system_monitor")]))
         end,
         current)
  end.

(** No two neighbours of the history have the same content. *)
Fixpoint no_repeat (h : list ClipboardEntry) : Prop :=
  match h with
  | e1 :: ((e2 :: _) as rest) => content e1 <> content e2 /\ no_repeat rest
  | _ => True
  end.

End Manager.

End ClipboardManager.

(* ================================================================== *)
(** * gui_main_qt.py: recognition worker, delivery, history file *)
(* ================================================================== *)

Module Gui.

Import SpeechRecognizer.
Local Open Scope py_scope.

(** What [open(self.history_file)] finds. *)
Inductive file_content : Type :=
| NoFile
| Garbage
| Json (data : Py.json).

(** Outcome of the file operations of [save_history]: [open] can fail
    (the file is untouched) and [json.dump] can fail after the file was
    truncated. *)
Inductive write_result : Type :=
| Written
| OpenFailed
| DumpFailed.

Section Window.

(** [OpenCC('t2s').convert]; the identity when opencc is missing. *)
Variable t2s : string -> string.

(** The clock: [clock_iso k] and [clock_timestamp k] are
    [datetime.now().isoformat()] and [int(datetime.now().timestamp())]
    at the [k]-th reading of one [save_history]. *)
Variable clock_iso : nat -> string.
Variable clock_timestamp : nat -> Z.

(** The time stamps of the clipboard manager behind
    [set_clipboard_text]. *)
Variable datetime : Type.
Variable _generate_id : datetime -> string -> string.

(** The fields of [Speech2ClipGUI] used by the pipeline, with the
    system clipboard, the history file and the module-level
    [set_clipboard_text] ([None] when the import failed; then the Qt
    clipboard is written). *)
Record window : Type := mkWindow {
  history : list Py.json;
  max_history : Z;
  history_file : file_content;
  clipboard : string;
  set_clipboard_text :
    option (ClipboardManager.manager datetime);
  result_text : string;
  copy_status : list string;
  current_model : string
}.

(** [to_simplified(text)]: [convert] raises on [None], and the
    handler returns the argument. *)
Definition to_simplified (text : option string) : option string :=
  match text with
  | Some s => Some (t2s s)
  | None => None
  end.

(** [save_history()]. *)
Definition history_entry (i : nat) (text : Py.json) : Py.json :=
  Py.JObj
    [ ("id"%string,
       Py.JStr ("speech_" ++ Py.str_of_int (clock_timestamp (2 * i + 1))
                ++ "_" ++ Py.str_of_int (Z.of_nat i))%string);
      ("text"%string, text);
      ("timestamp"%string, Py.JStr (clock_iso (2 * i + 2)));
      ("source"%string, Py.JStr "speech_recognition");
      ("confidence"%string, Py.JFloat 0.8%float) ].

Fixpoint history_entries (i : nat) (h : list Py.json) : list Py.json :=
  match h with
  | [] => []
  | text :: rest => history_entry i text :: history_entries (S i) rest
  end.

Definition history_data (h : list Py.json) : Py.json :=
  Py.JObj
    [ ("version"%string, Py.JStr "1.0");
      ("last_saved"%string, Py.JStr (clock_iso 0));
      ("total_entries"%string, Py.JInt (Py.len h));
      ("entries"%string, Py.JArr (history_entries 0 h)) ].

Definition with_file (w : window) (f : file_content) : window :=
  mkWindow (history w) (max_history w) f (clipboard w)
           (set_clipboard_text w) (result_text w) (copy_status w)
           (current_model w).

Definition with_history (w : window) (h : list Py.json) : window :=
  mkWindow h (max_history w) (history_file w) (clipboard w)
           (set_clipboard_text w) (result_text w) (copy_status w)
           (current_model w).

Definition save_history (io : write_result) (w : window) : window * bool :=
  match io with
  | Written => (with_file w (Json (history_data (history w))), true)
  | OpenFailed => (w, false)
  | DumpFailed => (with_file w Garbage, false)
  end.

(** [[entry.get('text', '') for entry in entries]]: [None] when an
    element is not a dictionary (the attribute error). *)
Fixpoint entry_texts (entries : list Py.json) : option (list Py.json) :=
  match entries with
  | [] => Some []
  | Py.JObj d :: rest =>
      match entry_texts rest with
      | Some ts =>
          Some (match Py.dict_get d "text" with
                | Some t => t
                | None => Py.JStr ""
                end :: ts)
      | None => None
      end
  | _ :: _ => None
  end.

(** [load_history()]: every exception leaves the empty history. *)
Definition load_history (w : window) : window :=
  with_history w
    match history_file w with
    | NoFile => []
    | Garbage => []
    | Json (Py.JArr data) => Py.slice_from (- max_history w) data
    | Json (Py.JObj data) =>
        match Py.dict_get data "entries" with
        | Some (Py.JArr entries) =>
            match entry_texts (Py.slice_from (- max_history w) entries) with
            | Some texts => texts
            | None => []
            end
        | _ => []
        end
    | Json _ => []
    end.

(** The clipboard write of [after_recognition] and
    [on_history_click]. *)
Definition write_clipboard (now : datetime)
    (pyperclip_error : option string) (manager_write_ok : bool)
    (w : window) (text : string) : window :=
  match set_clipboard_text w with
  | Some m =>
      let '(_, m', clip) :=
        ClipboardManager.copy_text _generate_id now pyperclip_error
          manager_write_ok (clipboard w) m text None in
      mkWindow (history w) (max_history w) (history_file w) clip
               (Some m') (result_text w) (copy_status w) (current_model w)
  | None =>
      mkWindow (history w) (max_history w) (history_file w) text
               None (result_text w) (copy_status w) (current_model w)
  end.

(** [after_recognition(text_simp)], the slot of
    [recognitionFinished]. *)
Definition after_recognition (now : datetime)
    (pyperclip_error : option string) (manager_write_ok : bool)
    (io : write_result) (w : window) (text : string) : window :=
  let text_simp := t2s text in
  let w1 := mkWindow (history w) (max_history w) (history_file w)
              (clipboard w) (set_clipboard_text w) (t2s text_simp)
              (copy_status w) (current_model w) in
  let w2 := write_clipboard now pyperclip_error manager_write_ok w1
              text_simp in
  let h1 := history w2 ++ [Py.JStr text_simp] in
  let h2 := if (max_history w2 <? Py.len h1)%Z
            then Py.slice_from (- max_history w2) h1 else h1 in
  let w3 := fst (save_history io (with_history w2 h2)) in
  mkWindow (history w3) (max_history w3) (history_file w3) (clipboard w3)
           (set_clipboard_text w3) (result_text w3)
           (copy_status w3 ++ [t2s "识别结果已自动复制到剪贴板！"])
           (current_model w3).

(** [recognitionFinished.emit(v)] on a [pyqtSignal(str)]: a value that
    is not a string is a type error, with PyQt's message. *)
Variable emit_type_error : string.

Definition emit (v : option string) : outcome string :=
  match v with
  | Some s => Return s
  | None => Raise (TypeError emit_type_error)
  end.

(** The closure of the handler of [do_recognition],
    [lambda: self.recognitionFinished.emit(f'[识别失败] {str(e)}')].
    It reads [e] when it is called; [None] is the variable unbound. *)
Definition failure_closure (e : option exn) : outcome string :=
  match e with
  | Some e => emit (Some ("[识别失败] " ++ str_of_exn e)%string)
  | None =>
      Raise (NameError
               "cannot access free variable 'e' where it is not associated with a value in enclosing scope")
  end.

(** [run_on_main(func)] is [QTimer.singleShot(0, func)]: [func] is
    called from the event loop once the caller has returned, and an
    exception it raises reaches no handler of the window.  The result
    is what [func] emits, if anything. *)
Definition run_on_main (func : outcome string) : option string :=
  match func with
  | Return payload => Some payload
  | Raise _ => None
  end.

(** [do_recognition(wav_path)]: the string that reaches the slot, if
    one does.  [module_found] tells whether speech_recognizer was
    imported, [os_remove] is the outcome of [os.remove(wav_path)].
    [except Exception as e] unbinds [e] where the clause ends, which is
    before the closure given to [run_on_main] is called. *)
Definition do_recognition (module_found : bool) (b : backend)
    (os_remove : outcome unit) (w : window) (wav_path : string)
  : option string :=
  let body :=
    if negb module_found
    then Raise (RuntimeError "未找到 speech_recognizer 模块！")
    else
      let recognizer :=
        mkRecognizer WHISPER (default_language init) (current_model w)
                     None in
      r <- fst (recognize_from_file b recognizer wav_path None) ;;
      let text_simp := to_simplified (fst r) in
      _ <- os_remove ;;
      emit text_simp in
  match body with
  | Return payload => Some payload
  | Raise e =>
      let e_after_clause : option exn := None in
      run_on_main (failure_closure e_after_clause)
  end.

(** The inputs of one delivery: the text that reaches the slot and the
    outcomes of the external calls made while it is handled. *)
Record delivery : Type := mkDelivery {
  d_now : datetime;
  d_pyperclip_error : option string;
  d_manager_write_ok : bool;
  d_io : write_result;
  d_text : string
}.

Definition deliver (w : window) (d : delivery) : window :=
  after_recognition (d_now d) (d_pyperclip_error d) (d_manager_write_ok d)
    (d_io d) w (d_text d).

(** Successive deliveries, oldest first. *)
Definition deliver_all (w : window) (ds : list delivery) : window :=
  fold_left deliver ds w.

(** One recognition session of the window: the worker, then the slot
    on the main thread when the signal was emitted. *)
Definition recognition_session (module_found : bool) (b : backend)
    (os_remove : outcome unit) (now : datetime)
    (pyperclip_error : option string) (manager_write_ok : bool)
    (io : write_result) (w : window) (wav_path : string) : window :=
  match do_recognition module_found b os_remove w wav_path with
  | Some text_simp =>
      after_recognition now pyperclip_error manager_write_ok io w text_simp
  | None => w
  end.

End Window.

End Gui.

(* ================================================================== *)
(** * config_manager.py: dotted key paths *)
(* ================================================================== *)

Module ConfigManager.

(** The loop of [get]: one key at a time, [default] as soon as the
    value at hand is not a dictionary holding the key. *)
Fixpoint get_loop (value : Py.json) (keys : list string) (default : Py.json)
  : Py.json :=
  match keys with
  | [] => value
  | key :: rest =>
      match value with
      | Py.JObj d =>
          match Py.dict_get d key with
          | Some v => get_loop v rest default
          | None => default
          end
      | _ => default
      end
  end.

(** [get(key_path, default)]. *)
Definition get (config : Py.json) (key_path : string) (default : Py.json)
  : Py.json :=
  get_loop config (Py.split "."%char key_path) default.

(** The navigation and the assignment of [set], on the tree: [init] are
    [keys[:-1]] still to follow, [last_key] is [keys[-1]].  A missing
    key gets a fresh dictionary; a value that is not a dictionary makes
    [key not in current], the indexing or the assignment raise, which
    is [None] here.  The dictionaries are updated in place in Python;
    the updated tree is rebuilt along the path. *)
Fixpoint set_loop (current : Py.json) (init : list string)
    (last_key : string) (value : Py.json) : option Py.json :=
  match current with
  | Py.JObj d =>
      match init with
      | [] => Some (Py.JObj (Py.dict_set d last_key value))
      | key :: rest =>
          let child := match Py.dict_get d key with
                       | Some c => c
                       | None => Py.JObj []
                       end in
          match set_loop child rest last_key value with
          | Some child' => Some (Py.JObj (Py.dict_set d key child'))
          | None => None
          end
      end
  | _ => None
  end.

(** [set(key_path, value, auto_save)]: the boolean result and the new
    configuration; [save_ok] is the result of [save_main_config()]. *)
Definition set (save_ok : bool) (config : Py.json) (key_path : string)
    (value : Py.json) (auto_save : bool) : bool * Py.json :=
  let keys := Py.split "."%char key_path in
  match set_loop config (removelast keys) (last keys EmptyString) value with
  | Some config' => (if auto_save then save_ok else true, config')
  | None => (false, config)
  end.

(** A key path is present when following it through dictionaries
    reaches a value. *)
Inductive resolves : Py.json -> list string -> Py.json -> Prop :=
| resolves_nil : forall v, resolves v [] v
| resolves_cons : forall d key rest child v,
    Py.dict_get d key = Some child ->
    resolves child rest v ->
    resolves (Py.JObj d) (key :: rest) v.

(** Two key paths diverge when they differ at some segment that both
    have: neither leads into the value at the other. *)
Inductive diverge : list string -> list string -> Prop :=
| diverge_here : forall k1 k2 r1 r2,
    k1 <> k2 -> diverge (k1 :: r1) (k2 :: r2)
| diverge_next : forall k p q,
    diverge p q -> diverge (k :: p) (k :: q).

(** [_merge_configs(default, loaded)], the deep merge: [loaded] is the
    dictionary [Py.JObj entries]; the inner loop is
    [for key, value in loaded.items()] on [result = default.copy()]. *)
Fixpoint _merge_configs_rec (default : list (string * Py.json))
    (loaded : Py.json) {struct loaded} : list (string * Py.json) :=
  match loaded with
  | Py.JObj entries =>
      (fix items (result : list (string * Py.json))
           (l : list (string * Py.json)) {struct l}
         : list (string * Py.json) :=
         match l with
         | [] => result
         | (key, value) :: rest =>
             items
               (Py.dict_set result key
                  (match Py.dict_get result key, value with
                   | Some (Py.JObj rd), Py.JObj _ =>
                       Py.JObj (_merge_configs_rec rd value)
                   | _, _ => value
                   end))
               rest
         end) default entries
  | _ => default
  end.

Definition _merge_configs (default loaded : list (string * Py.json))
  : list (string * Py.json) :=
  _merge_configs_rec default (Py.JObj loaded).

(** One step of the loop of [_merge_configs]. *)
Definition merge_item (result : list (string * Py.json))
    (item : string * Py.json) : list (string * Py.json) :=
  Py.dict_set result (fst item)
    (match Py.dict_get result (fst item), snd item with
     | Some (Py.JObj rd), Py.JObj vd => Py.JObj (_merge_configs rd vd)
     | _, _ => snd item
     end).

(** The dictionaries [json.load] builds have no repeated key, at any
    depth; on the association lists this is checked by [unique_keys]. *)
Fixpoint distinct (keys : list string) : bool :=
  match keys with
  | [] => true
  | k :: rest => negb (existsb (String.eqb k) rest) && distinct rest
  end.

Fixpoint unique_keys (j : Py.json) : bool :=
  match j with
  | Py.JArr l => forallb unique_keys l
  | Py.JObj d =>
      distinct (map fst d) && forallb (fun kv => unique_keys (snd kv)) d
  | _ => true
  end.

(** [load_main_config()] on the content of the configuration file:
    [None] when the file does not exist, [Some None] when it cannot be
    parsed.  The result is the boolean and [self.config]; a loaded value
    that is not a dictionary makes [loaded.items()] raise. *)
Definition load_main_config (default_config : list (string * Py.json))
    (file : option (option Py.json)) : bool * list (string * Py.json) :=
  match file with
  | None => (true, default_config)
  | Some None => (false, default_config)
  | Some (Some (Py.JObj loaded_config)) =>
      (true, _merge_configs default_config loaded_config)
  | Some (Some _) => (false, default_config)
  end.

(** [x == language] for an element of a list read from JSON and a
    string. *)
Definition is_str (language : string) (x : Py.json) : bool :=
  match x with
  | Py.JStr s => String.eqb s language
  | _ => false
  end.

(** [recent.remove(language)]: the first equal element goes. *)
Fixpoint remove_first (language : string) (recent : list Py.json)
  : list Py.json :=
  match recent with
  | [] => []
  | x :: rest =>
      if is_str language x then rest else x :: remove_first language rest
  end.

(** [add_recent_language(language, max_recent)] on
    [self.user_preferences]; [save_ok] is the result of
    [save_user_preferences()].  A value of ["recent_languages"] that is
    not a list has no [remove] or [insert]: the handler returns [False]. *)
Definition add_recent_language (save_ok : bool)
    (user_preferences : list (string * Py.json)) (language : string)
    (max_recent : Z) : bool * list (string * Py.json) :=
  match (match Py.dict_get user_preferences "recent_languages" with
         | Some v => v
         | None => Py.JArr []
         end) with
  | Py.JArr recent =>
      let recent1 := if existsb (is_str language) recent
                     then remove_first language recent else recent in
      let recent2 := Py.JStr language :: recent1 in
      let recent3 := Py.slice_to max_recent recent2 in
      (save_ok,
       Py.dict_set user_preferences "recent_languages" (Py.JArr recent3))
  | _ => (false, user_preferences)
  end.

(** [get_user_pref(key, default)] and [set_user_pref(key, value)]. *)
Definition get_user_pref (user_preferences : list (string * Py.json))
    (key : string) (default : Py.json) : Py.json :=
  match Py.dict_get user_preferences key with
  | Some v => v
  | None => default
  end.

Definition set_user_pref (save_ok : bool)
    (user_preferences : list (string * Py.json)) (key : string)
    (value : Py.json) (auto_save : bool) : bool * list (string * Py.json) :=
  (if auto_save then save_ok else true,
   Py.dict_set user_preferences key value).

(** The intermediate segments [init] address dictionaries or are
    absent: the configuration is a dictionary and every segment that is
    present leads to a value of which the same holds. *)
Inductive navigable : Py.json -> list string -> Prop :=
| navigable_nil : forall d, navigable (Py.JObj d) []
| navigable_absent : forall d key rest,
    Py.dict_get d key = None ->
    navigable (Py.JObj d) (key :: rest)
| navigable_present : forall d key rest child,
    Py.dict_get d key = Some child ->
    navigable child rest ->
    navigable (Py.JObj d) (key :: rest).

End ConfigManager.

(* ================================================================== *)
(** * hotkey_manager.py *)
(* ================================================================== *)

Module HotkeyManager.

(** [self.registered_hotkeys], a dictionary from hotkey strings to the
    handles [keyboard.add_hotkey] returned. *)
Fixpoint lookup (d : list (string * nat)) (hotkey : string) : option nat :=
  match d with
  | [] => None
  | (k, v) :: rest => if String.eqb k hotkey then Some v else lookup rest hotkey
  end.

(** [d[hotkey] = hotkey_id]. *)
Fixpoint store (d : list (string * nat)) (hotkey : string) (hotkey_id : nat)
  : list (string * nat) :=
  match d with
  | [] => [(hotkey, hotkey_id)]
  | (k, v) :: rest =>
      if String.eqb k hotkey then (k, hotkey_id) :: rest
      else (k, v) :: store rest hotkey hotkey_id
  end.

(** [del d[hotkey]]. *)
Definition erase (d : list (string * nat)) (hotkey : string)
  : list (string * nat) :=
  filter (fun kv => negb (String.eqb (fst kv) hotkey)) d.

Section Manager.

(** [sys.platform == 'darwin'], and the hotkey strings that
    [keyboard.add_hotkey] can parse (it raises for the others). *)
Variable darwin : bool.
Variable valid : string -> bool.

(** The manager with the part of the [keyboard] library it acts on:
    [hooks] are the handles the library holds, [next_handle] the handle
    the next [add_hotkey] returns.  [keyboard.remove_hotkey] raises for a
    handle the library does not hold. *)
Record state : Type := mkState {
  registered_hotkeys : list (string * nat);
  running : bool;
  hooks : list nat;
  next_handle : nat
}.

(** [__init__]. *)
Definition init : state := mkState [] false [] 0.

Definition unhook (hotkey_id : nat) (l : list nat) : list nat :=
  filter (fun h => negb (Nat.eqb h hotkey_id)) l.

(** [register_hotkey(hotkey, callback)]: both [try] blocks swallow the
    exception. *)
Definition register_hotkey (st : state) (hotkey : string) : state :=
  if darwin then st
  else
    let st1 :=
      match lookup (registered_hotkeys st) hotkey with
      | Some old =>
          if existsb (Nat.eqb old) (hooks st)
          then mkState (registered_hotkeys st) (running st)
                       (unhook old (hooks st)) (next_handle st)
          else st
      | None => st
      end in
    if valid hotkey then
      mkState (store (registered_hotkeys st1) hotkey (next_handle st1))
              (running st1)
              (hooks st1 ++ [next_handle st1])
              (S (next_handle st1))
    else st1.

(** [unregister_hotkey(hotkey)]: [None] when [keyboard.remove_hotkey]
    raises, which this method does not catch. *)
Definition unregister_hotkey (st : state) (hotkey : string) : option state :=
  match lookup (registered_hotkeys st) hotkey with
  | Some hotkey_id =>
      if existsb (Nat.eqb hotkey_id) (hooks st)
      then Some (mkState (erase (registered_hotkeys st) hotkey) (running st)
                         (unhook hotkey_id (hooks st)) (next_handle st))
      else None
  | None => Some st
  end.

(** [stop_listening()]. *)
Definition stop_listening (st : state) : state :=
  mkState [] false [] (next_handle st).

(** The manager and the library agree: the library holds exactly the
    handles of the registered hotkeys, each once, different hotkeys have
    different handles, handles are older than the next one, and every
    registered hotkey is one the library can parse. *)
Definition consistent (st : state) : Prop :=
  (forall h, In h (hooks st) <->
             exists hotkey, lookup (registered_hotkeys st) hotkey = Some h) /\
  NoDup (hooks st) /\
  (forall k1 k2 h,
      lookup (registered_hotkeys st) k1 = Some h ->
      lookup (registered_hotkeys st) k2 = Some h -> k1 = k2) /\
  (forall h, In h (hooks st) -> h < next_handle st) /\
  (forall hotkey h,
      lookup (registered_hotkeys st) hotkey = Some h -> valid hotkey = true).

End Manager.

End HotkeyManager.

Unset Implicit Arguments.

(* ================================================================== *)
(** * Theorems: audio_recorder.py *)
(* ================================================================== *)

(** C4.  While a recording is in progress ([is_recording] is true), a
    start request is rejected: [start_recording] returns [False], the
    recorder (frames buffer, stream handle, [is_recording] flag and every
    other field) is unchanged, and no further audio stream is opened. *)
Theorem start_recording_while_recording_is_noop :
  forall (device_open_error : option Z -> option string)
         (r : AudioRecorder.recorder) (device_index : option Z),
    AudioRecorder.is_recording r = true ->
    AudioRecorder.start_recording device_open_error r device_index
      = (r, false) /\
    let r' := fst (AudioRecorder.start_recording device_open_error r
                     device_index) in
    AudioRecorder.frames r' = AudioRecorder.frames r /\
    AudioRecorder.stream r' = AudioRecorder.stream r /\
    AudioRecorder.is_recording r' = true /\
    AudioRecorder.opened_streams r' = AudioRecorder.opened_streams r.
Proof.
  intros device_open_error r device_index Hrec.
  unfold AudioRecorder.start_recording.
  rewrite Hrec. cbn [fst].
  repeat split; auto.
Qed.

Lemma start_recording_while_recording_is_noop_witness :
  let r := AudioRecorder.mkRecorder [0%nat] (Some 0%nat) [[1%Z; 2%Z]] true
             (Some 0%nat) false false 0 [] in
  AudioRecorder.is_recording r = true /\
  AudioRecorder.start_recording (fun _ => None) r None = (r, false).
Proof.
  split; [reflexivity|].
  exact (proj1 (start_recording_while_recording_is_noop (fun _ => None)
    (AudioRecorder.mkRecorder [0%nat] (Some 0%nat) [[1%Z; 2%Z]] true
       (Some 0%nat) false false 0 []) None eq_refl)).
Defined.

(** A start request on an idle recorder whose device opens is accepted
    and opens exactly one stream. *)
Lemma start_recording_idle_opens_one_stream :
  forall device_open_error r device_index,
    AudioRecorder.is_recording r = false ->
    device_open_error device_index = None ->
    let (r', accepted) :=
      AudioRecorder.start_recording device_open_error r device_index in
    accepted = true /\
    AudioRecorder.is_recording r' = true /\
    AudioRecorder.frames r' = [] /\
    length (AudioRecorder.opened_streams r') =
    S (length (AudioRecorder.opened_streams r)).
Proof.
  intros device_open_error r device_index Hidle Hopen.
  unfold AudioRecorder.start_recording.
  rewrite Hidle, Hopen. cbn.
  repeat split; auto.
  rewrite length_app. cbn. lia.
Qed.

(* ================================================================== *)
(** * Theorems: the recording loops *)
(* ================================================================== *)

(** Comparison of floats: equal values are not strictly ordered. *)
Lemma float_eqb_not_ltb :
  forall x y : float, PrimFloat.eqb x y = true -> PrimFloat.ltb x y = false.
Proof.
  intros x y H.
  rewrite eqb_spec in H. rewrite ltb_spec.
  unfold SFeqb in H. unfold SFltb.
  destruct (SFcompare (Prim2SF x) (Prim2SF y)) as [[ | | ]|];
    try discriminate; reflexivity.
Qed.

(** Within its range an [int16] value is itself. *)
Lemma int16_in_range :
  forall z, (-32768 <= z < 32768)%Z -> Recording.int16 z = z.
Proof.
  intros z Hz. unfold Recording.int16.
  rewrite Z.mod_small by lia. lia.
Qed.

(** Where every square fits 16 bits the command-line metric is the root
    mean square. *)
Lemma rms_root_mean_square :
  forall data,
    Recording.squares_fit data = true ->
    Recording.rms data = Recording.root_mean_square data.
Proof.
  intros data Hfit. unfold Recording.rms, Recording.root_mean_square.
  f_equal. f_equal. apply map_ext_in. intros x Hin.
  unfold Recording.squares_fit in Hfit.
  rewrite forallb_forall in Hfit. specialize (Hfit x Hin).
  apply andb_true_iff in Hfit as [Hlo Hhi].
  apply Z.leb_le in Hlo. apply Z.leb_le in Hhi.
  apply int16_in_range. nia.
Qed.

(** Where no sample is -32768 the window's metric is the mean magnitude
    over full scale. *)
Lemma level_mean_magnitude :
  forall data,
    Recording.magnitudes_fit data = true ->
    Recording.level data = Recording.mean_magnitude_normalized data.
Proof.
  intros data Hfit.
  unfold Recording.level, Recording.mean_magnitude_normalized.
  f_equal. f_equal. apply map_ext_in. intros x Hin.
  unfold Recording.magnitudes_fit in Hfit.
  rewrite forallb_forall in Hfit. specialize (Hfit x Hin).
  apply andb_true_iff in Hfit as [Hlo Hhi].
  apply Z.leb_le in Hlo. apply Z.leb_le in Hhi.
  apply int16_in_range. lia.
Qed.

(** C2 (as amended).  For every chunk read, in the command-line loop and
    in the window's loop, the chunk is appended to the buffer.  The
    loudness of the command-line loop is the root mean square of the
    samples on the raw sample scale, for a chunk whose squared samples
    fit 16 bits; the loudness of the window is the mean absolute sample
    divided by 32768, for a chunk without the sample -32768.  The silence
    counter is incremented by one when that loudness is strictly below
    the threshold and set to zero otherwise, so that a loudness equal to
    the threshold resets it. *)
Theorem read_chunk_appends_and_counts :
  forall (threshold : float) (stream_st : Recording.state Recording.chunk)
         (gui_st : Recording.gui_state) (data : Recording.chunk),
    let silent := fun d => PrimFloat.ltb (Recording.rms d) threshold in
    let st' := Recording.read_chunk silent stream_st data in
    let g' := Recording.gui_read_chunk gui_st data in
    Recording.frames st' = Recording.frames stream_st ++ [data] /\
    Recording.audio_frames g' = Recording.audio_frames gui_st ++ [data] /\
    (Recording.squares_fit data = true ->
     Recording.rms data = Recording.root_mean_square data /\
     Recording.silent_chunks st' =
       (if PrimFloat.ltb (Recording.root_mean_square data) threshold
        then Recording.silent_chunks stream_st + 1 else 0)%Z /\
     (PrimFloat.eqb (Recording.root_mean_square data) threshold = true ->
      Recording.silent_chunks st' = 0%Z)) /\
    (Recording.magnitudes_fit data = true ->
     Recording.level data = Recording.mean_magnitude_normalized data /\
     Recording.silence_count g' =
       (if PrimFloat.ltb (Recording.mean_magnitude_normalized data)
             0.01%float
        then Recording.silence_count gui_st + 1 else 0)%Z) /\
    Recording.silent_chunks st' =
      (if PrimFloat.ltb (Recording.rms data) threshold
       then Recording.silent_chunks stream_st + 1 else 0)%Z /\
    Recording.silence_count g' =
      (if PrimFloat.ltb (Recording.level data) 0.01%float
       then Recording.silence_count gui_st + 1 else 0)%Z.
Proof.
  intros threshold stream_st gui_st data silent st' g'.
  subst silent st' g'.
  cbn [Recording.read_chunk Recording.gui_read_chunk Recording.frames
       Recording.silent_chunks Recording.audio_frames
       Recording.silence_count].
  split; [reflexivity|]. split; [reflexivity|].
  split; [|split; [|split; reflexivity]].
  - intros Hfit. rewrite (rms_root_mean_square data Hfit).
    split; [reflexivity|]. split; [reflexivity|].
    intros Heq. rewrite (float_eqb_not_ltb _ _ Heq). reflexivity.
  - intros Hfit. rewrite (level_mean_magnitude data Hfit).
    split; reflexivity.
Qed.

Lemma read_chunk_appends_and_counts_witness :
  let data := repeat 100%Z 1024 in
  Recording.squares_fit data = true /\
  Recording.magnitudes_fit data = true /\
  PrimFloat.eqb (Recording.root_mean_square data) 100%float = true /\
  Recording.rms data = Recording.root_mean_square data /\
  Recording.level data = Recording.mean_magnitude_normalized data /\
  Recording.silent_chunks
    (Recording.read_chunk
       (fun d => PrimFloat.ltb (Recording.rms d) 100%float)
       (Recording.mkState [] 3%Z) data) = 0%Z /\
  Recording.silence_count
    (Recording.gui_read_chunk (Recording.mkGui [] 0%float 3%Z) data) = 4%Z.
Proof.
  intros data.
  assert (Hs : Recording.squares_fit data = true)
    by (vm_compute; reflexivity).
  assert (Hm : Recording.magnitudes_fit data = true)
    by (vm_compute; reflexivity).
  assert (E : PrimFloat.eqb (Recording.root_mean_square data) 100%float
              = true) by (vm_compute; reflexivity).
  destruct (read_chunk_appends_and_counts 100%float
              (Recording.mkState [] 3%Z) (Recording.mkGui [] 0%float 3%Z)
              data)
    as (_ & _ & Hcli & Hgui & _ & _).
  destruct (Hcli Hs) as (Hrms & _ & Hreset).
  destruct (Hgui Hm) as (Hlevel & Hcount).
  split; [exact Hs|]. split; [exact Hm|]. split; [exact E|].
  split; [exact Hrms|]. split; [exact Hlevel|].
  split; [exact (Hreset E)|].
  rewrite Hcount. vm_compute. reflexivity.
Defined.

(** C2 as stated fails, on chunks of 1024 samples.  A chunk of samples
    of value 100 has a loudness equal to the threshold 100 (it does not
    exceed it), yet the counter, at 3 before, is reset to 0 and not
    incremented to 4; that loudness, 100, is not within [0,1]; and for
    512 samples of 0 followed by 512 samples of 20000 the window's
    metric, 0.30517578125, is not the normalised root mean square,
    0.4315... *)
Lemma read_chunk_at_threshold_resets :
  let data := repeat 100%Z 1024 in
  let halves := (repeat 0 512 ++ repeat 20000 512)%Z in
  PrimFloat.leb (Recording.rms data) 100%float = true /\
  PrimFloat.ltb 100%float (Recording.rms data) = false /\
  Recording.silent_chunks
    (Recording.read_chunk
       (fun d => PrimFloat.ltb (Recording.rms d) 100%float)
       (Recording.mkState [] 3%Z) data) = 0%Z /\
  (0 <> 3 + 1)%Z /\
  PrimFloat.ltb 1%float (Recording.rms data) = true /\
  length halves = 1024 /\
  PrimFloat.eqb (Recording.level halves) 0.30517578125%float = true /\
  PrimFloat.ltb 0.4315%float (Recording.rms_normalized halves) = true /\
  PrimFloat.eqb (Recording.level halves) (Recording.rms_normalized halves)
    = false.
Proof.
  repeat split; try (vm_compute; reflexivity).
  discriminate.
Qed.

(** Beyond the amended claim: where a square does not fit 16 bits it
    wraps around, and the command-line metric is no longer the root mean
    square.  1024 samples of value 1000 have the root mean square 1000,
    yet [rms] is below the default threshold 500 and the chunk counts as
    silent. *)
Lemma rms_wraps_for_loud_chunks :
  let data := repeat 1000%Z 1024 in
  Recording.squares_fit data = false /\
  PrimFloat.eqb (Recording.root_mean_square data) 1000%float = true /\
  PrimFloat.ltb (Recording.rms data) 131%float = true /\
  Recording.silent_chunks
    (Recording.read_chunk
       (fun d => PrimFloat.ltb (Recording.rms d) 500%float)
       (Recording.mkState [] 3%Z) data) = 4%Z.
Proof.
  repeat split; vm_compute; reflexivity.
Qed.

Section LoopFacts.

Variable Chunk : Type.
Variable silent : Chunk -> bool.
Variable stream_read : nat -> Chunk.
Variable silence_chunk_limit : Z.

Local Abbreviation loop := (Recording.for_loop silent stream_read silence_chunk_limit).
Local Abbreviation silence := (Recording.silence_after silent stream_read).
Local Abbreviation tracks := (Recording.tracks silent stream_read).

Lemma read_chunk_tracks :
  forall i st,
    tracks i st -> tracks (S i) (Recording.read_chunk silent st (stream_read i)).
Proof.
  intros i st [Hf Hs]. split; unfold Recording.read_chunk.
  - cbn [Recording.frames]. rewrite Hf, seq_S, map_app. reflexivity.
  - cbn [Recording.silent_chunks Recording.silence_after].
    rewrite Hs. reflexivity.
Qed.

Lemma tracks_length :
  forall i st, tracks i st -> length (Recording.frames st) = i.
Proof.
  intros i st [Hf _]. rewrite Hf, length_map, length_seq. reflexivity.
Qed.

(** The loop entered after [i] chunks with [n] iterations left stops
    after [m] chunks, [i <= m <= i + n]: at the first count past [i]
    where the silence run reaches the limit, or at [i + n]. *)
Lemma for_loop_spec :
  forall n i st,
    tracks i st ->
    let m := length (Recording.frames (loop n i st)) in
    tracks m (loop n i st) /\
    (i <= m <= i + n)%nat /\
    ((0 < n)%nat -> (i < m)%nat) /\
    ((m < i + n)%nat -> (silence_chunk_limit <= silence m)%Z) /\
    (forall k, (i < k < m)%nat -> (silence k < silence_chunk_limit)%Z).
Proof.
  induction n as [|n IH]; intros i st Hst.
  - cbn. rewrite (tracks_length _ _ Hst).
    repeat split; try apply Hst; try lia.
  - cbn [Recording.for_loop].
    pose proof (read_chunk_tracks _ _ Hst) as Hst1.
    set (st1 := Recording.read_chunk silent st (stream_read i)) in *.
    destruct (silence_chunk_limit <=? Recording.silent_chunks st1)%Z eqn:E.
    + cbv zeta. rewrite (tracks_length _ _ Hst1).
      apply Z.leb_le in E. pose proof Hst1 as [Hf Hs].
      repeat split; auto; try lia;
        try (intros _; rewrite <- Hs; exact E).
    + apply Z.leb_gt in E.
      destruct (IH (S i) st1 Hst1) as (Ht & Hr & _ & Hlim & Hmin).
      cbv zeta.
      set (m := length (Recording.frames (loop n (S i) st1))) in *.
      split; [exact Ht|].
      split; [lia|].
      split; [lia|].
      split.
      * intros Hm. apply Hlim. lia.
      * intros k Hk. destruct (Nat.eq_dec k (S i)) as [->|Hne].
        -- destruct Hst1 as [_ Hs]. rewrite <- Hs. exact E.
        -- apply Hmin. lia.
Qed.

End LoopFacts.




(* ================================================================== *)
(** * Theorems: speech_recognizer.py *)
(* ================================================================== *)

Module RecognizerFacts.

Import SpeechRecognizer.

(** The list comprehension of [_recognize_whisper] collects the
    reported scores. *)
Lemma confidences_are_reported_scores :
  forall segs,
    flat_map (fun s => match confidence s with
                       | Some c => [c]
                       | None => []
                       end) segs
    = reported_scores segs.
Proof.
  induction segs as [|s segs IH]; cbn; [reflexivity|].
  rewrite IH. destruct (confidence s); reflexivity.
Qed.

Lemma avg_confidence_spec :
  forall result,
    avg_confidence result =
    match reported_scores (match segments result with
                           | Some segs => segs
                           | None => []
                           end) with
    | [] => 0.8%float
    | c :: cs => arithmetic_mean (c :: cs)
    end.
Proof.
  intros [t [[|seg segs]|]]; unfold avg_confidence; cbn [segments];
    try reflexivity.
  rewrite confidences_are_reported_scores.
  destruct (reported_scores (seg :: segs)); reflexivity.
Qed.

(** Every handler of [_recognize_whisper] returns: it never raises. *)
Lemma _recognize_whisper_returns :
  forall b self audio language,
  exists r, fst (_recognize_whisper b self audio language) = Return r.
Proof.
  intros b self audio language. unfold _recognize_whisper. cbn [fst].
  match goal with
  | |- exists r, try_except ?body _ = _ => destruct body as [r|e]
  end.
  - exists r. reflexivity.
  - exists no_result. destruct e; reflexivity.
Qed.

Lemma _recognize_audio_returns :
  forall b self audio language,
  exists r, fst (_recognize_audio b self audio language) = Return r.
Proof.
  intros b self audio language. unfold _recognize_audio. cbn [fst].
  match goal with
  | |- exists r, try_except ?body _ = _ => destruct body as [r|e]
  end.
  - exists r. reflexivity.
  - exists no_result. destruct e; reflexivity.
Qed.

(** A failure of [_recognize_audio]'s engine is answered by
    [(None, 0.0)]. *)
Lemma _recognize_audio_google_failure :
  forall b self audio language e,
    current_engine self = GOOGLE ->
    recognize_google b audio
      (match language with None => default_language self | Some l => l end)
      = Raise e ->
    fst (_recognize_audio b self audio language) = Return no_result.
Proof.
  intros b self audio language e Heng Hraise.
  unfold _recognize_audio, _recognize_google. rewrite Heng. cbn [fst].
  rewrite Hraise. cbn. destruct e; reflexivity.
Qed.

(** The two handlers of the engines answer every exception alike. *)
Lemma whisper_handler_answers :
  forall body e,
    body = Raise e ->
    try_except body
      (fun e => match e with
                | ImportError _ => Return no_result
                | _ => Return no_result
                end)
    = Return no_result.
Proof. intros body e ->. destruct e; reflexivity. Qed.

Lemma audio_handler_passes :
  forall body r,
    body = Return r ->
    try_except body
      (fun e => match e with
                | UnknownValueError => Return no_result
                | RequestError _ => Return no_result
                | _ => Return no_result
                end)
    = Return r.
Proof. intros body r ->. reflexivity. Qed.

(** What [_recognize_audio] returns, [recognize_from_audio_data]
    returns. *)
Lemma recognize_from_audio_data_passes :
  forall b self audio_data language r,
    fst (_recognize_audio b self (mkAudioData audio_data 44100 2) language)
      = Return r ->
    fst (recognize_from_audio_data b self audio_data language) = Return r.
Proof.
  intros b self audio_data language r H.
  unfold recognize_from_audio_data. cbn [fst]. rewrite H. reflexivity.
Qed.

(** What [_recognize_whisper] returns, [_recognize_audio] returns when
    the engine is Whisper. *)
Lemma _recognize_audio_whisper_passes :
  forall b self audio language r,
    current_engine self = WHISPER ->
    fst (_recognize_whisper b self audio
           (match language with None => default_language self | Some l => l end))
      = Return r ->
    fst (_recognize_audio b self audio language) = Return r.
Proof.
  intros b self audio language r Heng H.
  unfold _recognize_audio. rewrite Heng. cbn [fst snd].
  rewrite H. reflexivity.
Qed.

Lemma _recognize_audio_google_success :
  forall b self audio language text,
    current_engine self = GOOGLE ->
    recognize_google b audio
      (match language with None => default_language self | Some l => l end)
      = Return text ->
    fst (_recognize_audio b self audio language)
      = Return (Some text, 0.85%float).
Proof.
  intros b self audio language text Heng Hret.
  unfold _recognize_audio, _recognize_google. rewrite Heng. cbn [fst].
  rewrite Hret. reflexivity.
Qed.

Lemma _recognize_audio_unsupported :
  forall b self audio language,
    current_engine self <> GOOGLE ->
    current_engine self <> WHISPER ->
    fst (_recognize_audio b self audio language) = Return no_result.
Proof.
  intros b self audio language Hg Hw. unfold _recognize_audio.
  destruct (current_engine self); try congruence; reflexivity.
Qed.

(** With the model and the temporary file at hand, [_recognize_whisper]
    is the guarded transcription. *)
Lemma _recognize_whisper_with_file :
  forall b self audio language model temp_path,
    model_available b self model ->
    named_temporary_file b = Return temp_path ->
    fst (_recognize_whisper b self audio language)
    = try_except
        (try_finally
           (bind (write_wav b temp_path audio) (fun _ =>
            bind (transcribe b model temp_path (Py.str_prefix 2 language))
              (fun result =>
                 Return (Some (strip b (match text result with
                                        | Some t => t
                                        | None => ""%string
                                        end)),
                         avg_confidence result))))
           (if path_exists b temp_path then unlink b temp_path
            else Return tt))
        (fun e => match e with
                  | ImportError _ => Return no_result
                  | _ => Return no_result
                  end).
Proof.
  intros b self audio language model temp_path Hmodel Htmp.
  unfold _recognize_whisper. cbn [fst].
  destruct Hmodel as [Hm|[Hm Hload]]; rewrite Hm; [|rewrite Hload];
    cbn [fst bind]; rewrite Htmp; reflexivity.
Qed.

Lemma _recognize_whisper_success :
  forall b self audio language model temp_path result,
    model_available b self model ->
    named_temporary_file b = Return temp_path ->
    write_wav b temp_path audio = Return tt ->
    transcribe b model temp_path (Py.str_prefix 2 language) = Return result ->
    (if path_exists b temp_path then unlink b temp_path else Return tt)
      = Return tt ->
    fst (_recognize_whisper b self audio language)
    = Return (Some (strip b (match text result with
                             | Some t => t
                             | None => ""%string
                             end)),
              avg_confidence result).
Proof.
  intros b self audio language model temp_path result
         Hmodel Htmp Hwrite Htr Hclean.
  rewrite (_recognize_whisper_with_file b self audio language model
             temp_path Hmodel Htmp).
  rewrite Hwrite, Htr, Hclean. reflexivity.
Qed.

Lemma _recognize_whisper_load_failure :
  forall b self audio language e,
    _whisper_model self = None ->
    load_model b (whisper_model_name self) = Raise e ->
    fst (_recognize_whisper b self audio language) = Return no_result.
Proof.
  intros b self audio language e Hm Hload.
  unfold _recognize_whisper. cbn [fst]. rewrite Hm, Hload. cbn [fst bind].
  apply (whisper_handler_answers _ e). reflexivity.
Qed.

Lemma _recognize_whisper_temp_file_failure :
  forall b self audio language model e,
    model_available b self model ->
    named_temporary_file b = Raise e ->
    fst (_recognize_whisper b self audio language) = Return no_result.
Proof.
  intros b self audio language model e Hmodel Htmp.
  unfold _recognize_whisper. cbn [fst].
  destruct Hmodel as [Hm|[Hm Hload]]; rewrite Hm; [|rewrite Hload];
    cbn [fst bind]; rewrite Htmp; cbn [bind];
    apply (whisper_handler_answers _ e); reflexivity.
Qed.

Lemma _recognize_whisper_write_failure :
  forall b self audio language model temp_path e,
    model_available b self model ->
    named_temporary_file b = Return temp_path ->
    write_wav b temp_path audio = Raise e ->
    fst (_recognize_whisper b self audio language) = Return no_result.
Proof.
  intros b self audio language model temp_path e Hmodel Htmp Hwrite.
  rewrite (_recognize_whisper_with_file b self audio language model
             temp_path Hmodel Htmp).
  rewrite Hwrite. cbn [bind].
  destruct (if path_exists b temp_path then unlink b temp_path
            else Return tt) as [u|e']; cbn [try_finally].
  - apply (whisper_handler_answers _ e). reflexivity.
  - apply (whisper_handler_answers _ e'). reflexivity.
Qed.

Lemma _recognize_whisper_transcription_failure :
  forall b self audio language model temp_path e,
    model_available b self model ->
    named_temporary_file b = Return temp_path ->
    write_wav b temp_path audio = Return tt ->
    transcribe b model temp_path (Py.str_prefix 2 language) = Raise e ->
    fst (_recognize_whisper b self audio language) = Return no_result.
Proof.
  intros b self audio language model temp_path e Hmodel Htmp Hwrite Htr.
  rewrite (_recognize_whisper_with_file b self audio language model
             temp_path Hmodel Htmp).
  rewrite Hwrite, Htr. cbn [bind].
  destruct (if path_exists b temp_path then unlink b temp_path
            else Return tt) as [u|e']; cbn [try_finally].
  - apply (whisper_handler_answers _ e). reflexivity.
  - apply (whisper_handler_answers _ e'). reflexivity.
Qed.

Lemma _recognize_whisper_cleanup_failure :
  forall b self audio language model temp_path e,
    model_available b self model ->
    named_temporary_file b = Return temp_path ->
    (if path_exists b temp_path then unlink b temp_path else Return tt)
      = Raise e ->
    fst (_recognize_whisper b self audio language) = Return no_result.
Proof.
  intros b self audio language model temp_path e Hmodel Htmp Hclean.
  rewrite (_recognize_whisper_with_file b self audio language model
             temp_path Hmodel Htmp).
  rewrite Hclean. cbn [try_finally].
  apply (whisper_handler_answers _ e). reflexivity.
Qed.

End RecognizerFacts.

(** C7.  When the Whisper transcription succeeds (the model is cached or
    loads, the temporary file is created, written and removed, and the
    engine returns [result]), [_recognize_whisper] returns the stripped
    text with a confidence equal to the arithmetic mean of the scores the
    engine reports on its segments, and equal to the default 0.8 when the
    engine reports no segments or no segment carries a score. *)
Theorem whisper_confidence_is_mean_or_default :
  forall (b : SpeechRecognizer.backend) (self : SpeechRecognizer.recognizer)
         (audio : SpeechRecognizer.AudioData) (language model temp_path : string)
         (result : SpeechRecognizer.transcription),
    (SpeechRecognizer._whisper_model self = Some model \/
     SpeechRecognizer._whisper_model self = None /\
     SpeechRecognizer.load_model b (SpeechRecognizer.whisper_model_name self)
       = SpeechRecognizer.Return model) ->
    SpeechRecognizer.named_temporary_file b
      = SpeechRecognizer.Return temp_path ->
    SpeechRecognizer.write_wav b temp_path audio
      = SpeechRecognizer.Return tt ->
    SpeechRecognizer.transcribe b model temp_path (Py.str_prefix 2 language)
      = SpeechRecognizer.Return result ->
    (if SpeechRecognizer.path_exists b temp_path
     then SpeechRecognizer.unlink b temp_path
     else SpeechRecognizer.Return tt) = SpeechRecognizer.Return tt ->
    let scores :=
      SpeechRecognizer.reported_scores
        (match SpeechRecognizer.segments result with
         | Some segs => segs
         | None => []
         end) in
    let stripped :=
      SpeechRecognizer.strip b
        (match SpeechRecognizer.text result with
         | Some t => t
         | None => ""%string
         end) in
      fst (SpeechRecognizer._recognize_whisper b self audio language)
        = SpeechRecognizer.Return
            (Some stripped, SpeechRecognizer.avg_confidence result) /\
      SpeechRecognizer._whisper_model
        (snd (SpeechRecognizer._recognize_whisper b self audio language))
        = Some model /\
      (scores = [] ->
       SpeechRecognizer.avg_confidence result = 0.8%float) /\
      (scores <> [] ->
       SpeechRecognizer.avg_confidence result
         = SpeechRecognizer.arithmetic_mean scores).
Proof.
  intros b self audio language model temp_path result
         Hmodel Htmp Hwrite Htr Hclean scores stripped.
  subst stripped.
  split; [|split; [|split]].
  - unfold SpeechRecognizer._recognize_whisper. cbn [fst].
    destruct Hmodel as [Hm|[Hm Hload]]; rewrite Hm; [|rewrite Hload];
      cbn [fst SpeechRecognizer.bind];
      rewrite Htmp; cbn [SpeechRecognizer.bind];
      rewrite Hwrite, Hclean; cbn [SpeechRecognizer.bind];
      rewrite Htr; reflexivity.
  - unfold SpeechRecognizer._recognize_whisper. cbn [snd].
    destruct Hmodel as [Hm|[Hm Hload]]; rewrite Hm; [|rewrite Hload];
      cbn; [exact Hm|reflexivity].
  - intros Hnil. rewrite RecognizerFacts.avg_confidence_spec.
    fold scores. rewrite Hnil. reflexivity.
  - intros Hne. rewrite RecognizerFacts.avg_confidence_spec.
    fold scores. destruct scores; [congruence|reflexivity].
Qed.

Lemma whisper_confidence_is_mean_or_default_witness :
  let self := SpeechRecognizer.mkRecognizer SpeechRecognizer.WHISPER
                "zh-CN" "base" None in
  let audio := SpeechRecognizer.mkAudioData [1; 2; 3; 4]%Z 16000 2 in
  fst (SpeechRecognizer._recognize_whisper SpeechRecognizer.scored_backend
         self audio "zh-CN")
  = SpeechRecognizer.Return
      (Some "ni hao"%string,
       SpeechRecognizer.arithmetic_mean [0.9%float; 0.5%float]).
Proof.
  intros self audio.
  destruct (whisper_confidence_is_mean_or_default
              SpeechRecognizer.scored_backend self audio "zh-CN" "base"
              "/tmp/tmp0.wav"
              (SpeechRecognizer.mkTranscription (Some "ni hao"%string)
                 (Some [SpeechRecognizer.mkSegment (Some 0.9%float);
                        SpeechRecognizer.mkSegment None;
                        SpeechRecognizer.mkSegment (Some 0.5%float)]))
              (or_intror (conj eq_refl eq_refl)) eq_refl eq_refl eq_refl
              eq_refl)
    as (Hres & _ & _ & Hmean).
  rewrite Hres.
  rewrite Hmean by (cbn; discriminate).
  vm_compute. reflexivity.
Defined.

(** C8 (as amended).  [recognize_from_audio_data] and [_recognize_audio]
    never raise to their caller, for every input (empty audio data
    included) and every behaviour of the engines: they always return a
    pair, and both return the same one.  Empty input has no case of its
    own.  Whenever the engine fails (the Google request raises; with
    Whisper the model does not load, the temporary file cannot be
    created, written or removed, or the transcription raises) or the
    selected engine is not supported, the pair is [(None, 0.0)]: no
    text, confidence 0.0.  Otherwise it is what the engine yields: the
    text of Google with the confidence 0.85, or the stripped text of
    Whisper with the confidence of its segments. *)
Theorem recognize_never_raises :
  forall (b : SpeechRecognizer.backend) (self : SpeechRecognizer.recognizer)
         (audio_data : list Z) (language : option string),
    let audio := SpeechRecognizer.mkAudioData audio_data 44100 2 in
    let lang := match language with
                | None => SpeechRecognizer.default_language self
                | Some l => l
                end in
    let returns := fun r =>
      fst (SpeechRecognizer.recognize_from_audio_data b self audio_data
             language) = SpeechRecognizer.Return r /\
      fst (SpeechRecognizer._recognize_audio b self audio language)
        = SpeechRecognizer.Return r in
    let cleanup := fun temp_path =>
      if SpeechRecognizer.path_exists b temp_path
      then SpeechRecognizer.unlink b temp_path
      else SpeechRecognizer.Return tt in
    (exists r, returns r) /\
    (SpeechRecognizer.current_engine self = SpeechRecognizer.GOOGLE ->
     (forall text,
         SpeechRecognizer.recognize_google b audio lang
           = SpeechRecognizer.Return text ->
         returns (Some text, 0.85%float)) /\
     (forall e,
         SpeechRecognizer.recognize_google b audio lang
           = SpeechRecognizer.Raise e ->
         returns (None, 0%float))) /\
    (SpeechRecognizer.current_engine self = SpeechRecognizer.WHISPER ->
     (forall e,
         SpeechRecognizer._whisper_model self = None ->
         SpeechRecognizer.load_model b
           (SpeechRecognizer.whisper_model_name self)
           = SpeechRecognizer.Raise e ->
         returns (None, 0%float)) /\
     (forall model,
         SpeechRecognizer.model_available b self model ->
         (forall e,
             SpeechRecognizer.named_temporary_file b
               = SpeechRecognizer.Raise e ->
             returns (None, 0%float)) /\
         (forall temp_path,
             SpeechRecognizer.named_temporary_file b
               = SpeechRecognizer.Return temp_path ->
             (forall e,
                 SpeechRecognizer.write_wav b temp_path audio
                   = SpeechRecognizer.Raise e ->
                 returns (None, 0%float)) /\
             (forall e,
                 SpeechRecognizer.write_wav b temp_path audio
                   = SpeechRecognizer.Return tt ->
                 SpeechRecognizer.transcribe b model temp_path
                   (Py.str_prefix 2 lang) = SpeechRecognizer.Raise e ->
                 returns (None, 0%float)) /\
             (forall e,
                 cleanup temp_path = SpeechRecognizer.Raise e ->
                 returns (None, 0%float)) /\
             (forall result,
                 SpeechRecognizer.write_wav b temp_path audio
                   = SpeechRecognizer.Return tt ->
                 SpeechRecognizer.transcribe b model temp_path
                   (Py.str_prefix 2 lang) = SpeechRecognizer.Return result ->
                 cleanup temp_path = SpeechRecognizer.Return tt ->
                 returns
                   (Some (SpeechRecognizer.strip b
                            (match SpeechRecognizer.text result with
                             | Some t => t
                             | None => ""%string
                             end)),
                    SpeechRecognizer.avg_confidence result))))) /\
    (SpeechRecognizer.current_engine self <> SpeechRecognizer.GOOGLE ->
     SpeechRecognizer.current_engine self <> SpeechRecognizer.WHISPER ->
     returns (None, 0%float)).
Proof.
  intros b self audio_data language audio lang returns cleanup.
  assert (Hboth : forall r,
             fst (SpeechRecognizer._recognize_audio b self audio language)
               = SpeechRecognizer.Return r -> returns r).
  { intros r Hr. split; [|exact Hr].
    apply RecognizerFacts.recognize_from_audio_data_passes. exact Hr. }
  assert (Hwhisper : forall r,
             SpeechRecognizer.current_engine self = SpeechRecognizer.WHISPER ->
             fst (SpeechRecognizer._recognize_whisper b self audio lang)
               = SpeechRecognizer.Return r -> returns r).
  { intros r Heng Hr. apply Hboth.
    apply RecognizerFacts._recognize_audio_whisper_passes; assumption. }
  split; [|split; [|split]].
  - destruct (RecognizerFacts._recognize_audio_returns b self audio language)
      as [r Hr].
    exists r. apply Hboth. exact Hr.
  - intros Heng. split.
    + intros text Hret. apply Hboth.
      apply RecognizerFacts._recognize_audio_google_success; assumption.
    + intros e Hraise. apply Hboth.
      exact (RecognizerFacts._recognize_audio_google_failure b self audio
               language e Heng Hraise).
  - intros Heng. split.
    + intros e Hm Hload. apply (Hwhisper _ Heng).
      exact (RecognizerFacts._recognize_whisper_load_failure b self audio
               lang e Hm Hload).
    + intros model Hmodel. split.
      * intros e Htmp. apply (Hwhisper _ Heng).
        exact (RecognizerFacts._recognize_whisper_temp_file_failure b self
                 audio lang model e Hmodel Htmp).
      * intros temp_path Htmp. split; [|split; [|split]].
        -- intros e Hwrite. apply (Hwhisper _ Heng).
           exact (RecognizerFacts._recognize_whisper_write_failure b self
                    audio lang model temp_path e Hmodel Htmp Hwrite).
        -- intros e Hwrite Htr. apply (Hwhisper _ Heng).
           exact (RecognizerFacts._recognize_whisper_transcription_failure b
                    self audio lang model temp_path e Hmodel Htmp Hwrite Htr).
        -- intros e Hclean. apply (Hwhisper _ Heng).
           exact (RecognizerFacts._recognize_whisper_cleanup_failure b self
                    audio lang model temp_path e Hmodel Htmp Hclean).
        -- intros result Hwrite Htr Hclean. apply (Hwhisper _ Heng).
           exact (RecognizerFacts._recognize_whisper_success b self audio
                    lang model temp_path result Hmodel Htmp Hwrite Htr
                    Hclean).
  - intros Hg Hw. apply Hboth.
    apply RecognizerFacts._recognize_audio_unsupported; assumption.
Qed.

Lemma recognize_never_raises_witness :
  let whisper := SpeechRecognizer.mkRecognizer SpeechRecognizer.WHISPER
                   "zh-CN" "base" None in
  let bing := SpeechRecognizer.mkRecognizer SpeechRecognizer.BING
                "zh-CN" "base" None in
  fst (SpeechRecognizer.recognize_from_audio_data
         SpeechRecognizer.scored_backend SpeechRecognizer.init [] None)
    = SpeechRecognizer.Return (None, 0%float) /\
  fst (SpeechRecognizer.recognize_from_audio_data
         SpeechRecognizer.spoken_backend SpeechRecognizer.init [1; 2]%Z None)
    = SpeechRecognizer.Return (Some "ni hao"%string, 0.85%float) /\
  fst (SpeechRecognizer.recognize_from_audio_data
         SpeechRecognizer.failing_backend whisper [1; 2]%Z None)
    = SpeechRecognizer.Return (None, 0%float) /\
  fst (SpeechRecognizer.recognize_from_audio_data
         SpeechRecognizer.scored_backend whisper [1; 2]%Z None)
    = SpeechRecognizer.Return
        (Some "ni hao"%string,
         SpeechRecognizer.avg_confidence
           (SpeechRecognizer.mkTranscription (Some "ni hao"%string)
              (Some [SpeechRecognizer.mkSegment (Some 0.9%float);
                     SpeechRecognizer.mkSegment None;
                     SpeechRecognizer.mkSegment (Some 0.5%float)]))) /\
  fst (SpeechRecognizer.recognize_from_audio_data
         SpeechRecognizer.scored_backend bing [1; 2]%Z None)
    = SpeechRecognizer.Return (None, 0%float).
Proof.
  intros whisper bing.
  destruct (recognize_never_raises SpeechRecognizer.scored_backend
              SpeechRecognizer.init [] None) as (_ & Hgoogle & _ & _).
  destruct (recognize_never_raises SpeechRecognizer.spoken_backend
              SpeechRecognizer.init [1; 2]%Z None) as (_ & Hspoken & _ & _).
  destruct (recognize_never_raises SpeechRecognizer.failing_backend
              whisper [1; 2]%Z None) as (_ & _ & Hfailing & _).
  destruct (recognize_never_raises SpeechRecognizer.scored_backend
              whisper [1; 2]%Z None) as (_ & _ & Hscored & _).
  destruct (recognize_never_raises SpeechRecognizer.scored_backend
              bing [1; 2]%Z None) as (_ & _ & _ & Hbing).
  split; [|split; [|split; [|split]]].
  - exact (proj1 (proj2 (Hgoogle eq_refl) SpeechRecognizer.UnknownValueError
                    eq_refl)).
  - exact (proj1 (proj1 (Hspoken eq_refl) "ni hao"%string eq_refl)).
  - destruct (proj2 (Hfailing eq_refl) "base"%string
                (or_intror (conj eq_refl eq_refl))) as (_ & Hfile).
    destruct (Hfile "/tmp/tmp0.wav"%string eq_refl) as (_ & Htr & _).
    exact (proj1 (Htr (SpeechRecognizer.RuntimeError "transcription failed")
                    eq_refl eq_refl)).
  - destruct (proj2 (Hscored eq_refl) "base"%string
                (or_intror (conj eq_refl eq_refl))) as (_ & Hfile).
    destruct (Hfile "/tmp/tmp0.wav"%string eq_refl) as (_ & _ & _ & Hok).
    exact (proj1 (Hok _ eq_refl eq_refl eq_refl)).
  - exact (proj1 (Hbing ltac:(discriminate) ltac:(discriminate))).
Defined.

(** C8 as stated fails on empty input: with the Whisper engine finding
    no speech in a recording without samples, the result is the empty
    text with the default confidence 0.8, not 0.0; so it is not the case
    that empty input always gives confidence 0.0. *)
Lemma empty_input_confidence_not_zero :
  let self := SpeechRecognizer.mkRecognizer SpeechRecognizer.WHISPER
                "zh-CN" "base" None in
  fst (SpeechRecognizer.recognize_from_audio_data
         SpeechRecognizer.quiet_backend self [] None)
    = SpeechRecognizer.Return (Some ""%string, 0.8%float) /\
  PrimFloat.eqb 0.8%float 0%float = false /\
  ~ (forall b self language, exists text,
        fst (SpeechRecognizer.recognize_from_audio_data b self [] language)
          = SpeechRecognizer.Return (text, 0%float)).
Proof.
  intros self.
  assert (E : fst (SpeechRecognizer.recognize_from_audio_data
                     SpeechRecognizer.quiet_backend self [] None)
              = SpeechRecognizer.Return (Some ""%string, 0.8%float))
    by (vm_compute; reflexivity).
  split; [exact E|]. split; [vm_compute; reflexivity|].
  intros H. destruct (H SpeechRecognizer.quiet_backend self None) as [t Ht].
  rewrite E in Ht.
  apply (f_equal (fun r => match r with
                           | SpeechRecognizer.Return (_, c) =>
                               PrimFloat.eqb c 0%float
                           | SpeechRecognizer.Raise _ => true
                           end)) in Ht.
  vm_compute in Ht. discriminate.
Qed.

(* ================================================================== *)
(** * Theorems: slices *)
(* ================================================================== *)

Module PyFacts.

Lemma slice_from_neg :
  forall A (n : Z) (l : list A),
    (0 < n)%Z -> Py.slice_from (- n) l = Py.lastn (Z.to_nat n) l.
Proof.
  intros A n l Hn. unfold Py.slice_from, Py.lastn.
  destruct (- n <? 0)%Z eqn:E.
  - rewrite Z.opp_involutive. reflexivity.
  - apply Z.ltb_ge in E. lia.
Qed.

Lemma lastn_length :
  forall A (n : nat) (l : list A),
    length (Py.lastn n l) = Nat.min n (length l).
Proof.
  intros A n l. unfold Py.lastn. rewrite length_skipn. lia.
Qed.

Lemma lastn_all :
  forall A (n : nat) (l : list A),
    (length l <= n)%nat -> Py.lastn n l = l.
Proof.
  intros A n l H. unfold Py.lastn.
  replace (length l - n)%nat with 0%nat by lia. reflexivity.
Qed.

(** Appending to the last [n] elements and cutting again is cutting
    once. *)
Lemma lastn_snoc :
  forall A (n : nat) (l : list A) (x : A),
    (1 <= n)%nat ->
    Py.lastn n (Py.lastn n l ++ [x]) = Py.lastn n (l ++ [x]).
Proof.
  intros A n l x Hn.
  destruct (Nat.le_gt_cases (length l) n) as [Hle|Hgt].
  - rewrite (lastn_all _ n l Hle). reflexivity.
  - unfold Py.lastn.
    rewrite !length_app, length_skipn. cbn [length].
    replace (length l - (length l - n) + 1 - n)%nat with 1%nat by lia.
    rewrite skipn_app, length_skipn.
    replace (1 - (length l - (length l - n)))%nat with 0%nat by lia.
    rewrite skipn_skipn.
    rewrite skipn_app.
    replace (length l + 1 - n - length l)%nat with 0%nat by lia.
    replace (1 + (length l - n))%nat with (length l + 1 - n)%nat by lia.
    reflexivity.
Qed.

Lemma lastn_app_lastn :
  forall A (n : nat) (l l2 : list A),
    (1 <= n)%nat ->
    fold_left (fun h x => Py.lastn n (h ++ [x])) l2 (Py.lastn n l)
    = Py.lastn n (l ++ l2).
Proof.
  intros A n l l2 Hn. revert l.
  induction l2 as [|x l2 IH]; intros l; cbn [fold_left].
  - rewrite app_nil_r. reflexivity.
  - rewrite (lastn_snoc _ n l x Hn), IH, <- app_assoc. reflexivity.
Qed.


Lemma slice_to_nonneg :
  forall A (n : Z) (l : list A),
    (0 <= n)%Z -> Py.slice_to n l = firstn (Z.to_nat n) l.
Proof.
  intros A n l Hn. unfold Py.slice_to.
  destruct (n <? 0)%Z eqn:E; [apply Z.ltb_lt in E; lia|reflexivity].
Qed.

End PyFacts.

(* ================================================================== *)
(** * Theorems: histories *)
(* ================================================================== *)

Module GuiFacts.

Section Window.

Variable t2s : string -> string.
Variable clock_iso : nat -> string.
Variable clock_timestamp : nat -> Z.
Variable datetime : Type.
Variable _generate_id : datetime -> string -> string.

Local Abbreviation after_recognition :=
  (Gui.after_recognition t2s clock_iso clock_timestamp _generate_id).
Local Abbreviation deliver :=
  (Gui.deliver t2s clock_iso clock_timestamp _generate_id).

Lemma write_clipboard_frame :
  forall now perr wok (w : Gui.window datetime) text,
    Gui.history (Gui.write_clipboard _generate_id now perr wok w text)
      = Gui.history w /\
    Gui.max_history (Gui.write_clipboard _generate_id now perr wok w text)
      = Gui.max_history w /\
    Gui.history_file (Gui.write_clipboard _generate_id now perr wok w text)
      = Gui.history_file w.
Proof.
  intros now perr wok w text. unfold Gui.write_clipboard.
  destruct (Gui.set_clipboard_text w) as [m|]; [|repeat split].
  destruct (ClipboardManager.copy_text _ _ _ _ _ _ _ _) as [[ok m'] clip].
  repeat split.
Qed.

(** The history after a delivery: the text is appended, and the list is
    cut to its last [max_history] elements when it is longer. *)
Lemma after_recognition_history :
  forall now perr wok io (w : Gui.window datetime) text,
    let h1 := Gui.history w ++ [Py.JStr (t2s text)] in
    Gui.history (after_recognition now perr wok io w text)
      = (if (Gui.max_history w <? Py.len h1)%Z
         then Py.slice_from (- Gui.max_history w) h1 else h1) /\
    Gui.max_history (after_recognition now perr wok io w text)
      = Gui.max_history w.
Proof.
  intros now perr wok io w text h1. unfold Gui.after_recognition.
  match goal with
  | |- context [Gui.write_clipboard _ _ _ _ ?w1 ?t] =>
      destruct (write_clipboard_frame now perr wok w1 t) as (Hh & Hm & _);
      set (w2 := Gui.write_clipboard _generate_id now perr wok w1 t) in *
  end.
  cbn [Gui.history Gui.max_history] in Hh, Hm.
  destruct io; cbn; rewrite Hh, Hm; split; reflexivity.
Qed.


Lemma deliver_all_max_history :
  forall ds (w : Gui.window datetime),
    Gui.max_history
      (Gui.deliver_all t2s clock_iso clock_timestamp _generate_id w ds)
    = Gui.max_history w.
Proof.
  induction ds as [|d ds IH]; intros w; [reflexivity|].
  unfold Gui.deliver_all in *. cbn [fold_left]. rewrite IH.
  unfold Gui.deliver.
  apply (proj2 (after_recognition_history _ _ _ _ w _)).
Qed.


End Window.

End GuiFacts.

Module ClipboardFacts.

Section Manager.

Variable datetime : Type.
Variable _generate_id : datetime -> string -> string.

(** [_add_to_history] either leaves the history alone (duplicate of the
    most recent entry) or puts the entry in front and cuts the tail. *)
Lemma _add_to_history_cases :
  forall write_ok (m : ClipboardManager.manager datetime) entry,
    let h' := ClipboardManager.history
                (ClipboardManager._add_to_history write_ok m entry) in
    let h1 := entry :: ClipboardManager.history m in
    (exists e0 rest,
        ClipboardManager.history m = e0 :: rest /\
        ClipboardManager.content e0 = ClipboardManager.content entry /\
        h' = ClipboardManager.history m) \/
    ((forall e0 rest,
         ClipboardManager.history m = e0 :: rest ->
         ClipboardManager.content e0 <> ClipboardManager.content entry) /\
     h' = if (ClipboardManager.max_history m <? Py.len h1)%Z
          then Py.slice_to (ClipboardManager.max_history m) h1 else h1).
Proof.
  intros write_ok m entry h' h1. subst h' h1.
  unfold ClipboardManager._add_to_history.
  destruct (ClipboardManager.history m) as [|e0 rest] eqn:Hh.
  - right. split; [intros ? ? H; discriminate|].
    cbn [ClipboardManager.with_history ClipboardManager.auto_save].
    destruct (ClipboardManager.auto_save m), write_ok; reflexivity.
  - destruct (String.eqb (ClipboardManager.content e0)
                         (ClipboardManager.content entry)) eqn:E.
    + left. exists e0, rest. apply String.eqb_eq in E. auto.
    + right. apply String.eqb_neq in E. split.
      * intros e1 rest1 H. injection H as -> _. exact E.
      * cbn [ClipboardManager.with_history ClipboardManager.auto_save].
        destruct (ClipboardManager.auto_save m), write_ok; reflexivity.
Qed.

Lemma _add_to_history_max_history :
  forall write_ok (m : ClipboardManager.manager datetime) entry,
    ClipboardManager.max_history
      (ClipboardManager._add_to_history write_ok m entry)
    = ClipboardManager.max_history m.
Proof.
  intros write_ok m entry. unfold ClipboardManager._add_to_history.
  destruct (match ClipboardManager.history m with
            | [] => false
            | e0 :: _ => String.eqb (ClipboardManager.content e0)
                           (ClipboardManager.content entry)
            end); [reflexivity|].
  cbn [ClipboardManager.with_history ClipboardManager.auto_save].
  destruct (ClipboardManager.auto_save m), write_ok; reflexivity.
Qed.


End Manager.

End ClipboardFacts.



(** C9.  When the most recent entry of the history has the content being
    copied, [copy_text] leaves the history as it is (no duplicate, same
    length), whatever the clipboard call does, and sets the clipboard to
    the text when that call succeeds; an entry is put in front of the
    history only when the history is empty or the text differs from the
    content of its most recent entry. *)
Theorem copy_text_skips_duplicate :
  forall (datetime : Type) (_generate_id : datetime -> string -> string)
         (now : datetime) (pyperclip_error : option string) (write_ok : bool)
         (clipboard : string) (m : ClipboardManager.manager datetime)
         (text : string) (metadata : option (list (string * Py.json))),
    let r := ClipboardManager.copy_text _generate_id now pyperclip_error
               write_ok clipboard m text metadata in
    let m' := snd (fst r) in
    (forall e0 rest,
        ClipboardManager.history m = e0 :: rest ->
        ClipboardManager.content e0 = text ->
        ClipboardManager.history m' = ClipboardManager.history m /\
        length (ClipboardManager.history m')
          = length (ClipboardManager.history m) /\
        (pyperclip_error = None -> r = (true, m', text))) /\
    (ClipboardManager.history m' <> ClipboardManager.history m ->
     pyperclip_error = None /\
     (forall e0 rest,
         ClipboardManager.history m = e0 :: rest ->
         ClipboardManager.content e0 <> text) /\
     let h1 := ClipboardManager.new_entry _generate_id now text "text"
                 metadata :: ClipboardManager.history m in
     ClipboardManager.history m'
       = if (ClipboardManager.max_history m <? Py.len h1)%Z
         then Py.slice_to (ClipboardManager.max_history m) h1 else h1).
Proof.
  intros datetime _generate_id now pyperclip_error write_ok clipboard m text
         metadata r m'.
  subst r m'. unfold ClipboardManager.copy_text.
  destruct pyperclip_error as [e|]; cbn [fst snd ClipboardManager.history].
  - split.
    + intros e0 rest Hh Hc. repeat split. discriminate.
    + intros H. congruence.
  - pose proof (ClipboardFacts._add_to_history_cases datetime write_ok m
                  (ClipboardManager.new_entry _generate_id now text "text"
                     metadata)) as Hcases.
    cbv zeta in Hcases.
    cbn [ClipboardManager.new_entry ClipboardManager.content] in Hcases.
    split.
    + intros e0 rest Hh Hc.
      destruct Hcases as [(e1 & rest1 & _ & _ & H)|[Hne _]].
      * cbn [ClipboardManager.new_entry] in *.
        rewrite H. repeat split.
      * exfalso. exact (Hne e0 rest Hh Hc).
    + intros Hchanged.
      destruct Hcases as [(e1 & rest1 & _ & _ & H)|[Hne H]].
      * cbn [ClipboardManager.new_entry] in *. congruence.
      * split; [reflexivity|]. split; [exact Hne|exact H].
Qed.

Lemma copy_text_skips_duplicate_witness :
  let e0 := ClipboardManager.mkEntry (datetime := unit) "hello" "text" tt []
              "id0" in
  let m := ClipboardManager.mkManager 100 false [e0] None false false [] [] in
  ClipboardManager.history m = [e0] /\
  ClipboardManager.content e0 = "hello"%string /\
  ClipboardManager.copy_text (fun _ s => s) tt None true "old" m "hello" None
    = (true, m, "hello"%string).
Proof.
  intros e0 m.
  split; [reflexivity|]. split; [reflexivity|].
  destruct (proj1 (copy_text_skips_duplicate unit (fun _ s => s) tt None true
                     "old" m "hello" None) e0 [] eq_refl eq_refl)
    as (_ & _ & H).
  rewrite (H eq_refl). reflexivity.
Defined.

(* ================================================================== *)
(** * Theorems: the history file *)
(* ================================================================== *)

Module HistoryFileFacts.

Section File.

Variable clock_iso : nat -> string.
Variable clock_timestamp : nat -> Z.

Local Abbreviation history_entries :=
  (Gui.history_entries clock_iso clock_timestamp).

(** Reading the texts back from the entries written for [h] gives [h]. *)
Lemma entry_texts_history_entries :
  forall h i, Gui.entry_texts (history_entries i h) = Some h.
Proof.
  induction h as [|text h IH]; intros i; [reflexivity|].
  cbn [Gui.history_entries Gui.entry_texts Gui.history_entry].
  rewrite IH. reflexivity.
Qed.

Lemma skipn_history_entries :
  forall k h i,
    skipn k (history_entries i h) = history_entries (k + i) (skipn k h).
Proof.
  induction k as [|k IH]; intros h i; [reflexivity|].
  destruct h as [|text h]; [reflexivity|].
  cbn [skipn Gui.history_entries]. rewrite IH.
  replace (k + S i)%nat with (S k + i)%nat by lia. reflexivity.
Qed.

Lemma length_history_entries :
  forall h i, length (history_entries i h) = length h.
Proof.
  induction h as [|text h IH]; intros i; [reflexivity|].
  cbn [Gui.history_entries length]. rewrite IH. reflexivity.
Qed.

(** Slicing the written entries and reading their texts is slicing the
    texts. *)
Lemma entry_texts_slice :
  forall (n : Z) h,
    Gui.entry_texts (Py.slice_from n (history_entries 0 h))
    = Some (Py.slice_from n h).
Proof.
  intros n h. unfold Py.slice_from.
  rewrite length_history_entries.
  destruct (n <? 0)%Z; rewrite skipn_history_entries;
    apply entry_texts_history_entries.
Qed.

Lemma slice_from_within_bound :
  forall A (n : Z) (l : list A),
    (Py.len l <= n)%Z -> Py.slice_from (- n) l = l.
Proof.
  intros A n l H. unfold Py.slice_from, Py.len in *.
  destruct (- n <? 0)%Z eqn:E.
  - replace (length l - Z.to_nat (- - n))%nat with 0%nat by lia. reflexivity.
  - apply Z.ltb_ge in E.
    assert (length l = 0%nat) by lia.
    destruct l; [|discriminate]. destruct (Z.to_nat (- n)); reflexivity.
Qed.

End File.

End HistoryFileFacts.

(** C6.  For every history of at most N = [max_history] entries, saving
    it (the file is written) and loading it back restores the same
    entries in the same order; only the texts are read back, the
    identifiers, time stamps, source and confidence written beside them
    are not.  The loader also accepts the former file shape, a plain
    array: its elements (the last N of them) become the history, just as
    if the file held entries with these elements as texts. *)
Theorem save_then_load_history :
  forall (clock_iso : nat -> string) (clock_timestamp : nat -> Z)
         (datetime : Type) (w : Gui.window datetime),
    ((Py.len (Gui.history w) <= Gui.max_history w)%Z ->
     Gui.save_history clock_iso clock_timestamp Gui.Written w
       = (Gui.with_file w
            (Gui.Json (Gui.history_data clock_iso clock_timestamp
                         (Gui.history w))), true) /\
     Gui.history
       (Gui.load_history
          (fst (Gui.save_history clock_iso clock_timestamp Gui.Written w)))
     = Gui.history w) /\
    (forall data : list Py.json,
        Gui.history (Gui.load_history (Gui.with_file w
                                         (Gui.Json (Py.JArr data))))
        = Py.slice_from (- Gui.max_history w) data /\
        Gui.history (Gui.load_history (Gui.with_file w
                                         (Gui.Json (Py.JArr data))))
        = Gui.history
            (Gui.load_history
               (Gui.with_file w
                  (Gui.Json (Gui.history_data clock_iso clock_timestamp
                               data)))) /\
        ((Py.len data <= Gui.max_history w)%Z ->
         Gui.history (Gui.load_history (Gui.with_file w
                                          (Gui.Json (Py.JArr data))))
         = data)).
Proof.
  intros clock_iso clock_timestamp datetime w.
  assert (Hnew : forall h,
             Gui.history
               (Gui.load_history
                  (Gui.with_file w
                     (Gui.Json (Gui.history_data clock_iso clock_timestamp
                                  h))))
             = Py.slice_from (- Gui.max_history w) h).
  { intros h. unfold Gui.load_history, Gui.history_data.
    cbn [Gui.with_file Gui.history_file Gui.max_history Gui.with_history
         Gui.history].
    change (Py.dict_get _ "entries")
      with (Some (Py.JArr (Gui.history_entries clock_iso clock_timestamp
                             0 h))).
    cbv iota beta.
    rewrite HistoryFileFacts.entry_texts_slice. reflexivity. }
  split.
  - intros Hlen. split; [reflexivity|].
    cbn [Gui.save_history fst]. rewrite Hnew.
    apply HistoryFileFacts.slice_from_within_bound. exact Hlen.
  - intros data.
    assert (Hold : Gui.history
                     (Gui.load_history
                        (Gui.with_file w (Gui.Json (Py.JArr data))))
                   = Py.slice_from (- Gui.max_history w) data)
      by reflexivity.
    split; [exact Hold|]. split.
    + rewrite Hold, Hnew. reflexivity.
    + intros Hlen. rewrite Hold.
      apply HistoryFileFacts.slice_from_within_bound. exact Hlen.
Qed.

Lemma save_then_load_history_witness :
  let w := Gui.mkWindow (datetime := unit)
             [Py.JStr "a"; Py.JStr "b"] 10 Gui.NoFile "" None "" [] "base" in
  (Py.len (Gui.history w) <= Gui.max_history w)%Z /\
  Gui.history
    (Gui.load_history
       (fst (Gui.save_history (fun _ => "2026-01-01T00:00:00"%string)
               (fun _ => 1767225600%Z) Gui.Written w)))
  = [Py.JStr "a"; Py.JStr "b"] /\
  Gui.history
    (Gui.load_history
       (Gui.with_file w (Gui.Json (Py.JArr [Py.JStr "x"; Py.JStr "y"]))))
  = [Py.JStr "x"; Py.JStr "y"].
Proof.
  intros w.
  assert (Hlen : (Py.len (Gui.history w) <= Gui.max_history w)%Z)
    by (cbn; lia).
  split; [exact Hlen|].
  pose proof (save_then_load_history
                (fun _ => "2026-01-01T00:00:00"%string)
                (fun _ => 1767225600%Z) unit w) as [Hround Hlegacy].
  split.
  - exact (proj2 (Hround Hlen)).
  - apply (proj2 (proj2 (Hlegacy [Py.JStr "x"; Py.JStr "y"]))).
    cbn. lia.
Defined.

(* ================================================================== *)
(** * Theorems: config_manager.py *)
(* ================================================================== *)

Module ConfigFacts.

Import ConfigManager.

Lemma dict_get_set_same :
  forall d key value, Py.dict_get (Py.dict_set d key value) key = Some value.
Proof.
  induction d as [|[k v] d IH]; intros key value; cbn.
  - rewrite String.eqb_refl. reflexivity.
  - destruct (String.eqb k key) eqn:E; cbn; rewrite E; [reflexivity|apply IH].
Qed.

Lemma dict_get_set_other :
  forall d key key' value,
    key <> key' ->
    Py.dict_get (Py.dict_set d key value) key' = Py.dict_get d key'.
Proof.
  induction d as [|[k v] d IH]; intros key key' value Hne; cbn.
  - apply String.eqb_neq in Hne. rewrite Hne. reflexivity.
  - destruct (String.eqb k key) eqn:E; cbn.
    + apply String.eqb_eq in E. subst k.
      apply String.eqb_neq in Hne. rewrite Hne. reflexivity.
    + destruct (String.eqb k key'); [reflexivity|]. apply IH. exact Hne.
Qed.

Lemma split_not_nil : forall sep s, Py.split sep s <> [].
Proof.
  intros sep s. destruct s as [|c s]; cbn; [discriminate|].
  destruct (Ascii.eqb c sep); [discriminate|].
  destruct (Py.split sep s); discriminate.
Qed.

(** What [set] writes, [get] reads along the same keys. *)
Lemma get_loop_set_loop :
  forall init current last_key value default config',
    set_loop current init last_key value = Some config' ->
    get_loop config' (init ++ [last_key]) default = value.
Proof.
  induction init as [|key rest IH];
    intros current last_key value default config' Hset;
    destruct current as [| | | | | |d]; try discriminate; cbn in Hset.
  - injection Hset as <-. cbn. rewrite dict_get_set_same. reflexivity.
  - destruct (set_loop _ rest last_key value) as [child'|] eqn:E;
      [|discriminate].
    injection Hset as <-. cbn. rewrite dict_get_set_same.
    eapply IH. exact E.
Qed.

Lemma set_loop_navigable :
  forall init current last_key value,
    navigable current init ->
    exists config', set_loop current init last_key value = Some config'.
Proof.
  assert (Hfresh : forall init last_key value,
             exists config',
               set_loop (Py.JObj []) init last_key value = Some config').
  { induction init as [|key rest IH]; intros last_key value; cbn.
    - eauto.
    - destruct (IH last_key value) as [c' ->]. eauto. }
  induction init as [|key rest IH]; intros current last_key value Hnav;
    inversion Hnav as [d|d k r Hnone|d k r child Hsome Hchild]; subst; cbn.
  - eauto.
  - rewrite Hnone. destruct (Hfresh rest last_key value) as [c' ->]. eauto.
  - rewrite Hsome. destruct (IH child last_key value Hchild) as [c' ->].
    eauto.
Qed.

Lemma set_loop_some_navigable :
  forall init current last_key value config',
    set_loop current init last_key value = Some config' ->
    navigable current init.
Proof.
  induction init as [|key rest IH];
    intros current last_key value config' Hset;
    destruct current as [| | | | | |d]; try discriminate.
  - constructor.
  - cbn in Hset. destruct (Py.dict_get d key) as [child|] eqn:E.
    + destruct (set_loop child rest last_key value) as [c'|] eqn:E';
        [|discriminate].
      eapply navigable_present; [exact E|]. eapply IH. exact E'.
    + apply navigable_absent. exact E.
Qed.

Lemma get_loop_resolves :
  forall keys config default v,
    resolves config keys v -> get_loop config keys default = v.
Proof.
  intros keys config default v H.
  induction H as [v|d key rest child v Hget _ IH]; cbn; [reflexivity|].
  rewrite Hget. exact IH.
Qed.

Lemma get_loop_absent :
  forall keys config default,
    (forall v, ~ resolves config keys v) ->
    get_loop config keys default = default.
Proof.
  induction keys as [|key rest IH]; intros config default Habs.
  - exfalso. apply (Habs config). constructor.
  - cbn. destruct config as [| | | | | |d]; try reflexivity.
    destruct (Py.dict_get d key) as [child|] eqn:E; [|reflexivity].
    apply IH. intros v Hv. apply (Habs v).
    econstructor; eassumption.
Qed.

End ConfigFacts.

(** C10.  For every key path, which [split('.')] turns into a non-empty
    list of segments: if [set(key_path, value)] succeeds (returns [True]),
    which the navigation allows exactly when the intermediate segments
    address dictionaries or are absent, then [get(key_path)] returns
    exactly [value]; and for a key path that is not present in the
    configuration [get] returns the default supplied by the caller. *)
Theorem get_after_set :
  forall (save_ok : bool) (config : Py.json) (key_path : string)
         (value default : Py.json) (auto_save : bool),
    let keys := Py.split "."%char key_path in
    let r := ConfigManager.set save_ok config key_path value auto_save in
    keys <> [] /\
    (fst r = true -> ConfigManager.get (snd r) key_path default = value) /\
    (ConfigManager.navigable config (removelast keys) ->
     (auto_save = false \/ save_ok = true) ->
     fst r = true) /\
    (fst r = true -> ConfigManager.navigable config (removelast keys)) /\
    ((forall v, ~ ConfigManager.resolves config keys v) ->
     ConfigManager.get config key_path default = default) /\
    (forall v, ConfigManager.resolves config keys v ->
               ConfigManager.get config key_path default = v).
Proof.
  intros save_ok config key_path value default auto_save keys r.
  assert (Hne : keys <> []) by apply ConfigFacts.split_not_nil.
  assert (Hkeys : keys = removelast keys ++ [last keys EmptyString])
    by (apply app_removelast_last; exact Hne).
  subst r. unfold ConfigManager.set, ConfigManager.get. fold keys.
  split; [exact Hne|].
  destruct (ConfigManager.set_loop config (removelast keys)
              (last keys EmptyString) value) as [config'|] eqn:E;
    cbn [fst snd].
  - split; [|split; [|split; [|split]]].
    + intros _. rewrite Hkeys at 1.
      eapply ConfigFacts.get_loop_set_loop. exact E.
    + intros _ [->| ->]; [reflexivity|destruct auto_save; reflexivity].
    + intros _. eapply ConfigFacts.set_loop_some_navigable. exact E.
    + apply ConfigFacts.get_loop_absent.
    + intros v Hv. apply ConfigFacts.get_loop_resolves. exact Hv.
  - split; [|split; [|split; [|split]]].
    + discriminate.
    + intros Hnav _.
      destruct (ConfigFacts.set_loop_navigable (removelast keys) config
                  (last keys EmptyString) value Hnav) as [c' Hc'].
      congruence.
    + discriminate.
    + apply ConfigFacts.get_loop_absent.
    + intros v Hv. apply ConfigFacts.get_loop_resolves. exact Hv.
Qed.

Lemma get_after_set_witness :
  let config := Py.JObj [("speech"%string,
                          Py.JObj [("language"%string, Py.JStr "zh-CN")])] in
  let r := ConfigManager.set true config "test.setting"
             (Py.JStr "test_value") true in
  fst r = true /\
  ConfigManager.get (snd r) "test.setting" Py.JNull = Py.JStr "test_value" /\
  ConfigManager.get config "speech.engine" (Py.JStr "google")
    = Py.JStr "google".
Proof.
  intros config r.
  assert (Hok : fst r = true) by reflexivity.
  split; [exact Hok|]. split.
  - exact (proj1 (proj2 (get_after_set true config "test.setting"
                           (Py.JStr "test_value") Py.JNull true)) Hok).
  - apply (proj1 (proj2 (proj2 (proj2 (proj2
             (get_after_set true config "speech.engine" Py.JNull
                (Py.JStr "google") true)))))).
    intros v Hv. cbn in Hv.
    inversion Hv as [|d key rest child v' Hget Hrest]; subst.
    cbn in Hget. injection Hget as <-.
    inversion Hrest as [|d key rest child v' Hget' Hrest']; subst.
    cbn in Hget'. discriminate.
Defined.

(* ================================================================== *)
(** * Theorems: delivery of a failed recognition *)
(* ================================================================== *)

Module DeliveryFacts.

Section Window.

Variable t2s : string -> string.
Variable clock_iso : nat -> string.
Variable clock_timestamp : nat -> Z.
Variable datetime : Type.
Variable _generate_id : datetime -> string -> string.
Variable emit_type_error : string.

(** A recognition that yields no text reaches no slot: [emit(None)] is
    a type error, and the closure of the handler raises in its turn. *)
Lemma do_recognition_no_text :
  forall b os_remove (w : Gui.window datetime) wav_path confidence,
    fst (SpeechRecognizer.recognize_from_file b
           (SpeechRecognizer.mkRecognizer SpeechRecognizer.WHISPER
              (SpeechRecognizer.default_language SpeechRecognizer.init)
              (Gui.current_model w) None)
           wav_path None)
      = SpeechRecognizer.Return (None, confidence) ->
    Gui.do_recognition t2s emit_type_error true b os_remove w wav_path
    = None.
Proof.
  intros b os_remove w wav_path confidence H.
  unfold Gui.do_recognition. cbn [negb].
  rewrite H. destruct os_remove as [[]|e]; reflexivity.
Qed.

(** Neither does a missing speech_recognizer module. *)
Lemma do_recognition_module_missing :
  forall b os_remove (w : Gui.window datetime) wav_path,
    Gui.do_recognition t2s emit_type_error false b os_remove w wav_path
    = None.
Proof. reflexivity. Qed.

(** Nor a temporary file that cannot be removed. *)
Lemma do_recognition_remove_fails :
  forall module_found b e (w : Gui.window datetime) wav_path,
    Gui.do_recognition t2s emit_type_error module_found b
      (SpeechRecognizer.Raise e) w wav_path
    = None.
Proof.
  intros module_found b e w wav_path. unfold Gui.do_recognition.
  destruct module_found; cbn [negb]; [|reflexivity].
  destruct (fst (SpeechRecognizer.recognize_from_file _ _ _ _))
    as [[text confidence]|e']; reflexivity.
Qed.

(** A text, empty or not, is emitted in its simplified form. *)
Lemma do_recognition_some_text :
  forall b (w : Gui.window datetime) wav_path text confidence,
    fst (SpeechRecognizer.recognize_from_file b
           (SpeechRecognizer.mkRecognizer SpeechRecognizer.WHISPER
              (SpeechRecognizer.default_language SpeechRecognizer.init)
              (Gui.current_model w) None)
           wav_path None)
      = SpeechRecognizer.Return (Some text, confidence) ->
    Gui.do_recognition t2s emit_type_error true b
      (SpeechRecognizer.Return tt) w wav_path
    = Some (t2s text).
Proof.
  intros b w wav_path text confidence H.
  unfold Gui.do_recognition. cbn [negb].
  rewrite H. reflexivity.
Qed.

(** The closure of the handler would emit the message if [e] were still
    bound when it is called. *)
Lemma failure_closure_bound :
  forall e,
    Gui.failure_closure emit_type_error (Some e)
    = SpeechRecognizer.Return
        ("[识别失败] " ++ SpeechRecognizer.str_of_exn e)%string.
Proof. reflexivity. Qed.

(** The clipboard after a delivery holds the delivered text whenever the
    clipboard call succeeds. *)
Lemma after_recognition_clipboard :
  forall now wok io (w : Gui.window datetime) text,
    Gui.clipboard
      (Gui.after_recognition t2s clock_iso clock_timestamp _generate_id
         now None wok io w text)
    = t2s text.
Proof.
  intros now wok io w text.
  unfold Gui.after_recognition, Gui.write_clipboard.
  cbn [Gui.set_clipboard_text Gui.history Gui.max_history Gui.clipboard
       Gui.history_file Gui.result_text Gui.copy_status Gui.current_model].
  destruct (Gui.set_clipboard_text w) as [m|].
  - unfold ClipboardManager.copy_text. destruct io; reflexivity.
  - destruct io; reflexivity.
Qed.

End Window.

End DeliveryFacts.

(** C1 (what the code does instead).  A session that fails with an
    exception, or whose recognition returns [None], leaves the window as
    it was: clipboard, history and file are unchanged, and so are the
    result text and the status line, because the closure that was to
    emit "[识别失败] ..." raises a name error when the timer calls it.  A
    session whose recognition returns the empty text is not treated as
    a failure: the empty text reaches the slot, is appended to the
    history, which grows by one entry when below its bound, and
    overwrites the clipboard when the clipboard call succeeds. *)
Theorem failed_recognition_delivery :
  forall (t2s : string -> string) (clock_iso : nat -> string)
         (clock_timestamp : nat -> Z) (datetime : Type)
         (_generate_id : datetime -> string -> string)
         (emit_type_error : string) (b : SpeechRecognizer.backend)
         (os_remove : SpeechRecognizer.outcome unit)
         (now : datetime) (manager_write_ok : bool) (io : Gui.write_result)
         (w : Gui.window datetime) (wav_path : string) (confidence : float),
    let recognized :=
      fst (SpeechRecognizer.recognize_from_file b
             (SpeechRecognizer.mkRecognizer SpeechRecognizer.WHISPER
                (SpeechRecognizer.default_language SpeechRecognizer.init)
                (Gui.current_model w) None)
             wav_path None) in
    let session := fun module_found removed =>
      Gui.recognition_session t2s clock_iso clock_timestamp _generate_id
        emit_type_error module_found b removed now None manager_write_ok io
        w wav_path in
    (recognized = SpeechRecognizer.Return (None, confidence) ->
     session true os_remove = w) /\
    session false os_remove = w /\
    (forall module_found e,
        session module_found (SpeechRecognizer.Raise e) = w) /\
    (recognized = SpeechRecognizer.Return (Some ""%string, confidence) ->
     (Py.len (Gui.history w) < Gui.max_history w)%Z ->
     let w' := session true (SpeechRecognizer.Return tt) in
     Gui.history w' = Gui.history w ++ [Py.JStr (t2s (t2s ""%string))] /\
     length (Gui.history w') = S (length (Gui.history w)) /\
     Gui.clipboard w' = t2s (t2s ""%string)).
Proof.
  intros t2s clock_iso clock_timestamp datetime _generate_id emit_type_error
         b os_remove now manager_write_ok io w wav_path confidence
         recognized session.
  subst recognized session. cbv beta.
  split; [|split; [|split]].
  - intros Hfail. unfold Gui.recognition_session.
    rewrite (DeliveryFacts.do_recognition_no_text t2s datetime
               emit_type_error b os_remove w wav_path confidence Hfail).
    reflexivity.
  - unfold Gui.recognition_session.
    rewrite DeliveryFacts.do_recognition_module_missing. reflexivity.
  - intros module_found e. unfold Gui.recognition_session.
    rewrite DeliveryFacts.do_recognition_remove_fails. reflexivity.
  - intros Hempty Hlen w'. subst w'. unfold Gui.recognition_session.
    rewrite (DeliveryFacts.do_recognition_some_text t2s datetime
               emit_type_error b w wav_path ""%string confidence Hempty).
    assert (Hh : Gui.history
                   (Gui.after_recognition t2s clock_iso clock_timestamp
                      _generate_id now None manager_write_ok io w
                      (t2s ""%string))
                 = Gui.history w ++ [Py.JStr (t2s (t2s ""%string))]).
    { rewrite (proj1 (GuiFacts.after_recognition_history t2s clock_iso
                        clock_timestamp datetime _generate_id now None
                        manager_write_ok io w _)).
      destruct (Gui.max_history w <? _)%Z eqn:E; [|reflexivity].
      apply Z.ltb_lt in E. unfold Py.len in *. rewrite length_app in E.
      cbn [length] in E. lia. }
    split; [exact Hh|]. split.
    + rewrite Hh, length_app. cbn [length]. lia.
    + apply DeliveryFacts.after_recognition_clipboard.
Qed.

Lemma failed_recognition_delivery_witness :
  let w := Gui.mkWindow (datetime := unit)
             [Py.JStr "hello"] 10 Gui.NoFile "hello" None
             "正在识别，请稍候..." [] "base" in
  let session := fun b =>
    Gui.recognition_session (fun s => s) (fun _ => ""%string)
      (fun _ => 0%Z) (fun _ s => s)
      "argument 1 has unexpected type 'NoneType'" true b
      (SpeechRecognizer.Return tt) tt None true Gui.Written w
      "temp_record.wav" in
  session SpeechRecognizer.failing_backend = w /\
  Gui.history (session SpeechRecognizer.quiet_backend)
    = [Py.JStr "hello"; Py.JStr ""] /\
  Gui.clipboard (session SpeechRecognizer.quiet_backend) = ""%string.
Proof.
  intros w session. split.
  - exact (proj1 (failed_recognition_delivery (fun s => s)
                    (fun _ => ""%string) (fun _ => 0%Z) unit (fun _ s => s)
                    "argument 1 has unexpected type 'NoneType'"
                    SpeechRecognizer.failing_backend
                    (SpeechRecognizer.Return tt) tt true Gui.Written w
                    "temp_record.wav" 0%float)
             eq_refl).
  - destruct (proj2 (proj2 (proj2
                (failed_recognition_delivery (fun s => s)
                   (fun _ => ""%string) (fun _ => 0%Z) unit (fun _ s => s)
                   "argument 1 has unexpected type 'NoneType'"
                   SpeechRecognizer.quiet_backend
                   (SpeechRecognizer.Return tt) tt true Gui.Written w
                   "temp_record.wav" 0.8%float)))
                eq_refl ltac:(cbn; lia))
      as (Hh & _ & Hc).
    split; [exact Hh|exact Hc].
Defined.

(* ================================================================== *)
(** * Further properties: the recording loops *)
(* ================================================================== *)

Module RecordingFacts.

Section Loop.

Variable Chunk : Type.
Variable silent : Chunk -> bool.
Variable stream_read : nat -> Chunk.

Lemma silence_after_all_loud :
  (forall i, silent (stream_read i) = false) ->
  forall k, Recording.silence_after silent stream_read k = 0%Z.
Proof.
  intros Hloud k. destruct k as [|k]; cbn; [reflexivity|].
  rewrite Hloud. reflexivity.
Qed.

Lemma silence_after_all_silent :
  (forall i, silent (stream_read i) = true) ->
  forall k, Recording.silence_after silent stream_read k = Z.of_nat k.
Proof.
  intros Hquiet k. induction k as [|k IH]; [reflexivity|].
  cbn [Recording.silence_after]. rewrite Hquiet, IH. lia.
Qed.

End Loop.

End RecordingFacts.

(** X1.  When no chunk of the stream is silent and the silence limit is
    at least one chunk, the loop of
    [custom_record_with_silence_detection] records exactly [max_chunks]
    chunks: the hard cap alone ends the recording. *)
Theorem loud_stream_records_max_chunks :
  forall (Chunk : Type) (silent : Chunk -> bool) (stream_read : nat -> Chunk)
         (silence_chunk_limit max_chunks : Z),
    (0 < silence_chunk_limit)%Z ->
    (forall i, silent (stream_read i) = false) ->
    let st := Recording.record_loop silent stream_read silence_chunk_limit
                max_chunks in
    length (Recording.frames st) = Z.to_nat max_chunks /\
    Recording.frames st = map stream_read (seq 0 (Z.to_nat max_chunks)) /\
    Recording.silent_chunks st = 0%Z.
Proof.
  intros Chunk silent stream_read limit max_chunks Hlim Hloud st.
  assert (H0 : Recording.tracks silent stream_read 0
                 (Recording.mkState [] 0%Z)) by (split; reflexivity).
  destruct (for_loop_spec Chunk silent stream_read limit
              (Z.to_nat max_chunks) 0 _ H0)
    as ([Hf Hs] & Hr & _ & Hstop & _).
  fold (Recording.record_loop silent stream_read limit max_chunks) in *.
  fold st in Hf, Hs, Hr, Hstop.
  assert (Hn : length (Recording.frames st) = Z.to_nat max_chunks).
  { destruct (Nat.eq_dec (length (Recording.frames st))
                (Z.to_nat max_chunks)) as [E|E]; [exact E|].
    assert (Hlt : (length (Recording.frames st) < 0 + Z.to_nat max_chunks)%nat)
      by lia.
    specialize (Hstop Hlt).
    rewrite (RecordingFacts.silence_after_all_loud Chunk silent stream_read
               Hloud) in Hstop.
    lia. }
  split; [exact Hn|]. split.
  - rewrite Hf, Hn. reflexivity.
  - rewrite Hs.
    apply (RecordingFacts.silence_after_all_loud Chunk silent stream_read
             Hloud).
Qed.

Lemma loud_stream_records_max_chunks_witness :
  let silent := fun l : Z => (l <? 500)%Z in
  let stream_read := fun _ : nat => 900%Z in
  (0 < 78)%Z /\
  (forall i : nat, silent (stream_read i) = false) /\
  length (Recording.frames (Recording.record_loop silent stream_read 78 156))
    = 156%nat.
Proof.
  intros silent stream_read.
  split; [lia|]. split; [intros i; reflexivity|].
  exact (proj1 (loud_stream_records_max_chunks Z silent stream_read 78 156
                  ltac:(lia) (fun i => eq_refl))).
Defined.

(** X2.  When every chunk of the stream is silent and the silence limit
    is at least one chunk, the loop records exactly the smaller of the
    silence limit and [max_chunks] chunks. *)
Theorem silent_stream_records_limit_chunks :
  forall (Chunk : Type) (silent : Chunk -> bool) (stream_read : nat -> Chunk)
         (silence_chunk_limit max_chunks : Z),
    (0 < silence_chunk_limit)%Z ->
    (forall i, silent (stream_read i) = true) ->
    let st := Recording.record_loop silent stream_read silence_chunk_limit
                max_chunks in
    length (Recording.frames st)
      = Nat.min (Z.to_nat silence_chunk_limit) (Z.to_nat max_chunks).
Proof.
  intros Chunk silent stream_read limit max_chunks Hlim Hquiet st.
  assert (H0 : Recording.tracks silent stream_read 0
                 (Recording.mkState [] 0%Z)) by (split; reflexivity).
  destruct (for_loop_spec Chunk silent stream_read limit
              (Z.to_nat max_chunks) 0 _ H0)
    as (_ & Hr & Hpos & Hstop & Hmin).
  fold (Recording.record_loop silent stream_read limit max_chunks) in *.
  fold st in Hr, Hpos, Hstop, Hmin.
  set (m := length (Recording.frames st)) in *.
  pose proof (RecordingFacts.silence_after_all_silent Chunk silent
                stream_read Hquiet) as Hsil.
  assert (Hbefore : forall k, (0 < k < m)%nat -> (Z.of_nat k < limit)%Z).
  { intros k Hk. rewrite <- Hsil. apply Hmin. exact Hk. }
  destruct (Nat.lt_ge_cases m (Z.to_nat max_chunks)) as [Hlt|Hge].
  - assert (Hreach : (limit <= Z.of_nat m)%Z).
    { rewrite <- Hsil. apply Hstop. lia. }
    assert (Hm1 : (0 < m)%nat) by (apply Hpos; lia).
    destruct (Nat.eq_dec m 1) as [E|E].
    + lia.
    + specialize (Hbefore (m - 1)%nat ltac:(lia)). lia.
  - destruct (Nat.eq_dec m 0) as [E|E]; [lia|].
    destruct (Nat.eq_dec m 1) as [E1|E1]; [lia|].
    specialize (Hbefore (m - 1)%nat ltac:(lia)). lia.
Qed.

Lemma silent_stream_records_limit_chunks_witness :
  let silent := fun l : Z => (l <? 500)%Z in
  let stream_read := fun _ : nat => 3%Z in
  (0 < 78)%Z /\
  (forall i : nat, silent (stream_read i) = true) /\
  length (Recording.frames (Recording.record_loop silent stream_read 78 156))
    = 78%nat.
Proof.
  intros silent stream_read.
  split; [lia|]. split; [intros i; reflexivity|].
  exact (silent_stream_records_limit_chunks Z silent stream_read 78 156
           ltac:(lia) (fun i => eq_refl)).
Defined.

(** X3.  The level shown by the window for a chunk never exceeds 1.0:
    after every chunk read, [1.0 < audio_level] is false. *)
Theorem audio_level_at_most_one :
  forall (st : Recording.gui_state) (data : Recording.chunk),
    PrimFloat.ltb 1%float
      (Recording.audio_level (Recording.gui_read_chunk st data)) = false.
Proof.
  intros st data. unfold Recording.gui_read_chunk, Recording.py_min.
  cbn [Recording.audio_level].
  destruct (PrimFloat.ltb 1%float
              (PrimFloat.mul (Recording.level data) 10%float)) eqn:E.
  - vm_compute. reflexivity.
  - exact E.
Qed.

(* ================================================================== *)
(** * Further properties: speech_recognizer.py *)
(* ================================================================== *)

Module RecognizerMoreFacts.

Import SpeechRecognizer.

Lemma existsb_eqb_In :
  forall (code : string) (l : list string),
    existsb (String.eqb code) l = true <-> In code l.
Proof.
  intros code l. rewrite existsb_exists. split.
  - intros (x & Hin & Heq). apply String.eqb_eq in Heq. subst. exact Hin.
  - intros Hin. exists code. split; [exact Hin|apply String.eqb_refl].
Qed.

Lemma set_language_supported :
  forall self code,
    In (default_language self) supported_languages ->
    In (default_language (fst (set_language self code))) supported_languages.
Proof.
  intros self code Hin. unfold set_language.
  destruct (existsb (String.eqb code) supported_languages) eqn:E;
    cbn [fst default_language].
  - apply (proj1 (existsb_eqb_In code supported_languages)). exact E.
  - exact Hin.
Qed.

(** A recognition changes nothing of the recognizer but the model cache,
    and the cache only from empty to loaded. *)
Lemma _recognize_whisper_state :
  forall b self audio language,
    let self' := snd (_recognize_whisper b self audio language) in
    current_engine self' = current_engine self /\
    default_language self' = default_language self /\
    whisper_model_name self' = whisper_model_name self /\
    (forall m, _whisper_model self = Some m -> self' = self).
Proof.
  intros b self audio language. unfold _recognize_whisper. cbn [snd].
  destruct (_whisper_model self) as [m|] eqn:E; cbn [snd].
  - repeat split.
  - destruct (load_model b (whisper_model_name self)); cbn [snd];
      repeat split; intros m0 H; discriminate.
Qed.

Lemma _recognize_audio_state :
  forall b self audio language,
    let self' := snd (_recognize_audio b self audio language) in
    current_engine self' = current_engine self /\
    default_language self' = default_language self /\
    whisper_model_name self' = whisper_model_name self /\
    (forall m, _whisper_model self = Some m -> self' = self).
Proof.
  intros b self audio language. unfold _recognize_audio. cbn [snd].
  destruct (current_engine self) eqn:E; cbn [snd]; rewrite <- ?E;
    first [ apply _recognize_whisper_state
          | repeat split; intros; reflexivity ].
Qed.

Lemma recognize_from_file_state :
  forall b self path language,
    let self' := snd (recognize_from_file b self path language) in
    current_engine self' = current_engine self /\
    default_language self' = default_language self /\
    whisper_model_name self' = whisper_model_name self /\
    (forall m, _whisper_model self = Some m -> self' = self).
Proof.
  intros b self path language. unfold recognize_from_file.
  destruct (audio_file_record b path) as [audio|e]; cbn [snd].
  - apply _recognize_audio_state.
  - repeat split.
Qed.

Lemma recognize_from_file_returns :
  forall b self path language,
  exists r, fst (recognize_from_file b self path language) = Return r.
Proof.
  intros b self path language. unfold recognize_from_file.
  destruct (audio_file_record b path) as [audio|e]; cbn [fst].
  - destruct (RecognizerFacts._recognize_audio_returns b self audio language)
      as [r Hr].
    rewrite Hr. exists r. reflexivity.
  - exists no_result. reflexivity.
Qed.

End RecognizerMoreFacts.

(** X4.  [set_language] accepts exactly the supported language codes: it
    returns [True] and makes the code the default language when the code
    is supported, and returns [False] leaving the recognizer as it is
    otherwise; so after any sequence of calls the default language is
    still a supported one. *)
Theorem set_language_keeps_default_supported :
  forall (self : SpeechRecognizer.recognizer) (codes : list string)
         (code : string),
    In (SpeechRecognizer.default_language self)
       SpeechRecognizer.supported_languages ->
    (snd (SpeechRecognizer.set_language self code) = true <->
     In code SpeechRecognizer.supported_languages) /\
    (In code SpeechRecognizer.supported_languages ->
     SpeechRecognizer.default_language
       (fst (SpeechRecognizer.set_language self code)) = code) /\
    (~ In code SpeechRecognizer.supported_languages ->
     SpeechRecognizer.set_language self code = (self, false)) /\
    In (SpeechRecognizer.default_language
          (fold_left (fun s c => fst (SpeechRecognizer.set_language s c))
             codes self))
       SpeechRecognizer.supported_languages.
Proof.
  intros self codes code Hin.
  pose proof (RecognizerMoreFacts.existsb_eqb_In code
                SpeechRecognizer.supported_languages) as Hiff.
  split; [|split; [|split]].
  - unfold SpeechRecognizer.set_language.
    destruct (existsb _ _) eqn:E; cbn [snd].
    + split; [intros _; apply Hiff; reflexivity|reflexivity].
    + split; [discriminate|]. intros H. apply Hiff in H. discriminate.
  - intros H. apply Hiff in H. unfold SpeechRecognizer.set_language.
    rewrite H. reflexivity.
  - intros H. unfold SpeechRecognizer.set_language.
    destruct (existsb _ _) eqn:E; [|reflexivity].
    exfalso. apply H, Hiff. reflexivity.
  - clear code Hiff. revert self Hin.
    induction codes as [|c codes IH]; intros self Hin; cbn [fold_left].
    + exact Hin.
    + apply IH. apply RecognizerMoreFacts.set_language_supported. exact Hin.
Qed.

Lemma set_language_keeps_default_supported_witness :
  In (SpeechRecognizer.default_language SpeechRecognizer.init)
     SpeechRecognizer.supported_languages /\
  SpeechRecognizer.set_language SpeechRecognizer.init "xx-XX"
    = (SpeechRecognizer.init, false) /\
  In (SpeechRecognizer.default_language
        (fold_left (fun s c => fst (SpeechRecognizer.set_language s c))
           ["en-US"; "xx-XX"]%string SpeechRecognizer.init))
     SpeechRecognizer.supported_languages.
Proof.
  assert (Hin : In (SpeechRecognizer.default_language SpeechRecognizer.init)
                   SpeechRecognizer.supported_languages)
    by (cbn; auto).
  split; [exact Hin|].
  destruct (set_language_keeps_default_supported SpeechRecognizer.init
              ["en-US"; "xx-XX"]%string "xx-XX" Hin) as (_ & _ & Hno & Hseq).
  split; [|exact Hseq].
  apply Hno. cbn. intros H.
  repeat (destruct H as [H|H]; [discriminate|]). exact H.
Defined.

(** X5.  Recognising never changes the engine, the default language or
    the configured model name of the recognizer, and a Whisper model
    that is already cached is kept: with a cached model, a whole batch
    leaves the recognizer exactly as it was, so the model is loaded at
    most once. *)
Theorem batch_recognize_keeps_recognizer :
  forall (b : SpeechRecognizer.backend) (audio_files : list string)
         (language : option string) (self : SpeechRecognizer.recognizer),
    let self' :=
      snd (SpeechRecognizer.batch_recognize b self audio_files language) in
    SpeechRecognizer.current_engine self'
      = SpeechRecognizer.current_engine self /\
    SpeechRecognizer.default_language self'
      = SpeechRecognizer.default_language self /\
    SpeechRecognizer.whisper_model_name self'
      = SpeechRecognizer.whisper_model_name self /\
    (forall m, SpeechRecognizer._whisper_model self = Some m ->
               self' = self).
Proof.
  intros b audio_files language.
  induction audio_files as [|file_path rest IH]; intros self.
  - cbn. repeat split.
  - cbn [SpeechRecognizer.batch_recognize].
    destruct (RecognizerMoreFacts.recognize_from_file_state b self file_path
                language) as (He & Hl & Hn & Hc).
    destruct (RecognizerMoreFacts.recognize_from_file_returns b self
                file_path language) as [[text confidence] Hr].
    rewrite Hr. cbn [snd].
    destruct (IH (snd (SpeechRecognizer.recognize_from_file b self file_path
                         language))) as (He' & Hl' & Hn' & Hc').
    split; [congruence|]. split; [congruence|]. split; [congruence|].
    intros m Hm. specialize (Hc m Hm).
    rewrite Hc in Hc' |- *. apply (Hc' m). exact Hm.
Qed.

Lemma batch_recognize_keeps_recognizer_witness :
  let self := SpeechRecognizer.mkRecognizer SpeechRecognizer.WHISPER
                "zh-CN" "base" (Some "base"%string) in
  SpeechRecognizer._whisper_model self = Some "base"%string /\
  snd (SpeechRecognizer.batch_recognize SpeechRecognizer.scored_backend self
         ["a.wav"; "b.wav"]%string None) = self.
Proof.
  intros self. split; [reflexivity|].
  exact (proj2 (proj2 (proj2
    (batch_recognize_keeps_recognizer SpeechRecognizer.scored_backend
       ["a.wav"; "b.wav"]%string None self))) "base"%string eq_refl).
Defined.

(** X6.  [recognize_from_file] never raises to its caller, and a file
    that cannot be read gives [(None, 0.0)] without consulting the engine
    or touching the recognizer. *)
Theorem recognize_from_file_never_raises :
  forall (b : SpeechRecognizer.backend) (self : SpeechRecognizer.recognizer)
         (audio_file_path : string) (language : option string),
    (exists r,
        fst (SpeechRecognizer.recognize_from_file b self audio_file_path
               language) = SpeechRecognizer.Return r) /\
    (forall e,
        SpeechRecognizer.audio_file_record b audio_file_path
          = SpeechRecognizer.Raise e ->
        SpeechRecognizer.recognize_from_file b self audio_file_path language
          = (SpeechRecognizer.Return (None, 0%float), self)).
Proof.
  intros b self audio_file_path language. split.
  - apply RecognizerMoreFacts.recognize_from_file_returns.
  - intros e He. unfold SpeechRecognizer.recognize_from_file.
    rewrite He. reflexivity.
Qed.

Lemma recognize_from_file_never_raises_witness :
  let b := SpeechRecognizer.mkBackend
             (fun _ _ => SpeechRecognizer.Raise
                           SpeechRecognizer.UnknownValueError)
             (fun name => SpeechRecognizer.Return name)
             (SpeechRecognizer.Return "/tmp/tmp0.wav"%string)
             (fun _ _ => SpeechRecognizer.Return tt)
             (fun _ _ _ => SpeechRecognizer.Raise
                             (SpeechRecognizer.RuntimeError "no model"))
             (fun _ => true)
             (fun _ => SpeechRecognizer.Return tt)
             (fun _ => SpeechRecognizer.Raise
                         (SpeechRecognizer.OSError "No such file"))
             (fun s => s) in
  SpeechRecognizer.recognize_from_file b SpeechRecognizer.init "missing.wav"
    None
  = (SpeechRecognizer.Return (None, 0%float), SpeechRecognizer.init).
Proof.
  intros b.
  exact (proj2 (recognize_from_file_never_raises b SpeechRecognizer.init
                  "missing.wav" None)
           (SpeechRecognizer.OSError "No such file") eq_refl).
Defined.

(** X7.  [batch_recognize] never raises and returns one result per input
    file, in the order of the input, each carrying its file path. *)
Theorem batch_recognize_one_result_per_file :
  forall (b : SpeechRecognizer.backend) (audio_files : list string)
         (language : option string) (self : SpeechRecognizer.recognizer),
    exists results,
      fst (SpeechRecognizer.batch_recognize b self audio_files language)
        = SpeechRecognizer.Return results /\
      map (fun r => fst (fst r)) results = audio_files /\
      length results = length audio_files.
Proof.
  intros b audio_files language.
  induction audio_files as [|file_path rest IH]; intros self.
  - exists []. repeat split.
  - cbn [SpeechRecognizer.batch_recognize].
    destruct (RecognizerMoreFacts.recognize_from_file_returns b self
                file_path language) as [[text confidence] Hr].
    rewrite Hr. cbn [fst].
    destruct (IH (snd (SpeechRecognizer.recognize_from_file b self file_path
                         language))) as (results & Hres & Hmap & Hlen).
    exists ((file_path, text, confidence) :: results).
    rewrite Hres. cbn. rewrite Hmap, Hlen. repeat split.
Qed.

(** X8.  With the Google engine selected, a text returned by the service
    is passed on unchanged with the fixed confidence 0.85, and the
    recognizer is left as it was. *)
Theorem google_result_has_fixed_confidence :
  forall (b : SpeechRecognizer.backend) (self : SpeechRecognizer.recognizer)
         (audio_data : list Z) (language : option string) (text : string),
    SpeechRecognizer.current_engine self = SpeechRecognizer.GOOGLE ->
    SpeechRecognizer.recognize_google b
      (SpeechRecognizer.mkAudioData audio_data 44100 2)
      (match language with
       | None => SpeechRecognizer.default_language self
       | Some l => l
       end) = SpeechRecognizer.Return text ->
    SpeechRecognizer.recognize_from_audio_data b self audio_data language
      = (SpeechRecognizer.Return (Some text, 0.85%float), self).
Proof.
  intros b self audio_data language text Heng Hok.
  unfold SpeechRecognizer.recognize_from_audio_data,
    SpeechRecognizer._recognize_audio, SpeechRecognizer._recognize_google.
  rewrite Heng. cbn [fst snd]. rewrite Hok. reflexivity.
Qed.

Lemma google_result_has_fixed_confidence_witness :
  let b := SpeechRecognizer.mkBackend
             (fun _ _ => SpeechRecognizer.Return "ni hao"%string)
             (fun name => SpeechRecognizer.Return name)
             (SpeechRecognizer.Return "/tmp/tmp0.wav"%string)
             (fun _ _ => SpeechRecognizer.Return tt)
             (fun _ _ _ => SpeechRecognizer.Raise
                             (SpeechRecognizer.RuntimeError "unused"))
             (fun _ => true)
             (fun _ => SpeechRecognizer.Return tt)
             (fun _ => SpeechRecognizer.Raise
                         (SpeechRecognizer.OSError "unused"))
             (fun s => s) in
  SpeechRecognizer.recognize_from_audio_data b SpeechRecognizer.init
    [1; 2]%Z None
  = (SpeechRecognizer.Return (Some "ni hao"%string, 0.85%float),
     SpeechRecognizer.init).
Proof.
  intros b.
  exact (google_result_has_fixed_confidence b SpeechRecognizer.init [1; 2]%Z
           None "ni hao" eq_refl eq_refl).
Defined.

(* ================================================================== *)
(** * Further properties: audio_recorder.py *)
(* ================================================================== *)

Module RecorderFacts.

Import AudioRecorder.

(** While recording on an open stream, the thread appends every chunk
    and touches nothing else. *)
Lemma _record_audio_appends :
  forall chunks streams h fs th cb_start cb_err calls log,
    _record_audio
      (mkRecorder streams (Some h) fs true th cb_start cb_err calls log)
      chunks
    = mkRecorder streams (Some h) (fs ++ chunks) true th cb_start cb_err
        calls log.
Proof.
  induction chunks as [|data chunks IH]; intros; unfold _record_audio in *;
    cbn [fold_left].
  - rewrite app_nil_r. reflexivity.
  - unfold _record_audio_step at 2. cbn [is_recording stream frames
      opened_streams recording_thread on_recording_start on_error start_calls
      error_log].
    rewrite IH, <- app_assoc. reflexivity.
Qed.

(** A recorder that is not recording ignores the thread. *)
Lemma _record_audio_idle :
  forall chunks r, is_recording r = false -> _record_audio r chunks = r.
Proof.
  induction chunks as [|data chunks IH]; intros r Hidle;
    unfold _record_audio in *; cbn [fold_left]; [reflexivity|].
  unfold _record_audio_step at 2. rewrite Hidle. apply IH. exact Hidle.
Qed.

End RecorderFacts.

(** X9.  A complete recording: starting an idle recorder whose device
    opens, letting the thread read [chunks] and stopping returns exactly
    the concatenation of these chunks ([None] when there are none),
    whatever frames an earlier recording had left; afterwards the
    recorder is idle again, its stream is closed, and a new start is
    accepted. *)
Theorem start_record_stop_returns_the_chunks :
  forall (device_open_error : option Z -> option string)
         (r : AudioRecorder.recorder) (device_index : option Z)
         (chunks : list (list Z)),
    AudioRecorder.is_recording r = false ->
    device_open_error device_index = None ->
    let r1 := fst (AudioRecorder.start_recording device_open_error r
                     device_index) in
    let stopped := AudioRecorder.stop_recording
                     (AudioRecorder._record_audio r1 chunks) in
    snd stopped = match chunks with
                  | [] => None
                  | _ => Some (concat chunks)
                  end /\
    AudioRecorder.is_recording (fst stopped) = false /\
    AudioRecorder.stream (fst stopped) = None /\
    snd (AudioRecorder.start_recording device_open_error (fst stopped)
           device_index) = true /\
    snd (AudioRecorder.stop_recording (fst stopped)) = None.
Proof.
  intros device_open_error r device_index chunks Hidle Hopen r1 stopped.
  assert (Hr1 : r1 =
    AudioRecorder.mkRecorder
      (AudioRecorder.opened_streams r
       ++ [length (AudioRecorder.opened_streams r)])
      (Some (length (AudioRecorder.opened_streams r))) [] true
      (Some (length (AudioRecorder.opened_streams r)))
      (AudioRecorder.on_recording_start r) (AudioRecorder.on_error r)
      (if AudioRecorder.on_recording_start r
       then S (AudioRecorder.start_calls r) else AudioRecorder.start_calls r)
      (AudioRecorder.error_log r)).
  { subst r1. unfold AudioRecorder.start_recording.
    rewrite Hidle, Hopen. reflexivity. }
  subst stopped. rewrite Hr1.
  rewrite RecorderFacts._record_audio_appends. cbn [app].
  unfold AudioRecorder.stop_recording at 2 3 4 5.
  cbn [AudioRecorder.is_recording negb AudioRecorder.frames].
  split.
  { destruct chunks; reflexivity. }
  destruct chunks as [|c chunks]; cbn [fst snd];
    (split; [reflexivity|]; split; [reflexivity|]);
    unfold AudioRecorder.start_recording, AudioRecorder.stop_recording;
    cbn [AudioRecorder.is_recording negb]; rewrite Hopen;
    split; reflexivity.
Qed.

Lemma start_record_stop_returns_the_chunks_witness :
  let r := AudioRecorder.mkRecorder [] None [[9; 9]%Z] false None false false
             0 [] in
  AudioRecorder.is_recording r = false /\
  snd (AudioRecorder.stop_recording
         (AudioRecorder._record_audio
            (fst (AudioRecorder.start_recording (fun _ => None) r None))
            [[1; 2]; [3; 4]]%Z))
  = Some [1; 2; 3; 4]%Z.
Proof.
  intros r. split; [reflexivity|].
  exact (proj1 (start_record_stop_returns_the_chunks (fun _ => None) r None
                  [[1; 2]; [3; 4]]%Z eq_refl eq_refl)).
Defined.

(** X10.  Chunks that arrive while the recorder is not recording are
    dropped, and stopping a recorder that is not recording returns
    [None] and changes nothing. *)
Theorem idle_recorder_ignores_chunks_and_stop :
  forall (r : AudioRecorder.recorder) (chunks : list (list Z)),
    AudioRecorder.is_recording r = false ->
    AudioRecorder._record_audio r chunks = r /\
    AudioRecorder.stop_recording r = (r, None).
Proof.
  intros r chunks Hidle. split.
  - apply RecorderFacts._record_audio_idle. exact Hidle.
  - unfold AudioRecorder.stop_recording. rewrite Hidle. reflexivity.
Qed.

Lemma idle_recorder_ignores_chunks_and_stop_witness :
  AudioRecorder.is_recording AudioRecorder.init = false /\
  AudioRecorder._record_audio AudioRecorder.init [[1; 2]%Z]
    = AudioRecorder.init.
Proof.
  split; [reflexivity|].
  exact (proj1 (idle_recorder_ignores_chunks_and_stop AudioRecorder.init
                  [[1; 2]%Z] eq_refl)).
Defined.

(* ================================================================== *)
(** * Further properties: config_manager.py *)
(* ================================================================== *)

Module ConfigMoreFacts.

Import ConfigManager.

(** A value on the way that is not a dictionary stops the navigation of
    [set]. *)
Lemma set_loop_blocked :
  forall current prefix v,
    resolves current prefix v ->
    (forall d, v <> Py.JObj d) ->
    forall more last_key value,
      set_loop current (prefix ++ more) last_key value = None.
Proof.
  intros current prefix v H.
  induction H as [v|d key rest child v Hget _ IH];
    intros Hscalar more last_key value.
  - destruct v as [| | | | | |d]; destruct more; try reflexivity;
      exfalso; exact (Hscalar d eq_refl).
  - cbn. rewrite Hget. rewrite (IH Hscalar). reflexivity.
Qed.

Lemma diverge_not_nil : forall p q, diverge p q -> q <> [].
Proof. intros p q H. destruct H; discriminate. Qed.

(** [set] along one path leaves what [get] finds along a diverging path. *)
Lemma get_loop_set_loop_other :
  forall init current last_key value config' q default,
    set_loop current init last_key value = Some config' ->
    diverge (init ++ [last_key]) q ->
    get_loop config' q default = get_loop current q default.
Proof.
  induction init as [|key rest IH];
    intros current last_key value config' q default Hset Hdiv;
    destruct current as [| | | | | |d]; try discriminate; cbn in Hset.
  - injection Hset as <-.
    inversion Hdiv as [k1 k2 r1 r2 Hne|k p q' Hd]; subst.
    + cbn. rewrite ConfigFacts.dict_get_set_other by exact Hne. reflexivity.
    + inversion Hd.
  - destruct (set_loop _ rest last_key value) as [child'|] eqn:E;
      [|discriminate].
    injection Hset as <-.
    inversion Hdiv as [k1 k2 r1 r2 Hne|k p q' Hd]; subst.
    + cbn. rewrite ConfigFacts.dict_get_set_other by exact Hne. reflexivity.
    + cbn. rewrite ConfigFacts.dict_get_set_same.
      rewrite (IH _ _ _ _ q' default E Hd).
      destruct (Py.dict_get d key) as [child|]; [reflexivity|].
      destruct q' as [|k2 r2]; [exfalso; exact (diverge_not_nil _ _ Hd eq_refl)|].
      reflexivity.
Qed.

End ConfigMoreFacts.

(** X11.  [set] fails, returning [False] and leaving the configuration
    as it is, whenever a proper prefix of the key path leads to a value
    that is not a dictionary (a setting cannot be put below a scalar). *)
Theorem set_below_scalar_fails :
  forall (save_ok : bool) (config : Py.json) (key_path : string)
         (value : Py.json) (auto_save : bool)
         (prefix more : list string) (last_key : string) (v : Py.json),
    Py.split "."%char key_path = prefix ++ more ++ [last_key] ->
    ConfigManager.resolves config prefix v ->
    (forall d, v <> Py.JObj d) ->
    ConfigManager.set save_ok config key_path value auto_save
      = (false, config).
Proof.
  intros save_ok config key_path value auto_save prefix more last_key v
         Hkeys Hres Hscalar.
  unfold ConfigManager.set. rewrite Hkeys, app_assoc.
  rewrite removelast_last, last_last.
  rewrite (ConfigMoreFacts.set_loop_blocked config prefix v Hres Hscalar).
  reflexivity.
Qed.

Lemma set_below_scalar_fails_witness :
  let config := Py.JObj [("speech"%string,
                          Py.JObj [("engine"%string, Py.JStr "google")])] in
  ConfigManager.set true config "speech.engine.name" (Py.JStr "x") true
    = (false, config).
Proof.
  intros config.
  apply (set_below_scalar_fails true config "speech.engine.name"
           (Py.JStr "x") true ["speech"; "engine"]%string []
           "name"%string (Py.JStr "google")).
  - reflexivity.
  - eapply ConfigManager.resolves_cons; [reflexivity|].
    eapply ConfigManager.resolves_cons; [reflexivity|].
    apply ConfigManager.resolves_nil.
  - intros d. discriminate.
Defined.

(** X12.  A successful [set] does not disturb other settings: for every
    key path that diverges from the one set (the two differ at a segment
    both have), [get] returns after the [set] what it returned before. *)
Theorem set_keeps_diverging_paths :
  forall (save_ok : bool) (config : Py.json) (key_path other_path : string)
         (value default : Py.json) (auto_save : bool),
    ConfigManager.diverge (Py.split "."%char key_path)
                          (Py.split "."%char other_path) ->
    ConfigManager.get
      (snd (ConfigManager.set save_ok config key_path value auto_save))
      other_path default
    = ConfigManager.get config other_path default.
Proof.
  intros save_ok config key_path other_path value default auto_save Hdiv.
  unfold ConfigManager.set, ConfigManager.get.
  set (keys := Py.split "."%char key_path) in *.
  assert (Hkeys : keys = removelast keys ++ [last keys EmptyString])
    by (apply app_removelast_last; apply ConfigFacts.split_not_nil).
  destruct (ConfigManager.set_loop config (removelast keys)
              (last keys EmptyString) value) as [config'|] eqn:E;
    cbn [snd]; [|reflexivity].
  eapply ConfigMoreFacts.get_loop_set_loop_other; [exact E|].
  rewrite <- Hkeys. exact Hdiv.
Qed.

Lemma set_keeps_diverging_paths_witness :
  let config := Py.JObj [("speech"%string,
                          Py.JObj [("engine"%string, Py.JStr "google");
                                   ("language"%string, Py.JStr "zh-CN")])] in
  ConfigManager.get
    (snd (ConfigManager.set true config "speech.language" (Py.JStr "en-US")
            true))
    "speech.engine" Py.JNull
  = Py.JStr "google".
Proof.
  intros config.
  rewrite (set_keeps_diverging_paths true config "speech.language"
             "speech.engine" (Py.JStr "en-US") Py.JNull true).
  - reflexivity.
  - apply ConfigManager.diverge_next. apply ConfigManager.diverge_here.
    discriminate.
Defined.

Module MergeFacts.

Import ConfigManager.

(** The deep merge is the loop of [merge_item] over the loaded items. *)
Lemma _merge_configs_fold :
  forall loaded default,
    _merge_configs default loaded = fold_left merge_item loaded default.
Proof.
  unfold _merge_configs.
  induction loaded as [|[key value] rest IH]; intros default;
    [reflexivity|].
  cbn [fold_left]. rewrite <- IH.
  unfold merge_item. cbn [fst snd _merge_configs_rec].
  destruct (Py.dict_get default key) as [[| | | | | |rd]|];
    destruct value as [| | | | | |vd]; reflexivity.
Qed.

Lemma dict_mem_set :
  forall d key value k,
    Py.dict_mem (Py.dict_set d key value) k
    = (String.eqb key k || Py.dict_mem d k)%bool.
Proof.
  intros d key value k. unfold Py.dict_mem.
  destruct (String.eqb key k) eqn:E.
  - apply String.eqb_eq in E. subst.
    rewrite ConfigFacts.dict_get_set_same. reflexivity.
  - apply String.eqb_neq in E.
    rewrite ConfigFacts.dict_get_set_other by exact E. reflexivity.
Qed.

Lemma fold_merge_mem :
  forall loaded default k,
    Py.dict_mem (fold_left merge_item loaded default) k
    = (Py.dict_mem default k || Py.dict_mem loaded k)%bool.
Proof.
  induction loaded as [|[key value] rest IH]; intros default k.
  - cbn. rewrite orb_false_r. reflexivity.
  - cbn [fold_left]. rewrite IH. unfold merge_item. cbn [fst snd].
    rewrite dict_mem_set.
    assert (Hhead : Py.dict_mem ((key, value) :: rest) k
                    = (String.eqb key k || Py.dict_mem rest k)%bool).
    { unfold Py.dict_mem. cbn [Py.dict_get].
      destruct (String.eqb key k); reflexivity. }
    rewrite Hhead.
    destruct (String.eqb key k), (Py.dict_mem default k),
      (Py.dict_mem rest k); reflexivity.
Qed.

Lemma fold_merge_absent :
  forall loaded default k,
    Py.dict_get loaded k = None ->
    Py.dict_get (fold_left merge_item loaded default) k
    = Py.dict_get default k.
Proof.
  induction loaded as [|[key value] rest IH]; intros default k Habs;
    [reflexivity|].
  cbn in Habs. destruct (String.eqb key k) eqn:E; [discriminate|].
  cbn [fold_left]. rewrite (IH _ _ Habs). unfold merge_item. cbn [fst snd].
  apply ConfigFacts.dict_get_set_other. apply String.eqb_neq. exact E.
Qed.

Lemma distinct_head_absent :
  forall (d : list (string * Py.json)) key value,
    distinct (map fst ((key, value) :: d)) = true ->
    Py.dict_get d key = None /\ distinct (map fst d) = true.
Proof.
  intros d key value H. cbn in H. apply andb_true_iff in H as [Hne Hd].
  split; [|exact Hd].
  apply negb_true_iff in Hne.
  induction d as [|[k v] d IH]; [reflexivity|].
  cbn in Hne. apply orb_false_iff in Hne as [Hk Hrest].
  cbn. rewrite String.eqb_sym, Hk. apply IH.
  - exact Hrest.
  - cbn in Hd. apply andb_true_iff in Hd. apply Hd.
Qed.

(** With distinct keys, the merged value at a loaded key is the loaded
    value, merged into the default when both are dictionaries. *)
Lemma fold_merge_present :
  forall loaded default k v,
    distinct (map fst loaded) = true ->
    Py.dict_get loaded k = Some v ->
    Py.dict_get (fold_left merge_item loaded default) k
    = Some (match Py.dict_get default k, v with
            | Some (Py.JObj rd), Py.JObj vd => Py.JObj (_merge_configs rd vd)
            | _, _ => v
            end).
Proof.
  induction loaded as [|[key value] rest IH]; intros default k v Hd Hget;
    [discriminate|].
  destruct (distinct_head_absent rest key value Hd) as [Habs Hrest].
  cbn in Hget. cbn [fold_left].
  destruct (String.eqb key k) eqn:E.
  - apply String.eqb_eq in E. subst key. injection Hget as <-.
    rewrite (fold_merge_absent _ _ _ Habs). unfold merge_item.
    cbn [fst snd]. apply ConfigFacts.dict_get_set_same.
  - rewrite (IH _ _ _ Hrest Hget). unfold merge_item. cbn [fst snd].
    rewrite ConfigFacts.dict_get_set_other
      by (apply String.eqb_neq; exact E).
    reflexivity.
Qed.

Lemma unique_keys_child :
  forall d k child,
    unique_keys (Py.JObj d) = true ->
    Py.dict_get d k = Some child ->
    unique_keys child = true.
Proof.
  intros d k child H Hget. cbn in H. apply andb_true_iff in H as [_ H].
  induction d as [|[key value] d IH]; [discriminate|].
  cbn in H. apply andb_true_iff in H as [Hv Hd].
  cbn in Hget. destruct (String.eqb key k).
  - injection Hget as <-. exact Hv.
  - apply IH; assumption.
Qed.

(** A loaded value that is not a dictionary wins at any depth. *)
Lemma merge_override :
  forall keys loaded default v,
    unique_keys (Py.JObj loaded) = true ->
    keys <> [] ->
    resolves (Py.JObj loaded) keys v ->
    (forall d, v <> Py.JObj d) ->
    resolves (Py.JObj (_merge_configs default loaded)) keys v.
Proof.
  induction keys as [|k rest IH]; intros loaded default v Hu Hne Hres Hscalar;
    [congruence|].
  inversion Hres as [|d key rest' child v' Hget Hrest]; subst.
  pose proof Hu as Hu'. cbn in Hu'. apply andb_true_iff in Hu' as [Hd _].
  pose proof (unique_keys_child _ _ _ Hu Hget) as Hchild.
  eapply resolves_cons.
  - rewrite _merge_configs_fold. apply fold_merge_present; eassumption.
  - destruct child as [| | | | | |cd];
      try (destruct (Py.dict_get default k) as [[| | | | | |rd]|];
           exact Hrest).
    destruct (Py.dict_get default k) as [[| | | | | |rd]|];
      try exact Hrest.
    apply IH; try assumption.
    intros ->. inversion Hrest; subst. exact (Hscalar cd eq_refl).
Qed.

End MergeFacts.

(** X13.  The deep merge keeps the defaults where the loaded
    configuration is silent: a key is in the merged configuration
    exactly when it is in the defaults or in the loaded one, and a
    top-level key that the loaded configuration lacks keeps its default
    value. *)
Theorem merge_keeps_defaults :
  forall (default loaded : list (string * Py.json)) (k : string),
    Py.dict_mem (ConfigManager._merge_configs default loaded) k
    = (Py.dict_mem default k || Py.dict_mem loaded k)%bool /\
    (Py.dict_get loaded k = None ->
     Py.dict_get (ConfigManager._merge_configs default loaded) k
     = Py.dict_get default k).
Proof.
  intros default loaded k. rewrite MergeFacts._merge_configs_fold. split.
  - apply MergeFacts.fold_merge_mem.
  - apply MergeFacts.fold_merge_absent.
Qed.

Lemma merge_keeps_defaults_witness :
  let default := [("speech"%string, Py.JObj [("engine"%string,
                                               Py.JStr "google")]);
                  ("version"%string, Py.JStr "1.0")] in
  let loaded := [("speech"%string, Py.JObj [("engine"%string,
                                              Py.JStr "whisper")])] in
  Py.dict_get loaded "version" = None /\
  Py.dict_get (ConfigManager._merge_configs default loaded) "version"
    = Some (Py.JStr "1.0").
Proof.
  intros default loaded. split; [reflexivity|].
  rewrite (proj2 (merge_keeps_defaults default loaded "version") eq_refl).
  reflexivity.
Defined.

(** X14.  In the deep merge a loaded setting overrides the default at
    any depth: when the loaded configuration (a dictionary without
    repeated keys, as [json.load] builds it) leads along a non-empty key
    path to a value that is not a dictionary, the merged configuration
    leads along the same path to the same value, and [get] returns it. *)
Theorem merge_loaded_value_wins :
  forall (default loaded : list (string * Py.json)) (key_path : string)
         (v fallback : Py.json),
    ConfigManager.unique_keys (Py.JObj loaded) = true ->
    ConfigManager.resolves (Py.JObj loaded) (Py.split "."%char key_path) v ->
    (forall d, v <> Py.JObj d) ->
    ConfigManager.resolves
      (Py.JObj (ConfigManager._merge_configs default loaded))
      (Py.split "."%char key_path) v /\
    ConfigManager.get
      (Py.JObj (ConfigManager._merge_configs default loaded))
      key_path fallback = v.
Proof.
  intros default loaded key_path v fallback Hu Hres Hscalar.
  assert (H : ConfigManager.resolves
                (Py.JObj (ConfigManager._merge_configs default loaded))
                (Py.split "."%char key_path) v).
  { apply MergeFacts.merge_override; try assumption.
    apply ConfigFacts.split_not_nil. }
  split; [exact H|].
  unfold ConfigManager.get. apply ConfigFacts.get_loop_resolves. exact H.
Qed.

Lemma merge_loaded_value_wins_witness :
  let default := [("speech"%string,
                   Py.JObj [("engine"%string, Py.JStr "google");
                            ("language"%string, Py.JStr "zh-CN")])] in
  let loaded := [("speech"%string,
                  Py.JObj [("language"%string, Py.JStr "en-US")])] in
  ConfigManager.get (Py.JObj (ConfigManager._merge_configs default loaded))
    "speech.language" Py.JNull = Py.JStr "en-US" /\
  ConfigManager.get (Py.JObj (ConfigManager._merge_configs default loaded))
    "speech.engine" Py.JNull = Py.JStr "google".
Proof.
  intros default loaded. split; [|reflexivity].
  apply (proj2 (merge_loaded_value_wins default loaded "speech.language"
                  (Py.JStr "en-US") Py.JNull eq_refl
                  ltac:(eapply ConfigManager.resolves_cons; [reflexivity|];
                        eapply ConfigManager.resolves_cons; [reflexivity|];
                        apply ConfigManager.resolves_nil)
                  ltac:(intros d; discriminate))).
Defined.

(** X15.  Whatever the configuration file holds, [load_main_config]
    leaves a configuration that has every key of the default
    configuration; a missing file gives the defaults with [True], and a
    file that cannot be parsed or does not hold a dictionary gives the
    defaults with [False]. *)
Theorem load_main_config_has_default_keys :
  forall (default_config : list (string * Py.json))
         (file : option (option Py.json)) (k : string),
    (Py.dict_mem default_config k = true ->
     Py.dict_mem (snd (ConfigManager.load_main_config default_config file)) k
     = true) /\
    (file = None ->
     ConfigManager.load_main_config default_config file
     = (true, default_config)) /\
    ((file = Some None \/
      exists j, file = Some (Some j) /\ forall d, j <> Py.JObj d) ->
     ConfigManager.load_main_config default_config file
     = (false, default_config)).
Proof.
  intros default_config file k. split; [|split].
  - intros Hk.
    destruct file as [[[| | | | | |loaded]|]|]; cbn [snd
      ConfigManager.load_main_config]; try exact Hk.
    rewrite MergeFacts._merge_configs_fold, MergeFacts.fold_merge_mem, Hk.
    reflexivity.
  - intros ->. reflexivity.
  - intros [->|(j & -> & Hj)]; [reflexivity|].
    destruct j as [| | | | | |d]; try reflexivity.
    exfalso. exact (Hj d eq_refl).
Qed.

Lemma load_main_config_has_default_keys_witness :
  let default_config := [("version"%string, Py.JStr "1.0")] in
  Py.dict_mem default_config "version" = true /\
  Py.dict_mem
    (snd (ConfigManager.load_main_config default_config
            (Some (Some (Py.JObj [("ui"%string, Py.JObj [])])))))
    "version" = true /\
  ConfigManager.load_main_config default_config (Some (Some (Py.JArr [])))
    = (false, default_config).
Proof.
  intros default_config.
  split; [reflexivity|]. split.
  - exact (proj1 (load_main_config_has_default_keys default_config
                    (Some (Some (Py.JObj [("ui"%string, Py.JObj [])])))
                    "version") eq_refl).
  - apply (proj2 (proj2 (load_main_config_has_default_keys default_config
                           (Some (Some (Py.JArr []))) "version"))).
    right. exists (Py.JArr []). split; [reflexivity|].
    intros d. discriminate.
Defined.

Module RecentFacts.

Import ConfigManager.

Lemma is_str_true :
  forall language x, is_str language x = true <-> x = Py.JStr language.
Proof.
  intros language x. destruct x; cbn; try (split; discriminate).
  rewrite String.eqb_eq. split; [intros ->; reflexivity|].
  intros H. injection H as ->. reflexivity.
Qed.

Lemma remove_first_In :
  forall language recent x,
    In x (remove_first language recent) -> In x recent.
Proof.
  induction recent as [|y rest IH]; intros x Hin; [exact Hin|].
  cbn in Hin. destruct (is_str language y).
  - right. exact Hin.
  - destruct Hin as [->|Hin]; [left; reflexivity|right; apply IH; exact Hin].
Qed.

Lemma remove_first_NoDup :
  forall language recent,
    NoDup recent ->
    NoDup (remove_first language recent) /\
    ~ In (Py.JStr language) (remove_first language recent).
Proof.
  induction recent as [|y rest IH]; intros Hnd.
  - split; [constructor|intros []].
  - inversion Hnd as [|y' rest' Hnotin Hrest]; subst. cbn.
    destruct (is_str language y) eqn:E.
    + apply is_str_true in E. subst y. split; assumption.
    + destruct (IH Hrest) as [Hnd' Hnot]. split.
      * constructor; [|exact Hnd'].
        intros Hin. apply Hnotin. eapply remove_first_In. exact Hin.
      * intros [Heq|Hin]; [|exact (Hnot Hin)].
        apply (proj2 (is_str_true language y)) in Heq. congruence.
Qed.

Lemma firstn_In_list :
  forall A (n : nat) (l : list A) x, In x (firstn n l) -> In x l.
Proof.
  intros A n l x Hin. rewrite <- (firstn_skipn n l).
  apply in_or_app. left. exact Hin.
Qed.

Lemma firstn_NoDup_list :
  forall A (n : nat) (l : list A), NoDup l -> NoDup (firstn n l).
Proof.
  intros A n l Hnd. rewrite <- (firstn_skipn n l) in Hnd.
  eapply NoDup_app_remove_r. exact Hnd.
Qed.

End RecentFacts.

(** X16.  [add_recent_language] keeps the list of recent languages most
    recent first, bounded and free of repetitions: when the stored value
    is a list (or is missing) and [max_recent] is at least 1, the new
    list starts with the language, has at most [max_recent] elements,
    holds nothing but the language and former elements, has no
    repetition if the former list had none, and no other preference is
    touched. *)
Theorem add_recent_language_front_bounded_distinct :
  forall (save_ok : bool) (user_preferences : list (string * Py.json))
         (language : string) (max_recent : Z) (recent : list Py.json),
    (Py.dict_get user_preferences "recent_languages" = Some (Py.JArr recent)
     \/ (Py.dict_get user_preferences "recent_languages" = None
         /\ recent = [])) ->
    (0 < max_recent)%Z ->
    let r := ConfigManager.add_recent_language save_ok user_preferences
               language max_recent in
    exists recent',
      Py.dict_get (snd r) "recent_languages" = Some (Py.JArr recent') /\
      fst r = save_ok /\
      hd_error recent' = Some (Py.JStr language) /\
      (Py.len recent' <= max_recent)%Z /\
      (forall x, In x recent' -> x = Py.JStr language \/ In x recent) /\
      (NoDup recent -> NoDup recent') /\
      (forall k, k <> "recent_languages"%string ->
                 Py.dict_get (snd r) k = Py.dict_get user_preferences k).
Proof.
  intros save_ok user_preferences language max_recent recent Hrecent Hmax r.
  set (recent1 := if existsb (ConfigManager.is_str language) recent
                  then ConfigManager.remove_first language recent
                  else recent).
  assert (Hr : r = (save_ok,
                    Py.dict_set user_preferences "recent_languages"
                      (Py.JArr (Py.slice_to max_recent
                                  (Py.JStr language :: recent1))))).
  { subst r. unfold ConfigManager.add_recent_language.
    destruct Hrecent as [->|[-> ->]]; reflexivity. }
  rewrite Hr. cbn [fst snd].
  exists (Py.slice_to max_recent (Py.JStr language :: recent1)).
  rewrite PyFacts.slice_to_nonneg by lia.
  assert (Hsub : forall x, In x recent1 -> In x recent).
  { intros x Hin. subst recent1.
    destruct (existsb _ recent); [|exact Hin].
    eapply RecentFacts.remove_first_In. exact Hin. }
  assert (Hfresh : NoDup recent ->
                   NoDup recent1 /\ ~ In (Py.JStr language) recent1).
  { intros Hnd. subst recent1.
    destruct (existsb _ recent) eqn:E.
    - apply RecentFacts.remove_first_NoDup. exact Hnd.
    - split; [exact Hnd|]. intros Hin.
      assert (existsb (ConfigManager.is_str language) recent = true).
      { apply existsb_exists. exists (Py.JStr language). split; [exact Hin|].
        apply RecentFacts.is_str_true. reflexivity. }
      congruence. }
  split; [apply ConfigFacts.dict_get_set_same|].
  split; [reflexivity|].
  split.
  { destruct (Z.to_nat max_recent) as [|n] eqn:E; [lia|reflexivity]. }
  split.
  { unfold Py.len. rewrite length_firstn. lia. }
  split.
  { intros x Hin. apply RecentFacts.firstn_In_list in Hin.
    destruct Hin as [<-|Hin]; [left; reflexivity|right; apply Hsub; exact Hin]. }
  split.
  { intros Hnd. destruct (Hfresh Hnd) as [Hnd1 Hnot].
    apply RecentFacts.firstn_NoDup_list. constructor; assumption. }
  intros k Hk. apply ConfigFacts.dict_get_set_other.
  intros Heq. apply Hk. symmetry. exact Heq.
Qed.

Lemma add_recent_language_front_bounded_distinct_witness :
  let prefs := [("recent_languages"%string,
                 Py.JArr [Py.JStr "zh-CN"; Py.JStr "en-US"])] in
  snd (ConfigManager.add_recent_language true prefs "en-US" 5)
  = [("recent_languages"%string,
      Py.JArr [Py.JStr "en-US"; Py.JStr "zh-CN"])] /\
  exists recent',
    Py.dict_get (snd (ConfigManager.add_recent_language true prefs "en-US" 5))
      "recent_languages" = Some (Py.JArr recent') /\
    hd_error recent' = Some (Py.JStr "en-US").
Proof.
  intros prefs. split; [reflexivity|].
  destruct (add_recent_language_front_bounded_distinct true prefs "en-US" 5
              [Py.JStr "zh-CN"; Py.JStr "en-US"] (or_introl eq_refl)
              ltac:(lia))
    as (recent' & Hget & _ & Hhd & _).
  exists recent'. split; assumption.
Defined.

(* ================================================================== *)
(** * Further properties: clipboard_manager.py *)
(* ================================================================== *)

Module ClipboardMoreFacts.

Section Manager.

Variable datetime : Type.
Variable _generate_id : datetime -> string -> string.

Local Abbreviation entry := (ClipboardManager.ClipboardEntry datetime).
Local Abbreviation manager := (ClipboardManager.manager datetime).

Lemma no_repeat_firstn :
  forall (n : nat) (h : list entry),
    ClipboardManager.no_repeat h -> ClipboardManager.no_repeat (firstn n h).
Proof.
  induction n as [|n IH]; intros h Hh; [exact I|].
  destruct h as [|e1 [|e2 rest]]; [exact I|destruct n; exact I|].
  destruct Hh as [Hne Hrest].
  destruct n as [|n']; [exact I|].
  change (firstn (S (S n')) (e1 :: e2 :: rest))
    with (e1 :: firstn (S n') (e2 :: rest)).
  specialize (IH (e2 :: rest) Hrest).
  change (firstn (S n') (e2 :: rest)) with (e2 :: firstn n' rest) in *.
  split; assumption.
Qed.

Lemma no_repeat_slice_to :
  forall (j : Z) (h : list entry),
    ClipboardManager.no_repeat h -> ClipboardManager.no_repeat (Py.slice_to j h).
Proof.
  intros j h Hh. unfold Py.slice_to.
  destruct (j <? 0)%Z; apply no_repeat_firstn; exact Hh.
Qed.

Lemma history_after_save :
  forall write_ok (m : manager),
    ClipboardManager.history
      (if ClipboardManager.auto_save m
       then fst (ClipboardManager.save_history write_ok m) else m)
    = ClipboardManager.history m.
Proof.
  intros write_ok m.
  destruct (ClipboardManager.auto_save m), write_ok; reflexivity.
Qed.

Lemma _add_to_history_no_repeat :
  forall write_ok (m : manager) (e : entry),
    ClipboardManager.no_repeat (ClipboardManager.history m) ->
    ClipboardManager.no_repeat
      (ClipboardManager.history
         (ClipboardManager._add_to_history write_ok m e)).
Proof.
  intros write_ok m e Hh.
  destruct (ClipboardFacts._add_to_history_cases datetime write_ok m e)
    as [(e0 & rest & _ & _ & ->)|[Hne ->]]; [exact Hh|].
  assert (H1 : ClipboardManager.no_repeat (e :: ClipboardManager.history m)).
  { destruct (ClipboardManager.history m) as [|e0 rest] eqn:E; [exact I|].
    split; [|exact Hh].
    intros Heq. apply (Hne e0 rest eq_refl). symmetry. exact Heq. }
  destruct (_ <? _)%Z; [apply no_repeat_slice_to|]; exact H1.
Qed.

Lemma _add_to_history_nonempty :
  forall write_ok (m : manager) (e : entry),
    ClipboardManager.content e <> EmptyString ->
    (forall x, In x (ClipboardManager.history m) ->
               ClipboardManager.content x <> EmptyString) ->
    forall x,
      In x (ClipboardManager.history
              (ClipboardManager._add_to_history write_ok m e)) ->
      ClipboardManager.content x <> EmptyString.
Proof.
  intros write_ok m e He Hh x Hin.
  destruct (ClipboardFacts._add_to_history_cases datetime write_ok m e)
    as [(e0 & rest & _ & _ & Heq)|[_ Heq]]; rewrite Heq in Hin.
  - apply Hh. exact Hin.
  - assert (Hin' : In x (e :: ClipboardManager.history m)).
    { destruct (_ <? _)%Z; [|exact Hin].
      unfold Py.slice_to in Hin.
      destruct (_ <? 0)%Z; eapply RecentFacts.firstn_In_list; exact Hin. }
    destruct Hin' as [<-|Hin']; [exact He|apply Hh; exact Hin'].
Qed.

Lemma delete_first_find :
  forall entry_id (h : list entry),
    find (fun e => String.eqb (ClipboardManager.id e) entry_id) h = None <->
    ClipboardManager.delete_first entry_id h = None.
Proof.
  intros entry_id h. induction h as [|e rest IH]; cbn; [tauto|].
  destruct (String.eqb (ClipboardManager.id e) entry_id).
  - split; discriminate.
  - destruct (ClipboardManager.delete_first entry_id rest).
    + split; [|discriminate]. intros H. apply IH in H. discriminate.
    + split; [reflexivity|]. intros _. apply IH. reflexivity.
Qed.

Lemma delete_first_length :
  forall entry_id (h h' : list entry),
    ClipboardManager.delete_first entry_id h = Some h' ->
    length h = S (length h').
Proof.
  intros entry_id h. induction h as [|e rest IH]; intros h' H;
    [discriminate|].
  cbn in H. destruct (String.eqb (ClipboardManager.id e) entry_id).
  - injection H as <-. reflexivity.
  - destruct (ClipboardManager.delete_first entry_id rest) as [rest'|];
      [|discriminate].
    injection H as <-. cbn. rewrite (IH rest' eq_refl). reflexivity.
Qed.

Lemma delete_first_other :
  forall entry_id other (h h' : list entry),
    ClipboardManager.delete_first entry_id h = Some h' ->
    other <> entry_id ->
    find (fun e => String.eqb (ClipboardManager.id e) other) h'
    = find (fun e => String.eqb (ClipboardManager.id e) other) h.
Proof.
  intros entry_id other h. induction h as [|e rest IH]; intros h' H Hne;
    [discriminate|].
  cbn in H. destruct (String.eqb (ClipboardManager.id e) entry_id) eqn:E.
  - injection H as <-. cbn.
    apply String.eqb_eq in E.
    destruct (String.eqb (ClipboardManager.id e) other) eqn:E';
      [|reflexivity].
    apply String.eqb_eq in E'. congruence.
  - destruct (ClipboardManager.delete_first entry_id rest) as [rest'|];
      [|discriminate].
    injection H as <-. cbn.
    destruct (String.eqb (ClipboardManager.id e) other); [reflexivity|].
    apply IH; [reflexivity|exact Hne].
Qed.

Lemma delete_first_sublist :
  forall entry_id (h h' : list entry) x,
    ClipboardManager.delete_first entry_id h = Some h' ->
    In x h' -> In x h.
Proof.
  intros entry_id h. induction h as [|e rest IH]; intros h' x H Hin;
    [discriminate|].
  cbn in H. destruct (String.eqb (ClipboardManager.id e) entry_id).
  - injection H as <-. right. exact Hin.
  - destruct (ClipboardManager.delete_first entry_id rest) as [rest'|];
      [|discriminate].
    injection H as <-. destruct Hin as [->|Hin]; [left; reflexivity|].
    right. eapply IH; [reflexivity|exact Hin].
Qed.

End Manager.

End ClipboardMoreFacts.

(** X17.  The clipboard history never shows the same content twice in a
    row: if no two neighbouring entries have equal content, this still
    holds after [copy_text] and after a round of the clipboard monitor,
    whatever the outcome of the external calls. *)
Theorem history_has_no_repeated_neighbours :
  forall (datetime : Type) (_generate_id : datetime -> string -> string)
         (now : datetime) (pyperclip_error : option string) (write_ok : bool)
         (clipboard : string) (m : ClipboardManager.manager datetime)
         (text : string) (metadata : option (list (string * Py.json)))
         (last_clipboard_content : string) (current_content : option string),
    ClipboardManager.no_repeat (ClipboardManager.history m) ->
    ClipboardManager.no_repeat
      (ClipboardManager.history
         (snd (fst (ClipboardManager.copy_text _generate_id now
                      pyperclip_error write_ok clipboard m text metadata))))
    /\
    ClipboardManager.no_repeat
      (ClipboardManager.history
         (fst (ClipboardManager.monitor_step _generate_id now write_ok m
                 last_clipboard_content current_content))).
Proof.
  intros datetime _generate_id now pyperclip_error write_ok clipboard m text
         metadata last_clipboard_content current_content Hh.
  split.
  - unfold ClipboardManager.copy_text.
    destruct pyperclip_error as [e|]; cbn [fst snd ClipboardManager.history];
      [exact Hh|].
    apply ClipboardMoreFacts._add_to_history_no_repeat. exact Hh.
  - unfold ClipboardManager.monitor_step.
    destruct current_content as [current|]; [|exact Hh].
    destruct (String.eqb current last_clipboard_content); [exact Hh|].
    cbn [fst]. destruct current; [exact Hh|].
    apply ClipboardMoreFacts._add_to_history_no_repeat. exact Hh.
Qed.

Lemma history_has_no_repeated_neighbours_witness :
  let e0 := ClipboardManager.mkEntry (datetime := unit) "b" "text" tt []
              "id1" in
  let e1 := ClipboardManager.mkEntry (datetime := unit) "a" "text" tt []
              "id0" in
  let m := ClipboardManager.mkManager 100 false [e0; e1] None false false
             [] [] in
  ClipboardManager.no_repeat (ClipboardManager.history m) /\
  ClipboardManager.no_repeat
    (ClipboardManager.history
       (snd (fst (ClipboardManager.copy_text (fun _ s => s) tt None true
                    "b" m "a" None)))).
Proof.
  intros e0 e1 m.
  assert (Hh : ClipboardManager.no_repeat (ClipboardManager.history m))
    by (cbn; split; [discriminate|exact I]).
  split; [exact Hh|].
  exact (proj1 (history_has_no_repeated_neighbours unit (fun _ s => s) tt
                  None true "b" m "a" None "b" None Hh)).
Defined.

(** X18.  The clipboard monitor records only new, non-empty content: a
    failed read, an unchanged clipboard and an empty clipboard leave the
    history as it is, and if no entry of the history has empty content
    then none has after a round of the monitor. *)
Theorem monitor_records_only_nonempty_changes :
  forall (datetime : Type) (_generate_id : datetime -> string -> string)
         (now : datetime) (write_ok : bool)
         (m : ClipboardManager.manager datetime)
         (last_clipboard_content : string) (current_content : option string),
    let r := ClipboardManager.monitor_step _generate_id now write_ok m
               last_clipboard_content current_content in
    ((current_content = None \/
      current_content = Some last_clipboard_content \/
      current_content = Some EmptyString) ->
     fst r = m) /\
    ((forall x, In x (ClipboardManager.history m) ->
                ClipboardManager.content x <> EmptyString) ->
     forall x, In x (ClipboardManager.history (fst r)) ->
               ClipboardManager.content x <> EmptyString).
Proof.
  intros datetime _generate_id now write_ok m last_clipboard_content
         current_content r.
  subst r. unfold ClipboardManager.monitor_step. split.
  - intros [->|[->| ->]]; [reflexivity| |].
    + rewrite String.eqb_refl. reflexivity.
    + destruct (String.eqb EmptyString last_clipboard_content); reflexivity.
  - intros Hh x.
    destruct current_content as [current|]; [|apply Hh].
    destruct (String.eqb current last_clipboard_content); [apply Hh|].
    cbn [fst]. destruct current as [|c rest]; [apply Hh|].
    apply ClipboardMoreFacts._add_to_history_nonempty; [|exact Hh].
    cbn. discriminate.
Qed.

Lemma monitor_records_only_nonempty_changes_witness :
  let m := ClipboardManager.mkManager (datetime := unit) 100 false [] None
             false false [] [] in
  fst (ClipboardManager.monitor_step (fun _ s => s) tt true m "old"
         (Some EmptyString)) = m.
Proof.
  intros m.
  apply (proj1 (monitor_records_only_nonempty_changes unit (fun _ s => s) tt
                  true m "old" (Some EmptyString))).
  right. right. reflexivity.
Defined.

(** X19.  [delete_entry] removes exactly the first entry with the given
    id: when no entry has the id it returns [False] and changes nothing;
    otherwise it returns [True], the history is one entry shorter, every
    remaining entry was there before, and the lookup of any other id
    gives what it gave before. *)
Theorem delete_entry_removes_one :
  forall (datetime : Type) (write_ok : bool)
         (m : ClipboardManager.manager datetime) (entry_id : string),
    let r := ClipboardManager.delete_entry write_ok m entry_id in
    (ClipboardManager.get_entry_by_id m entry_id = None ->
     r = (m, false)) /\
    (ClipboardManager.get_entry_by_id m entry_id <> None ->
     snd r = true /\
     length (ClipboardManager.history m)
       = S (length (ClipboardManager.history (fst r))) /\
     (forall x, In x (ClipboardManager.history (fst r)) ->
                In x (ClipboardManager.history m)) /\
     (forall other, other <> entry_id ->
        ClipboardManager.get_entry_by_id (fst r) other
        = ClipboardManager.get_entry_by_id m other)).
Proof.
  intros datetime write_ok m entry_id r. subst r.
  unfold ClipboardManager.delete_entry, ClipboardManager.get_entry_by_id.
  split.
  - intros Hnone.
    apply (ClipboardMoreFacts.delete_first_find datetime) in Hnone.
    rewrite Hnone. reflexivity.
  - intros Hsome.
    destruct (ClipboardManager.delete_first entry_id
                (ClipboardManager.history m)) as [h'|] eqn:E.
    + cbn [fst snd].
      rewrite (ClipboardMoreFacts.history_after_save datetime write_ok
                 (ClipboardManager.with_history m h')).
      cbn [ClipboardManager.with_history ClipboardManager.history].
      split; [reflexivity|]. split.
      * eapply ClipboardMoreFacts.delete_first_length. exact E.
      * split.
        -- intros x. eapply ClipboardMoreFacts.delete_first_sublist. exact E.
        -- intros other Hne.
           eapply ClipboardMoreFacts.delete_first_other; eassumption.
    + exfalso. apply Hsome.
      apply (ClipboardMoreFacts.delete_first_find datetime). exact E.
Qed.

Lemma delete_entry_removes_one_witness :
  let e0 := ClipboardManager.mkEntry (datetime := unit) "b" "text" tt []
              "id1" in
  let e1 := ClipboardManager.mkEntry (datetime := unit) "a" "text" tt []
              "id0" in
  let m := ClipboardManager.mkManager 100 false [e0; e1] None false false
             [] [] in
  ClipboardManager.get_entry_by_id m "id1" <> None /\
  ClipboardManager.get_entry_by_id
    (fst (ClipboardManager.delete_entry true m "id1")) "id0" = Some e1 /\
  ClipboardManager.delete_entry true m "zz" = (m, false).
Proof.
  intros e0 e1 m.
  assert (Hsome : ClipboardManager.get_entry_by_id m "id1" <> None)
    by (cbn; discriminate).
  split; [exact Hsome|]. split.
  - destruct (proj2 (delete_entry_removes_one unit true m "id1") Hsome)
      as (_ & _ & _ & Hother).
    rewrite (Hother "id0"%string) by discriminate. reflexivity.
  - exact (proj1 (delete_entry_removes_one unit true m "zz") eq_refl).
Defined.

(* ================================================================== *)
(** * Further properties: gui_main_qt.py *)
(* ================================================================== *)

Module GuiMoreFacts.

Section Window.

Variable t2s : string -> string.
Variable clock_iso : nat -> string.
Variable clock_timestamp : nat -> Z.
Variable datetime : Type.
Variable _generate_id : datetime -> string -> string.

Lemma entry_texts_length :
  forall entries texts,
    Gui.entry_texts entries = Some texts -> length texts = length entries.
Proof.
  induction entries as [|e rest IH]; intros texts H.
  - injection H as <-. reflexivity.
  - cbn in H. destruct e as [| | | | | |d]; try discriminate.
    destruct (Gui.entry_texts rest) as [ts|]; [|discriminate].
    injection H as <-. cbn. rewrite (IH ts eq_refl). reflexivity.
Qed.

Lemma slice_from_neg_length :
  forall A (n : Z) (l : list A),
    (0 < n)%Z -> (Py.len (Py.slice_from (- n) l) <= n)%Z.
Proof.
  intros A n l Hn. rewrite PyFacts.slice_from_neg by exact Hn.
  unfold Py.len. rewrite PyFacts.lastn_length. lia.
Qed.




(** A recognised text makes the worker emit its simplified form. *)
Lemma do_recognition_text :
  forall emit_type_error b (w : Gui.window datetime) wav_path text confidence,
    fst (SpeechRecognizer.recognize_from_file b
           (SpeechRecognizer.mkRecognizer SpeechRecognizer.WHISPER
              (SpeechRecognizer.default_language SpeechRecognizer.init)
              (Gui.current_model w) None)
           wav_path None)
      = SpeechRecognizer.Return (Some text, confidence) ->
    Gui.do_recognition t2s emit_type_error true b
      (SpeechRecognizer.Return tt) w wav_path
    = Some (t2s text).
Proof.
  intros emit_type_error b w wav_path text confidence H.
  unfold Gui.do_recognition. cbn [negb].
  rewrite H. reflexivity.
Qed.

End Window.

End GuiMoreFacts.

(** X20.  The history loaded at start-up is within the bound: for a
    bound [max_history] of at least 1, [load_history] leaves at most
    [max_history] entries whatever the history file holds, keeps the
    bound itself, and leaves the empty history when the file is missing
    or cannot be parsed. *)
Theorem load_history_within_bound :
  forall (datetime : Type) (w : Gui.window datetime),
    (0 < Gui.max_history w)%Z ->
    (Py.len (Gui.history (Gui.load_history w)) <= Gui.max_history w)%Z /\
    Gui.max_history (Gui.load_history w) = Gui.max_history w /\
    ((Gui.history_file w = Gui.NoFile \/ Gui.history_file w = Gui.Garbage) ->
     Gui.history (Gui.load_history w) = []).
Proof.
  intros datetime w HN. split; [|split].
  - unfold Gui.load_history. cbn [Gui.with_history Gui.history].
    destruct (Gui.history_file w) as [| |[| | | | |data|data]];
      try (cbn; lia).
    + apply GuiMoreFacts.slice_from_neg_length. exact HN.
    + destruct (Py.dict_get data "entries") as [[| | | | |entries|]|];
        try (cbn; lia).
      destruct (Gui.entry_texts _) as [texts|] eqn:E; [|cbn; lia].
      unfold Py.len. rewrite (GuiMoreFacts.entry_texts_length _ _ E).
      apply (GuiMoreFacts.slice_from_neg_length _ _ entries HN).
  - reflexivity.
  - intros [H|H]; unfold Gui.load_history; rewrite H; reflexivity.
Qed.

Lemma load_history_within_bound_witness :
  let w := Gui.mkWindow (datetime := unit) [] 2
             (Gui.Json (Py.JArr [Py.JStr "a"; Py.JStr "b"; Py.JStr "c"]))
             "" None "" [] "base" in
  (0 < Gui.max_history w)%Z /\
  (Py.len (Gui.history (Gui.load_history w)) <= 2)%Z /\
  Gui.history (Gui.load_history w) = [Py.JStr "b"; Py.JStr "c"].
Proof.
  intros w.
  assert (HN : (0 < Gui.max_history w)%Z) by (cbn; lia).
  split; [exact HN|]. split; [|reflexivity].
  exact (proj1 (load_history_within_bound unit w HN)).
Defined.

(** X21.  A recognised text is delivered whatever becomes of the save:
    when the recognition returns a text, the temporary file is removed
    and the clipboard call succeeds, the session sets the clipboard to
    the simplified text and appends it to a history below its bound, for
    every outcome of writing the history file. *)
Theorem recognized_text_is_delivered :
  forall (t2s : string -> string) (clock_iso : nat -> string)
         (clock_timestamp : nat -> Z) (datetime : Type)
         (_generate_id : datetime -> string -> string)
         (emit_type_error : string) (b : SpeechRecognizer.backend)
         (now : datetime) (manager_write_ok : bool) (io : Gui.write_result)
         (w : Gui.window datetime) (wav_path text : string)
         (confidence : float),
    fst (SpeechRecognizer.recognize_from_file b
           (SpeechRecognizer.mkRecognizer SpeechRecognizer.WHISPER
              (SpeechRecognizer.default_language SpeechRecognizer.init)
              (Gui.current_model w) None)
           wav_path None)
      = SpeechRecognizer.Return (Some text, confidence) ->
    (Py.len (Gui.history w) < Gui.max_history w)%Z ->
    let w' := Gui.recognition_session t2s clock_iso clock_timestamp
                _generate_id emit_type_error true b
                (SpeechRecognizer.Return tt) now None manager_write_ok io
                w wav_path in
    Gui.history w' = Gui.history w ++ [Py.JStr (t2s (t2s text))] /\
    Gui.clipboard w' = t2s (t2s text) /\
    Gui.max_history w' = Gui.max_history w.
Proof.
  intros t2s clock_iso clock_timestamp datetime _generate_id emit_type_error
         b now manager_write_ok io w wav_path text confidence Hok Hlen w'.
  subst w'. unfold Gui.recognition_session.
  rewrite (GuiMoreFacts.do_recognition_text t2s datetime emit_type_error b w
             wav_path text confidence Hok).
  destruct (GuiFacts.after_recognition_history t2s clock_iso clock_timestamp
              datetime _generate_id now None manager_write_ok io w (t2s text))
    as [Hh Hm].
  split; [|split].
  - rewrite Hh.
    destruct (Gui.max_history w <? _)%Z eqn:E; [|reflexivity].
    apply Z.ltb_lt in E. unfold Py.len in *. rewrite length_app in E.
    cbn [length] in E. lia.
  - apply DeliveryFacts.after_recognition_clipboard.
  - exact Hm.
Qed.

Lemma recognized_text_is_delivered_witness :
  let w := Gui.mkWindow (datetime := unit)
             [Py.JStr "hello"] 10 Gui.NoFile "hello" None "" [] "base" in
  let w' := Gui.recognition_session (fun s => s) (fun _ => ""%string)
              (fun _ => 0%Z) (fun _ s => s) "type error" true
              SpeechRecognizer.scored_backend (SpeechRecognizer.Return tt)
              tt None true Gui.DumpFailed w "temp_record.wav" in
  Gui.history w' = [Py.JStr "hello"; Py.JStr "ni hao"] /\
  Gui.clipboard w' = "ni hao"%string.
Proof.
  intros w w'.
  destruct (recognized_text_is_delivered (fun s => s) (fun _ => ""%string)
              (fun _ => 0%Z) unit (fun _ s => s) "type error"
              SpeechRecognizer.scored_backend tt true Gui.DumpFailed w
              "temp_record.wav" "ni hao"
              (SpeechRecognizer.arithmetic_mean [0.9%float; 0.5%float])
              ltac:(vm_compute; reflexivity) ltac:(cbn; lia))
    as (Hh & Hc & _).
  split; [exact Hh|exact Hc].
Defined.



(* ================================================================== *)
(** * Further properties: hotkey_manager.py *)
(* ================================================================== *)

Module HotkeyFacts.

Import HotkeyManager.

Lemma lookup_store_same :
  forall d k v, lookup (store d k v) k = Some v.
Proof.
  induction d as [|[k0 v0] d IH]; intros k v; cbn.
  - rewrite String.eqb_refl. reflexivity.
  - destruct (String.eqb k0 k) eqn:E; cbn; rewrite E; [reflexivity|apply IH].
Qed.

Lemma lookup_store_other :
  forall d k k' v, k <> k' -> lookup (store d k v) k' = lookup d k'.
Proof.
  induction d as [|[k0 v0] d IH]; intros k k' v Hne; cbn.
  - apply String.eqb_neq in Hne. rewrite Hne. reflexivity.
  - destruct (String.eqb k0 k) eqn:E; cbn.
    + apply String.eqb_eq in E. subst k0.
      apply String.eqb_neq in Hne. rewrite Hne. reflexivity.
    + destruct (String.eqb k0 k'); [reflexivity|]. apply IH. exact Hne.
Qed.

Lemma lookup_erase_same :
  forall d k, lookup (erase d k) k = None.
Proof.
  induction d as [|[k0 v0] d IH]; intros k; [reflexivity|].
  unfold erase in *. cbn.
  destruct (String.eqb k0 k) eqn:E; cbn; [apply IH|].
  rewrite E. apply IH.
Qed.

Lemma lookup_erase_other :
  forall d k k', k <> k' -> lookup (erase d k) k' = lookup d k'.
Proof.
  induction d as [|[k0 v0] d IH]; intros k k' Hne; [reflexivity|].
  unfold erase in *. cbn.
  destruct (String.eqb k0 k) eqn:E; cbn.
  - apply String.eqb_eq in E. subst k0.
    apply String.eqb_neq in Hne. rewrite Hne. apply IH.
    apply String.eqb_neq. exact Hne.
  - destruct (String.eqb k0 k'); [reflexivity|]. apply IH. exact Hne.
Qed.

Lemma In_unhook :
  forall h hotkey_id l,
    In h (unhook hotkey_id l) <-> In h l /\ h <> hotkey_id.
Proof.
  intros h hotkey_id l. unfold unhook. rewrite filter_In.
  rewrite negb_true_iff, Nat.eqb_neq. reflexivity.
Qed.

Lemma hook_held_iff :
  forall h l, existsb (Nat.eqb h) l = true <-> In h l.
Proof.
  intros h l. rewrite existsb_exists. split.
  - intros (x & Hin & Heq). apply Nat.eqb_eq in Heq. subst. exact Hin.
  - intros Hin. exists h. split; [exact Hin|apply Nat.eqb_refl].
Qed.

Lemma NoDup_snoc :
  forall (l : list nat) x, NoDup l -> ~ In x l -> NoDup (l ++ [x]).
Proof.
  induction l as [|y l IH]; intros x Hnd Hnot; cbn.
  - constructor; [intros []|constructor].
  - inversion Hnd as [|y' l' Hy Hl]; subst. constructor.
    + intros Hin. apply in_app_or in Hin. destruct Hin as [Hin|[Heq|[]]].
      * exact (Hy Hin).
      * apply Hnot. left. symmetry. exact Heq.
    + apply IH; [exact Hl|]. intros Hin. apply Hnot. right. exact Hin.
Qed.

Section Manager.

Variable darwin : bool.
Variable valid : string -> bool.

(** Putting a fresh handle on a hotkey after unhooking its former one. *)
Lemma replace_consistent :
  forall st hotkey,
    consistent valid st ->
    valid hotkey = true ->
    consistent valid
      (mkState (store (registered_hotkeys st) hotkey (next_handle st))
         (running st)
         (match lookup (registered_hotkeys st) hotkey with
          | Some old => unhook old (hooks st)
          | None => hooks st
          end ++ [next_handle st])
         (S (next_handle st))).
Proof.
  intros st hotkey (Hhooks & Hnd & Hinj & Hlt & Hvalid) Hv.
  set (reg := registered_hotkeys st) in *.
  set (n := next_handle st) in *.
  set (hooks1 := match lookup reg hotkey with
                 | Some old => unhook old (hooks st)
                 | None => hooks st
                 end).
  assert (Hsub : forall h, In h hooks1 <->
                           In h (hooks st) /\ lookup reg hotkey <> Some h).
  { intros h. subst hooks1. destruct (lookup reg hotkey) as [old|].
    - rewrite In_unhook. split; intros [H1 H2]; split; try exact H1.
      + intros Heq. injection Heq as ->. exact (H2 eq_refl).
      + intros ->. exact (H2 eq_refl).
    - split; [intros H; split; [exact H|discriminate]|intros [H _]; exact H]. }
  assert (Hnd1 : NoDup hooks1).
  { subst hooks1. destruct (lookup reg hotkey); [|exact Hnd].
    unfold unhook. apply NoDup_filter. exact Hnd. }
  unfold consistent.
  cbn [registered_hotkeys hooks next_handle running].
  split; [|split; [|split; [|split]]].
  - intros h. rewrite in_app_iff. split.
    + intros [Hin|[<-|[]]].
      * apply Hsub in Hin as [Hin Hnot].
        apply Hhooks in Hin as [k Hk]. exists k.
        rewrite lookup_store_other; [exact Hk|].
        intros <-. exact (Hnot Hk).
      * exists hotkey. apply lookup_store_same.
    + intros [k Hk].
      destruct (String.eqb hotkey k) eqn:E.
      * apply String.eqb_eq in E. subst k.
        rewrite lookup_store_same in Hk. injection Hk as <-.
        right. left. reflexivity.
      * apply String.eqb_neq in E.
        rewrite lookup_store_other in Hk by exact E.
        left. apply Hsub. split.
        -- apply Hhooks. exists k. exact Hk.
        -- intros Hold. apply E. exact (Hinj _ _ _ Hold Hk).
  - apply NoDup_snoc; [exact Hnd1|].
    intros Hin. apply Hsub in Hin as [Hin _]. apply Hlt in Hin. lia.
  - intros k1 k2 h H1 H2.
    destruct (string_dec hotkey k1) as [E1|E1],
             (string_dec hotkey k2) as [E2|E2].
    + congruence.
    + subst k1. rewrite lookup_store_same in H1. injection H1 as <-.
      rewrite lookup_store_other in H2 by exact E2.
      assert (Hin : In n (hooks st)) by (apply Hhooks; exists k2; exact H2).
      apply Hlt in Hin. lia.
    + subst k2. rewrite lookup_store_same in H2. injection H2 as <-.
      rewrite lookup_store_other in H1 by exact E1.
      assert (Hin : In n (hooks st)) by (apply Hhooks; exists k1; exact H1).
      apply Hlt in Hin. lia.
    + rewrite lookup_store_other in H1 by exact E1.
      rewrite lookup_store_other in H2 by exact E2.
      exact (Hinj _ _ _ H1 H2).
  - intros h Hin. apply in_app_or in Hin. destruct Hin as [Hin|[<-|[]]].
    + apply Hsub in Hin as [Hin _]. apply Hlt in Hin. lia.
    + lia.
  - intros k h Hk.
    destruct (String.eqb hotkey k) eqn:E.
    + apply String.eqb_eq in E. subst k. exact Hv.
    + apply String.eqb_neq in E.
      rewrite lookup_store_other in Hk by exact E.
      exact (Hvalid _ _ Hk).
Qed.

Lemma register_hotkey_valid :
  forall st hotkey,
    consistent valid st ->
    valid hotkey = true ->
    register_hotkey false valid st hotkey
    = mkState (store (registered_hotkeys st) hotkey (next_handle st))
        (running st)
        (match lookup (registered_hotkeys st) hotkey with
         | Some old => unhook old (hooks st)
         | None => hooks st
         end ++ [next_handle st])
        (S (next_handle st)).
Proof.
  intros st hotkey (Hhooks & _) Hv. unfold register_hotkey. rewrite Hv.
  destruct (lookup (registered_hotkeys st) hotkey) as [old|] eqn:E;
    [|reflexivity].
  assert (Hin : In old (hooks st)) by (apply Hhooks; exists hotkey; exact E).
  apply hook_held_iff in Hin. rewrite Hin. reflexivity.
Qed.

Lemma register_hotkey_consistent :
  forall st hotkey,
    consistent valid st ->
    consistent valid (register_hotkey darwin valid st hotkey).
Proof.
  intros st hotkey Hc. destruct darwin eqn:Hd.
  - unfold register_hotkey. exact Hc.
  - destruct (valid hotkey) eqn:Hv.
    + rewrite (register_hotkey_valid st hotkey Hc Hv).
      apply replace_consistent; assumption.
    + unfold register_hotkey. rewrite Hv.
      destruct (lookup (registered_hotkeys st) hotkey) as [old|] eqn:E;
        [|exact Hc].
      destruct Hc as (_ & _ & _ & _ & Hvalid).
      rewrite (Hvalid _ _ E) in Hv. discriminate.
Qed.

Lemma unregister_hotkey_consistent :
  forall st hotkey,
    consistent valid st ->
    exists st',
      unregister_hotkey st hotkey = Some st' /\
      consistent valid st' /\
      lookup (registered_hotkeys st') hotkey = None.
Proof.
  intros st hotkey Hc.
  pose proof Hc as (Hhooks & Hnd & Hinj & Hlt & Hvalid).
  unfold unregister_hotkey.
  destruct (lookup (registered_hotkeys st) hotkey) as [old|] eqn:E.
  - assert (Hin : In old (hooks st)) by (apply Hhooks; exists hotkey; exact E).
    apply hook_held_iff in Hin. rewrite Hin.
    eexists. split; [reflexivity|].
    cbn [registered_hotkeys]. split; [|apply lookup_erase_same].
    unfold consistent. cbn [registered_hotkeys hooks next_handle].
    split; [|split; [|split; [|split]]].
    + intros h. rewrite In_unhook. split.
      * intros [Hh Hne]. apply Hhooks in Hh as [k Hk]. exists k.
        rewrite lookup_erase_other; [exact Hk|].
        intros <-. apply Hne. congruence.
      * intros [k Hk].
        destruct (String.eqb hotkey k) eqn:Ek.
        -- apply String.eqb_eq in Ek. subst k.
           rewrite lookup_erase_same in Hk. discriminate.
        -- apply String.eqb_neq in Ek.
           rewrite lookup_erase_other in Hk by exact Ek. split.
           ++ apply Hhooks. exists k. exact Hk.
           ++ intros ->. apply Ek. exact (Hinj _ _ _ E Hk).
    + unfold unhook. apply NoDup_filter. exact Hnd.
    + intros k1 k2 h H1 H2.
      destruct (String.eqb hotkey k1) eqn:E1;
        [apply String.eqb_eq in E1; subst k1;
         rewrite lookup_erase_same in H1; discriminate|].
      destruct (String.eqb hotkey k2) eqn:E2;
        [apply String.eqb_eq in E2; subst k2;
         rewrite lookup_erase_same in H2; discriminate|].
      apply String.eqb_neq in E1. apply String.eqb_neq in E2.
      rewrite lookup_erase_other in H1 by exact E1.
      rewrite lookup_erase_other in H2 by exact E2.
      exact (Hinj _ _ _ H1 H2).
    + intros h Hh. apply In_unhook in Hh as [Hh _]. exact (Hlt _ Hh).
    + intros k h Hk.
      destruct (String.eqb hotkey k) eqn:Ek.
      * apply String.eqb_eq in Ek. subst k.
        rewrite lookup_erase_same in Hk. discriminate.
      * apply String.eqb_neq in Ek.
        rewrite lookup_erase_other in Hk by exact Ek.
        exact (Hvalid _ _ Hk).
  - exists st. split; [reflexivity|]. split; [exact Hc|exact E].
Qed.

Lemma init_consistent : consistent valid init.
Proof.
  unfold consistent. cbn. split; [|split; [|split; [|split]]].
  - intros h. split; [intros []|intros [k Hk]; discriminate].
  - constructor.
  - intros k1 k2 h H. discriminate.
  - intros h [].
  - intros k h H. discriminate.
Qed.

Lemma stop_listening_consistent :
  forall st, consistent valid (stop_listening st).
Proof.
  intros st. unfold consistent. cbn. split; [|split; [|split; [|split]]].
  - intros h. split; [intros []|intros [k Hk]; discriminate].
  - constructor.
  - intros k1 k2 h H. discriminate.
  - intros h [].
  - intros k h H. discriminate.
Qed.

End Manager.

End HotkeyFacts.

(** X23.  The hotkey manager and the keyboard library stay in step: if
    the library holds exactly one handle for each registered hotkey
    (the state [consistent]), it still does after [register_hotkey],
    after [unregister_hotkey], which then does not raise and leaves the
    hotkey unregistered, and after [stop_listening]; so registering a
    hotkey again replaces its handler instead of adding a second one.
    Off macOS a hotkey the library can parse is registered under the
    fresh handle; on macOS registering changes nothing. *)
Theorem hotkeys_have_one_handler :
  forall (darwin : bool) (valid : string -> bool)
         (st : HotkeyManager.state) (hotkey : string),
    HotkeyManager.consistent valid st ->
    HotkeyManager.consistent valid
      (HotkeyManager.register_hotkey darwin valid st hotkey) /\
    (exists st',
        HotkeyManager.unregister_hotkey st hotkey = Some st' /\
        HotkeyManager.consistent valid st' /\
        HotkeyManager.lookup (HotkeyManager.registered_hotkeys st') hotkey
          = None) /\
    HotkeyManager.consistent valid (HotkeyManager.stop_listening st) /\
    (darwin = false -> valid hotkey = true ->
     HotkeyManager.lookup
       (HotkeyManager.registered_hotkeys
          (HotkeyManager.register_hotkey darwin valid st hotkey)) hotkey
     = Some (HotkeyManager.next_handle st) /\
     length (HotkeyManager.hooks
               (HotkeyManager.register_hotkey darwin valid st hotkey))
     = match HotkeyManager.lookup (HotkeyManager.registered_hotkeys st)
               hotkey with
       | Some _ => length (HotkeyManager.hooks st)
       | None => S (length (HotkeyManager.hooks st))
       end) /\
    (darwin = true ->
     HotkeyManager.register_hotkey darwin valid st hotkey = st).
Proof.
  intros darwin valid st hotkey Hc.
  split; [apply HotkeyFacts.register_hotkey_consistent; exact Hc|].
  split; [apply HotkeyFacts.unregister_hotkey_consistent; exact Hc|].
  split; [apply HotkeyFacts.stop_listening_consistent|].
  split.
  - intros -> Hv.
    rewrite (HotkeyFacts.register_hotkey_valid valid st hotkey Hc Hv).
    cbn [HotkeyManager.registered_hotkeys HotkeyManager.hooks].
    split; [apply HotkeyFacts.lookup_store_same|].
    rewrite length_app. cbn [length].
    destruct (HotkeyManager.lookup (HotkeyManager.registered_hotkeys st)
                hotkey) as [old|] eqn:E; [|lia].
    destruct Hc as (Hhooks & Hnd & _).
    assert (Hin : In old (HotkeyManager.hooks st))
      by (apply Hhooks; exists hotkey; exact E).
    clear Hhooks E.
    induction (HotkeyManager.hooks st) as [|h l IH]; [destruct Hin|].
    inversion Hnd as [|h' l' Hh Hl]; subst.
    unfold HotkeyManager.unhook in *. cbn [filter].
    destruct (Nat.eqb h old) eqn:E.
    + apply Nat.eqb_eq in E. subst h. cbn [negb].
      assert (Hsame : filter (fun h => negb (Nat.eqb h old)) l = l).
      { clear IH Hin Hnd Hl. induction l as [|y l IHl]; [reflexivity|].
        cbn. destruct (Nat.eqb y old) eqn:Ey.
        - apply Nat.eqb_eq in Ey. subst y. exfalso. apply Hh. left.
          reflexivity.
        - cbn. rewrite IHl; [reflexivity|].
          intros Hin. apply Hh. right. exact Hin. }
      rewrite Hsame. cbn [length]. lia.
    + cbn [negb length]. destruct Hin as [Heq|Hin].
      * apply Nat.eqb_neq in E. congruence.
      * specialize (IH Hl Hin). lia.
  - intros ->. reflexivity.
Qed.

Lemma hotkeys_have_one_handler_witness :
  let valid := fun _ : string => true in
  let st := HotkeyManager.register_hotkey false valid HotkeyManager.init
              "ctrl+shift+r" in
  HotkeyManager.consistent valid st /\
  HotkeyManager.hooks (HotkeyManager.register_hotkey false valid st
                         "ctrl+shift+r") = [1%nat] /\
  HotkeyManager.consistent valid
    (HotkeyManager.register_hotkey false valid st "ctrl+shift+r").
Proof.
  intros valid st.
  assert (Hst : HotkeyManager.consistent valid st).
  { exact (proj1 (hotkeys_have_one_handler false valid HotkeyManager.init
                    "ctrl+shift+r" (HotkeyFacts.init_consistent valid))). }
  split; [exact Hst|]. split; [reflexivity|].
  exact (proj1 (hotkeys_have_one_handler false valid st "ctrl+shift+r" Hst)).
Defined.
